(** * Facebook Pages pipeline: a shallow embedding of
      [facebook_pages_pipeline.py] and the properties of its reshaping code.

    The pipeline reads parsed JSON, reshapes it into flat records (Python
    dicts) and yields them.  The embedding keeps the dynamic features the
    code relies on: [dict.get] with and without a default, truthiness tests,
    insertion-ordered dicts updated in place, [try]/[except] blocks, and the
    exceptions that escape them.  The wall clock ([datetime.now()]), the
    ISO-8601 parser of the standard library ([datetime.fromisoformat]) and the
    HTTP collaborator ([requests.get]) are parameters of the development. *)

From Stdlib Require Import String Ascii List ZArith Bool Arith Lia.
From Stdlib Require QArith.
Import ListNotations.
Open Scope string_scope.
Set Warnings "-notation-for-abbreviation".

(** ** Python values *)

(** The result of [response.json()].  Numbers are integers: the Graph API
    reports counts; fractional numbers play no role in the code. *)
#[warnings="-register-all"]
Inductive json : Type :=
| JNull
| JBool (b : bool)
| JInt (z : Z)
| JStr (s : string)
| JArr (l : list json)
| JObj (l : list (string * json)).

(** Exceptions that the modelled code can meet. Only [RequestException] is
    named by an [except] clause of the source. *)
Inductive pyexn : Type :=
| AttributeError
| TypeError
| KeyError
| IndexError
| ValueError
| RequestException.

Inductive result (A : Type) : Type :=
| Ok (a : A)
| Raise (e : pyexn).
Arguments Ok {A} a.
Arguments Raise {A} e.

Definition bind {A B} (m : result A) (f : A -> result B) : result B :=
  match m with
  | Ok a => f a
  | Raise e => Raise e
  end.

Notation "x <- m ;; k" := (bind m (fun x => k))
  (at level 61, m at next level, right associativity).

(** [bool(x)] *)
Definition truthy (j : json) : bool :=
  match j with
  | JNull => false
  | JBool b => b
  | JInt z => negb (Z.eqb z 0)
  | JStr s => negb (String.eqb s "")
  | JArr l => match l with [] => false | _ => true end
  | JObj l => match l with [] => false | _ => true end
  end.

(** Hashable values used as dict keys.  [True] and [1] are the same key. *)
Inductive pykey : Type :=
| KNone
| KInt (z : Z)
| KStr (s : string).

(** [hash(x)] succeeds on scalars and raises [TypeError] on lists and dicts. *)
Definition to_key (j : json) : option pykey :=
  match j with
  | JNull => Some KNone
  | JBool b => Some (KInt (if b then 1 else 0))
  | JInt z => Some (KInt z)
  | JStr s => Some (KStr s)
  | JArr _ => None
  | JObj _ => None
  end.

Class Key (K : Type) : Type := {
  keqb : K -> K -> bool;
  keqb_eq : forall a b, keqb a b = true <-> a = b
}.

#[global, refine] Instance string_Key : Key string := {| keqb := String.eqb |}.
Proof. intros a b. apply String.eqb_eq. Defined.

Definition pykey_eqb (a b : pykey) : bool :=
  match a, b with
  | KNone, KNone => true
  | KInt x, KInt y => Z.eqb x y
  | KStr x, KStr y => String.eqb x y
  | _, _ => false
  end.

#[global, refine] Instance pykey_Key : Key pykey := {| keqb := pykey_eqb |}.
Proof.
  intros a b. destruct a, b; simpl; split; intro H;
    try discriminate; try reflexivity.
  - apply Z.eqb_eq in H. congruence.
  - inversion H. apply Z.eqb_refl.
  - apply String.eqb_eq in H. congruence.
  - inversion H. apply String.eqb_refl.
Defined.

(** ** Insertion-ordered dicts *)

Notation dict K V := (list (K * V)) (only parsing).

Section Dict.
Context {K V : Type} `{Key K}.

(** [d.get(k)] as an option; [k in d] *)
Fixpoint dict_get (k : K) (d : dict K V) : option V :=
  match d with
  | [] => None
  | (k', v) :: r => if keqb k k' then Some v else dict_get k r
  end.

Definition dict_mem (k : K) (d : dict K V) : bool :=
  match dict_get k d with Some _ => true | None => false end.

(** [d[k] = v]: an existing key keeps its position, a new one goes last. *)
Fixpoint dict_set (k : K) (v : V) (d : dict K V) : dict K V :=
  match d with
  | [] => [(k, v)]
  | (k', v') :: r =>
      if keqb k k' then (k', v) :: r else (k', v') :: dict_set k v r
  end.

Definition dict_keys (d : dict K V) : list K := map fst d.
End Dict.

(** [obj.get(k)] and [obj.get(k, default)] on a parsed JSON object *)
Definition py_get (o : list (string * json)) (k : string) : json :=
  match dict_get k o with Some v => v | None => JNull end.

Definition py_get_default (o : list (string * json)) (k : string) (dflt : json)
  : json :=
  match dict_get k o with Some v => v | None => dflt end.

(** ** Strings *)

(** [s.replace(c, by)] for a one-character pattern.  The patterns used by the
    code are ASCII, so acting on the UTF-8 bytes agrees with acting on code
    points. *)
Fixpoint replace_char (c : ascii) (by_ : string) (s : string) : string :=
  match s with
  | EmptyString => EmptyString
  | String a r =>
      if Ascii.eqb a c then by_ ++ replace_char c by_ r
      else String a (replace_char c by_ r)
  end.

(** [c in s] *)
Fixpoint contains_char (c : ascii) (s : string) : bool :=
  match s with
  | EmptyString => false
  | String a r => if Ascii.eqb a c then true else contains_char c r
  end.

(** [s.split(c)[0]] *)
Fixpoint split_head (c : ascii) (s : string) : string :=
  match s with
  | EmptyString => EmptyString
  | String a r => if Ascii.eqb a c then EmptyString else String a (split_head c r)
  end.

(** ** Loops *)

(** A [for] loop whose body may raise: the first exception ends it. *)
Fixpoint for_each {A S : Type} (body : A -> S -> result S) (l : list A) (s : S)
  : result S :=
  match l with
  | [] => Ok s
  | x :: r => s' <- body x s ;; for_each body r s'
  end.

(** [for x in j]: lists give their elements, strings their characters, dicts
    their keys; other values are not iterable.  The characters of a string
    are taken byte by byte; the code calls a dict method on each of them,
    which fails on the first one whatever its width. *)
Definition chars (s : string) : list json :=
  map (fun a => JStr (String a EmptyString)) (list_ascii_of_string s).

Definition py_iter (j : json) : result (list json) :=
  match j with
  | JArr l => Ok l
  | JStr s => Ok (chars s)
  | JObj o => Ok (map (fun kv => JStr (fst kv)) o)
  | _ => Raise TypeError
  end.

(** ** The wall clock *)

(** One reading of [datetime.now()], through the two renderings the code
    uses: [.isoformat()] and [.date().isoformat()]. *)
Record pydatetime : Type := {
  isoformat : string;
  date_isoformat : string
}.

(** A record yielded to the loader *)
Notation record := (list (pykey * json)) (only parsing).

(** [metrics_by_date] together with the number of clock readings so far *)
Notation flat_state := (list (string * list (pykey * json)) * nat)%type
  (only parsing).

(** A value-point that the flattener retains: its date, the column it
    is stored in and its value. *)
Notation point := (string * pykey * json)%type (only parsing).

(** ** The fixed catalogs *)

(** The keys of [missing_metrics] (lines 171-195), in source order *)
Definition missing_metrics : list string :=
  [ "page_negative_feedback";
    "page_impressions_organic";
    "page_fans_online_per_day";
    "page_places_checkin_total";
    "page_video_complete_views_30_s";
    "page_video_complete_views_30_s_autoplayed";
    "page_video_complete_views_30_s_click_to_play";
    "page_video_complete_views_30_s_organic";
    "page_video_complete_views_30_s_paid";
    "page_video_complete_views_30_s_repeat_views";
    "page_video_repeat_views";
    "page_video_view_time";
    "page_video_views_10_s";
    "page_video_views_10_s_autoplayed";
    "page_video_views_10_s_click_to_play";
    "page_video_views_10_s_organic";
    "page_video_views_10_s_paid";
    "page_video_views_10_s_repeat";
    "page_video_views_autoplayed";
    "page_video_views_click_to_play";
    "page_video_views_organic";
    "page_video_views_paid" ].

(** The metric keys preset to [None] in [base_record] (lines 294-332) *)
Definition post_metrics_catalog : list string :=
  [ "post_clicks";
    "post_engaged_fan";
    "post_engaged_users";
    "post_impressions";
    "post_impressions_fan";
    "post_impressions_nonviral";
    "post_impressions_organic";
    "post_impressions_paid";
    "post_impressions_viral";
    "post_negative_feedback";
    "post_reactions_anger_total";
    "post_reactions_haha_total";
    "post_reactions_like_total";
    "post_reactions_love_total";
    "post_reactions_sorry_total";
    "post_reactions_wow_total";
    "post_video_avg_time_watched";
    "post_video_complete_views_30_s_autoplayed";
    "post_video_complete_views_30_s_clicked_to_play";
    "post_video_complete_views_30_s_organic";
    "post_video_complete_views_30_s_paid";
    "post_video_complete_views_organic";
    "post_video_complete_views_paid";
    "post_video_length";
    "post_video_view_time";
    "post_video_view_time_organic";
    "post_video_views";
    "post_video_views_10_s";
    "post_video_views_10_s_autoplayed";
    "post_video_views_10_s_clicked_to_play";
    "post_video_views_10_s_organic";
    "post_video_views_10_s_paid";
    "post_video_views_10_s_sound_on";
    "post_video_views_15_s";
    "post_video_views_autoplayed";
    "post_video_views_clicked_to_play";
    "post_video_views_organic";
    "post_video_views_paid";
    "post_video_views_sound_on" ].

(** The metrics requested per post (lines 262-272) *)
Definition post_metrics : list string :=
  [ "post_impressions";
    "post_impressions_unique";
    "post_clicks";
    "post_reactions_like_total";
    "post_reactions_love_total";
    "post_reactions_wow_total";
    "post_reactions_haha_total";
    "post_reactions_sorry_total";
    "post_reactions_anger_total" ].

(** [len(j)]; string lengths are counted in bytes, and only compared with 0 *)
Definition py_len (j : json) : result nat :=
  match j with
  | JArr l => Ok (List.length l)
  | JStr s => Ok (String.length s)
  | JObj o => Ok (List.length o)
  | _ => Raise TypeError
  end.

(** [j[0]]: parsed JSON objects have string keys only, so [0] is never one *)
Definition py_index0 (j : json) : result json :=
  match j with
  | JArr (x :: _) => Ok x
  | JArr [] => Raise IndexError
  | JStr (String a _) => Ok (JStr (String a EmptyString))
  | JStr EmptyString => Raise IndexError
  | JObj _ => Raise KeyError
  | _ => Raise TypeError
  end.

(** [j[k]] for a string [k] *)
Definition py_subscript (j : json) (k : string) : result json :=
  match j with
  | JObj o => match dict_get k o with Some v => Ok v | None => Raise KeyError end
  | _ => Raise TypeError
  end.

(** ["_" in j] *)
Definition py_contains_underscore (j : json) : result bool :=
  match j with
  | JStr s => Ok (contains_char "_" s)
  | JArr l =>
      Ok (existsb (fun x => match x with JStr s => String.eqb s "_" | _ => false end) l)
  | JObj o => Ok (dict_mem "_" o)
  | _ => Raise TypeError
  end.

(** A generator that yields one value per element of [l]: what it yielded
    before an exception escaped has already reached the consumer. *)
Fixpoint yield_each {A B S : Type} (body : A -> S -> result (B * S))
  (l : list A) (s : S) : list B * option pyexn :=
  match l with
  | [] => ([], None)
  | x :: r =>
      match body x s with
      | Ok (b, s') => let (bs, e) := yield_each body r s' in (b :: bs, e)
      | Raise e => ([], Some e)
      end
  end.

(** Two outcomes that end alike: the same exception, or related values *)
Definition result_rel {A : Type} (R : A -> A -> Prop) (r1 r2 : result A)
  : Prop :=
  match r1, r2 with
  | Ok a1, Ok a2 => R a1 a2
  | Raise e1, Raise e2 => e1 = e2
  | _, _ => False
  end.

(** What [requests.get(...)], [raise_for_status()] and [.json()] end in *)
Inductive http_outcome : Type :=
| HttpRaises (e : pyexn)
| HttpJson (body : json).

(** ** The pipeline *)

Section Pipeline.

(** [fromisoformat_date s] is
    [datetime.fromisoformat(s).date().isoformat()], and [None] when
    [fromisoformat] raises [ValueError].  Which strings parse depends on the
    interpreter version; nothing below depends on that choice. *)
Variable fromisoformat_date : string -> option string.

(** [now n] is the value of the [n]-th call of [datetime.now()] in a run. *)
Variable now : nat -> pydatetime.

(** The body of the two [try] blocks that read a timestamp:
    [datetime.fromisoformat(x.replace('Z', '+00:00')).date().isoformat()].
    A value without [.replace] raises [AttributeError]; both [except:]
    clauses are bare, so every failure is [None] here. *)
Definition parse_date (x : json) : option string :=
  match x with
  | JStr s => fromisoformat_date (replace_char "Z" "+00:00" s)
  | _ => None
  end.

(** *** Metric-series flattener (lines 130-204) *)

(** Lines 146-166, the body of the loop over [values] *)
Definition flatten_value_entry (page_id : string) (metric_name : json)
  (value_entry : json) (st : flat_state) : result flat_state :=
  match value_entry with
  | JObj ve =>
      let end_time := py_get ve "end_time" in
      let value := py_get ve "value" in
      if truthy end_time then
        match parse_date end_time with
        | None => Ok st
        | Some date_str =>
            let (metrics_by_date, t) := st in
            let (metrics_by_date, t) :=
              if negb (dict_mem date_str metrics_by_date) then
                (dict_set date_str
                   [ (KStr "page_id", JStr page_id);
                     (KStr "date", JStr date_str);
                     (KStr "_extracted_at", JStr (isoformat (now t))) ]
                   metrics_by_date, S t)
              else (metrics_by_date, t) in
            match dict_get date_str metrics_by_date with
            | None => Raise KeyError
            | Some metrics =>
                match to_key metric_name with
                | None => Raise TypeError
                | Some k =>
                    Ok (dict_set date_str (dict_set k value metrics)
                          metrics_by_date, t)
                end
            end
        end
      else Ok st
  | _ => Raise AttributeError
  end.

(** Lines 140-166, the body of the loop over [items] *)
Definition flatten_metric_response (page_id : string)
  (metric_response : json) (st : flat_state) : result flat_state :=
  match metric_response with
  | JObj mr =>
      let metric_name := py_get mr "name" in
      let values := py_get_default mr "values" (JArr []) in
      let period := py_get_default mr "period" (JStr "day") in
      if match period with JStr p => String.eqb p "day" | _ => false end
         && truthy values
      then
        vs <- py_iter values ;;
        for_each (flatten_value_entry page_id metric_name) vs st
      else Ok st
  | _ => Raise AttributeError
  end.

(** Lines 199-200, the body of the loop over [missing_metrics] *)
Definition add_missing_metric (metrics : record) (metric_name : string)
  : record :=
  if negb (dict_mem (KStr metric_name) metrics)
  then dict_set (KStr metric_name) JNull metrics
  else metrics.

(** Lines 198-200 *)
Definition add_missing_metrics (metrics : record) : record :=
  fold_left add_missing_metric missing_metrics metrics.

(** Lines 137-166: the grouping loop, started at clock reading [t] *)
Definition group_by_date (page_id : string) (items : list json) (t : nat)
  : result flat_state :=
  for_each (flatten_metric_response page_id) items ([], t).

(** [flatten_daily_metrics_inner(items)].  Nothing is yielded before the
    grouping loop has ended, so an exception there leaves no record. *)
Definition flatten_daily_metrics_inner (page_id : string) (items : list json)
  (t : nat) : result (list record) :=
  st <- group_by_date page_id items t ;;
  Ok (map (fun kv => add_missing_metrics (snd kv)) (fst st)).

(** *** Row enrichment (lines 207-229) *)

(** One turn of the loop of [add_page_fields] *)
Definition add_page_fields_item (item : json) (t : nat)
  : result (json * nat) :=
  match item with
  | JObj o =>
      let o :=
        match dict_get "id" o with
        | Some id => dict_set "page_id" id o
        | None => o
        end in
      Ok (JObj (dict_set "_extracted_at" (JStr (isoformat (now t))) o), S t)
  | _ => Raise TypeError
  end.

Definition add_page_fields (items : list json) (t : nat)
  : list json * option pyexn :=
  yield_each add_page_fields_item items t.

(** One turn of the loop of [add_post_fields] *)
Definition add_post_fields_item (item : json) (t : nat)
  : result (json * nat) :=
  match item with
  | JObj o =>
      let post_id := py_get_default o "id" (JStr "") in
      found <- py_contains_underscore post_id ;;
      o <- (if found : bool then
              match post_id with
              | JStr s => Ok (dict_set "page_id" (JStr (split_head "_" s)) o)
              | _ => Raise AttributeError
              end
            else Ok o) ;;
      Ok (JObj (dict_set "_extracted_at" (JStr (isoformat (now t))) o), S t)
  | _ => Raise AttributeError
  end.

Definition add_post_fields (items : list json) (t : nat)
  : list json * option pyexn :=
  yield_each add_post_fields_item items t.

(** *** Post-metrics fan-out (lines 238-363) *)

(** [get_insights i post_id] is what the [i]-th per-post request of the run,
    for [/{post_id}/insights], ends in. *)
Variable get_insights : nat -> json -> http_outcome.

(** Lines 279-286 *)
Definition post_date (post_created_time : json) (t : nat) : string * nat :=
  if truthy post_created_time then
    match parse_date post_created_time with
    | Some date_str => (date_str, t)
    | None => (date_isoformat (now t), S t)
    end
  else (date_isoformat (now t), S t).

(** Lines 289-333 *)
Definition base_record (post_id : json) (date_str extracted_at : string)
  : record :=
  (KStr "post_id", post_id)
  :: (KStr "date", JStr date_str)
  :: (KStr "_extracted_at", JStr extracted_at)
  :: map (fun m => (KStr m, JNull)) post_metrics_catalog.

(** Lines 349-356, the body of the loop over the returned metrics *)
Definition update_metric (metric : json) (base : record) : result record :=
  match metric with
  | JObj m =>
      let metric_name := py_get m "name" in
      let metric_values := py_get_default m "values" (JArr []) in
      if truthy metric_values then
        n <- py_len metric_values ;;
        if Nat.ltb 0 n then
          first <- py_index0 metric_values ;;
          match first with
          | JObj f =>
              let metric_value := py_get f "value" in
              match to_key metric_name with
              | None => Raise TypeError
              | Some k =>
                  if dict_mem k base then Ok (dict_set k metric_value base)
                  else Ok base
              end
          | _ => Raise AttributeError
          end
        else Ok base
      else Ok base
  | _ => Raise AttributeError
  end.

(** Lines 337-356, the body of the [try] *)
Definition fetch_metrics (outcome : http_outcome) (base : record)
  : result record :=
  match outcome with
  | HttpRaises e => Raise e
  | HttpJson (JObj metrics_data) =>
      ms <- py_iter (py_get_default metrics_data "data" (JArr [])) ;;
      for_each update_metric ms base
  | HttpJson _ => Raise AttributeError
  end.

(** Lines 336-360: [except requests.RequestException] keeps the record as
    it is; the request is the only statement that raises that exception,
    and it precedes every update of the record. *)
Definition try_fetch_metrics (outcome : http_outcome) (base : record)
  : result record :=
  match fetch_metrics outcome base with
  | Raise RequestException => Ok base
  | r => r
  end.

(** Lines 275-363, one turn of the loop over the listed posts.  The state
    is the number of per-post requests made and of clock readings. *)
Definition post_metrics_item (post : json) (s : nat * nat)
  : result (record * (nat * nat)) :=
  let (i, t) := s in
  post_id <- py_subscript post "id" ;;
  let post_created_time :=
    match post with JObj o => py_get o "created_time" | _ => JNull end in
  let (date_str, t) := post_date post_created_time t in
  let base := base_record post_id date_str (isoformat (now t)) in
  r <- try_fetch_metrics (get_insights i post_id) base ;;
  Ok (r, (S i, S t)).

(** [post_metrics_resource(...)], given what the listing request ends in.
    [end_date] takes one clock reading before the request. *)
Definition post_metrics_resource (listing : http_outcome) (t : nat)
  : list record * option pyexn :=
  match listing with
  | HttpRaises e => ([], Some e)
  | HttpJson (JObj posts_data) =>
      match py_iter (py_get_default posts_data "data" (JArr [])) with
      | Ok posts => yield_each post_metrics_item posts (0%nat, S t)
      | Raise e => ([], Some e)
      end
  | HttpJson _ => ([], Some AttributeError)
  end.

End Pipeline.

(** ** A concrete parser and clock for the examples *)

(** An instance of the parser parameter.  It recognises
    [YYYY-MM-DD], optionally followed by [T] or a space, [HH:MM:SS] and an
    optional [+HH:MM] or [-HH:MM] offset, with every field in range: strings
    that every CPython from 3.7 on accepts, mapped to the date they name. *)
Module IsoBasic.

Definition digit (a : ascii) : option nat :=
  let n := nat_of_ascii a in
  if Nat.leb 48 n && Nat.leb n 57 then Some (n - 48)%nat else None.

Definition number (l : list ascii) : option nat :=
  fold_left
    (fun acc a =>
       match acc, digit a with
       | Some n, Some d => Some (10 * n + d)%nat
       | _, _ => None
       end)
    l (Some 0%nat).

Definition leap (y : nat) : bool :=
  Nat.eqb (y mod 4) 0 && (negb (Nat.eqb (y mod 100) 0) || Nat.eqb (y mod 400) 0).

Definition days_in_month (y m : nat) : nat :=
  match m with
  | 1 | 3 | 5 | 7 | 8 | 10 | 12 => 31
  | 4 | 6 | 9 | 11 => 30
  | 2 => if leap y then 29 else 28
  | _ => 0
  end%nat.

Definition below (bound : nat) (l : list ascii) : bool :=
  match number l with
  | Some n => Nat.ltb n bound
  | None => false
  end.

Definition valid_date (y m d : list ascii) : bool :=
  match number y, number m, number d with
  | Some y, Some m, Some d =>
      Nat.leb 1 y && Nat.leb 1 d && Nat.leb d (days_in_month y m)
  | _, _, _ => false
  end.

Definition valid_offset (l : list ascii) : bool :=
  match l with
  | [] => true
  | [sg; h1; h2; c; m1; m2] =>
      (Ascii.eqb sg "+" || Ascii.eqb sg "-") && Ascii.eqb c ":"
      && below 24 [h1; h2] && below 60 [m1; m2]
  | _ => false
  end.

Definition valid_time (l : list ascii) : bool :=
  match l with
  | [] => true
  | sep :: h1 :: h2 :: c1 :: m1 :: m2 :: c2 :: s1 :: s2 :: off =>
      (Ascii.eqb sep "T" || Ascii.eqb sep " ")
      && Ascii.eqb c1 ":" && Ascii.eqb c2 ":"
      && below 24 [h1; h2] && below 60 [m1; m2] && below 60 [s1; s2]
      && valid_offset off
  | _ => false
  end.

Definition fromisoformat_date (s : string) : option string :=
  match list_ascii_of_string s with
  | y1 :: y2 :: y3 :: y4 :: a :: m1 :: m2 :: b :: d1 :: d2 :: rest =>
      if Ascii.eqb a "-" && Ascii.eqb b "-"
         && valid_date [y1; y2; y3; y4] [m1; m2] [d1; d2]
         && valid_time rest
      then Some (string_of_list_ascii
                   [y1; y2; y3; y4; a; m1; m2; b; d1; d2])
      else None
  | _ => None
  end.

End IsoBasic.

(** A clock that stands still, and one whose readings differ *)
Definition frozen_clock (n : nat) : pydatetime :=
  {| isoformat := "2024-02-01T12:00:00"; date_isoformat := "2024-02-01" |}.

Definition ticking_clock (n : nat) : pydatetime :=
  {| isoformat := "2024-02-01T12:00:0" ++ String (ascii_of_nat (48 + n mod 10)) "";
     date_isoformat := "2024-02-01" |}.

(** A failing collaborator: every per-post request raises *)
Definition unreachable (i : nat) (post_id : json) : http_outcome :=
  HttpRaises RequestException.

(** ** Vocabulary of the statements *)

Section Vocabulary.

Variable fromisoformat_date : string -> option string.
Variable now : nat -> pydatetime.

(** The column [k] of the record grouped under [date_str] *)
Definition lookup2 (date_str : string) (k : pykey)
  (metrics_by_date : dict string record) : option json :=
  match dict_get date_str metrics_by_date with
  | Some metrics => dict_get k metrics
  | None => None
  end.


(** Two states of the grouping loop with the same [metrics_by_date] *)
Definition same_groups (s1 s2 : flat_state) : Prop := fst s1 = fst s2.

Definition point_of (metric_name value_entry : json) : option point :=
  match value_entry with
  | JObj ve =>
      let end_time := py_get ve "end_time" in
      if truthy end_time then
        match parse_date fromisoformat_date end_time, to_key metric_name with
        | Some date_str, Some k => Some (date_str, k, py_get ve "value")
        | _, _ => None
        end
      else None
  | _ => None
  end.

Definition option_list {A} (o : option A) : list A :=
  match o with Some a => [a] | None => [] end.

(** The retained value-points of one metric-response object, in order *)
Definition points_of (metric_response : json) : list point :=
  match metric_response with
  | JObj mr =>
      match py_get_default mr "period" (JStr "day"),
            py_get_default mr "values" (JArr []) with
      | JStr p, JArr vs =>
          if String.eqb p "day" then
            flat_map (fun ve => option_list (point_of (py_get mr "name") ve)) vs
          else []
      | _, _ => []
      end
  | _ => []
  end.

(** The retained value-points of a whole input, in input order *)
Definition day_points (items : list json) : list point :=
  flat_map points_of items.

(** The value of the last point of [ps] for date [d] and column [k] *)
Fixpoint last_value (d : string) (k : pykey) (ps : list point)
  : option json :=
  match ps with
  | [] => None
  | (d', k', v) :: r =>
      match last_value d k r with
      | Some w => Some w
      | None => if String.eqb d d' && keqb k k' then Some v else None
      end
  end.

(** What storing one retained point does to [metrics_by_date] and to the
    clock (lines 158-166) *)
Definition apply_point (page_id : string) (st : flat_state) (p : point)
  : flat_state :=
  let '(date_str, k, value) := p in
  let (metrics_by_date, t) := st in
  let (metrics_by_date, t) :=
    if negb (dict_mem date_str metrics_by_date) then
      (dict_set date_str
         [ (KStr "page_id", JStr page_id);
           (KStr "date", JStr date_str);
           (KStr "_extracted_at", JStr (isoformat (now t))) ]
         metrics_by_date, S t)
    else (metrics_by_date, t) in
  match dict_get date_str metrics_by_date with
  | Some metrics =>
      (dict_set date_str (dict_set k value metrics) metrics_by_date, t)
  | None => (metrics_by_date, t)
  end.

(** The column and value that one returned post metric is stored under,
    when the record has that column (lines 349-356) *)
Definition update_of (metric : json) : option (pykey * json) :=
  match metric with
  | JObj m =>
      match py_get_default m "values" (JArr []), to_key (py_get m "name") with
      | JArr (JObj f :: _), Some k => Some (k, py_get f "value")
      | _, _ => None
      end
  | _ => None
  end.

(** What one returned metric does to the record when no exception escapes *)
Definition store_metric (base : record) (metric : json) : record :=
  match update_of metric with
  | Some (k, v) => if dict_mem k base then dict_set k v base else base
  | None => base
  end.

(** The metrics that a per-post request brings back: none when it failed *)
Definition returned_metrics (outcome : http_outcome) : list json :=
  match outcome with
  | HttpJson (JObj metrics_data) =>
      match py_iter (py_get_default metrics_data "data" (JArr [])) with
      | Ok ms => ms
      | Raise _ => []
      end
  | _ => []
  end.

(** The posts that the listing request brings back *)
Definition listed_posts (listing : http_outcome) : list json :=
  match listing with
  | HttpJson (JObj posts_data) =>
      match py_iter (py_get_default posts_data "data" (JArr [])) with
      | Ok posts => posts
      | Raise _ => []
      end
  | _ => []
  end.

(** The value that the last metric of [ms] stored under [k] brings *)
Fixpoint last_update (k : pykey) (ms : list json) : option json :=
  match ms with
  | [] => None
  | m :: r =>
      match last_update k r with
      | Some w => Some w
      | None =>
          match update_of m with
          | Some (k', v) => if keqb k k' then Some v else None
          | None => None
          end
      end
  end.

End Vocabulary.

(** ** The shape of the Graph API payloads *)

Definition hashable (j : json) : bool :=
  match to_key j with Some _ => true | None => false end.

(** A [values] field of an insights metric: missing or empty, or a list of
    objects. *)
Definition values_shape (v : json) : bool :=
  match v with
  | JArr vs => forallb (fun x => match x with JObj _ => true | _ => false end) vs
  | other => negb (truthy other)
  end.

(** [{"name": ..., "period": ..., "values": [{"end_time": ..., "value": ...}]}] *)
Definition metric_shape (m : json) : bool :=
  match m with
  | JObj o =>
      hashable (py_get o "name")
      && values_shape (py_get_default o "values" (JArr []))
  | _ => false
  end.

(** [{"data": [metric, ...]}], with ["data"] possibly missing *)
Definition insights_shape (body : json) : bool :=
  match body with
  | JObj o =>
      match py_get_default o "data" (JArr []) with
      | JArr ms => forallb metric_shape ms
      | _ => false
      end
  | _ => false
  end.

(** A per-post request either fails with a [RequestException] or returns an
    insights payload. *)
Definition outcome_shape (o : http_outcome) : bool :=
  match o with
  | HttpRaises RequestException => true
  | HttpRaises _ => false
  | HttpJson body => insights_shape body
  end.

(** A listed post: an object with an ["id"] *)
Definition post_shape (p : json) : bool :=
  match p with
  | JObj o => dict_mem "id" o
  | _ => false
  end.

(** Whether a returned metric is stored under column [k] *)
Definition overwrites (k : pykey) (metric : json) : bool :=
  match update_of metric with
  | Some (k', _) => keqb k k'
  | None => false
  end.

(** ** Vocabulary of the further properties *)

(** A parsed JSON object *)
Definition is_object (j : json) : bool :=
  match j with JObj _ => true | _ => false end.

(** A post as the post-listing endpoint returns it: an object whose [id],
    when it has one, is a string *)
Definition post_item_shape (item : json) : bool :=
  match item with
  | JObj o =>
      match py_get_default o "id" (JStr "") with
      | JStr _ => true
      | _ => false
      end
  | _ => false
  end.

(** The date of a retained value-point *)
Definition point_date (p : point) : string := fst (fst p).

(** The elements of a list of dates, each once, in the order in which they
    first appear *)
Definition first_seen (dates : list string) : list string :=
  fold_left
    (fun seen d =>
       if existsb (String.eqb d) seen then seen else (seen ++ [d])%list)
    dates [].

(** The dates of [metrics_by_date] with the columns of their records *)
Definition columns_by_date (metrics_by_date : list (string * record))
  : list (string * list pykey) :=
  map (fun kv => (fst kv, dict_keys (snd kv))) metrics_by_date.

(** Every date carries a record whose columns are distinct *)
Definition distinct_columns (metrics_by_date : list (string * record)) : Prop :=
  NoDup (dict_keys metrics_by_date) /\
  Forall (fun kv => NoDup (dict_keys (snd kv))) metrics_by_date.


(** ** Sample payloads *)

Module Sample.

Definition value_point (end_time : string) (value : Z) : list (string * json) :=
  [("end_time", JStr end_time); ("value", JInt value)].

(** A value-point whose [end_time] is not a timestamp *)
Definition malformed : list (string * json) := value_point "not-a-date" 2.

(** A daily metric with a malformed point and a repeated date *)
Definition page_fans : list (string * json) :=
  [ ("name", JStr "page_fans");
    ("period", JStr "day");
    ("values",
      JArr [ JObj (value_point "2024-01-15T08:00:00+00:00" 1);
             JObj malformed;
             JObj (value_point "2024-01-16T08:00:00Z" 3);
             JObj (value_point "2024-01-15T08:00:00+00:00" 4) ]) ].

(** A weekly metric *)
Definition weekly : list (string * json) :=
  [ ("name", JStr "page_views_total");
    ("period", JStr "week");
    ("values", JArr [ JObj (value_point "2024-01-15T08:00:00+00:00" 9) ]) ].

(** A metric of the daily catalog, returned without a [period] *)
Definition no_period : list (string * json) :=
  [ ("name", JStr "page_video_view_time");
    ("values", JArr [ JObj (value_point "2024-01-15T08:00:00+00:00" 10) ]) ].

Definition items : list json := [JObj page_fans; JObj weekly; JObj no_period].

Definition post_a : list (string * json) :=
  [ ("id", JStr "123456_789");
    ("created_time", JStr "2024-01-15T10:00:00+00:00") ].

Definition post_b : list (string * json) :=
  [ ("id", JStr "123456_790"); ("created_time", JStr "yesterday") ].

Definition posts_data : list (string * json) :=
  [ ("data", JArr [JObj post_a; JObj post_b]) ].

Definition listing : http_outcome := HttpJson (JObj posts_data).

Definition metric (name : string) (values : list Z) : list (string * json) :=
  [ ("name", JStr name);
    ("values", JArr (map (fun v => JObj [("value", JInt v)]) values)) ].

(** A successful insights response: a catalog metric with two points, and a
    metric outside the record *)
Definition insights : http_outcome :=
  HttpJson (JObj [ ("data",
    JArr [ JObj (metric "post_clicks" [5%Z; 6%Z]);
           JObj (metric "post_impressions_unique" [8%Z]) ]) ]).

(** Every per-post request succeeds *)
Definition reachable (i : nat) (post_id : json) : http_outcome := insights.

(** The first per-post request fails, the others succeed *)
Definition first_fails (i : nat) (post_id : json) : http_outcome :=
  match i with
  | O => HttpRaises RequestException
  | S _ => insights
  end.

(** A successful response that carries a metric named [date] *)
Definition date_metric (i : nat) (post_id : json) : http_outcome :=
  HttpJson (JObj [ ("data", JArr [ JObj (metric "date" [7%Z]) ]) ]).

Definition one_post_listing : http_outcome :=
  HttpJson (JObj [ ("data", JArr [JObj post_a]) ]).

End Sample.

(** ** The validation script ([validate_pipeline.py]) *)

Module Validate.

(** [expected_tables] (lines 23-28), in source order *)
Definition expected_tables : list (string * list string) :=
  [ ("page", ["id"; "name"; "category"; "fan_count"; "_extracted_at"]);
    ("post_history",
      ["id"; "message"; "created_time"; "page_id"; "_extracted_at"]);
    ("daily_page_metrics_total",
      ["page_id"; "date"; "page_impressions"; "page_fan_adds"]);
    ("lifetime_post_metrics_total",
      ["post_id"; "date"; "post_impressions"; "post_clicks"]) ].

(** What the destination answers to the statements of the script.  [None]
    and [false] stand for an exception, whichever it is: the script catches
    them all alike (line 118). *)
Record database : Type := {
  (** [dlt.pipeline(...)] and [pipeline.sql_client()] *)
  connect : bool;
  (** [SHOW TABLES] *)
  show_tables : option (list string);
  (** [SELECT COUNT( * ) FROM table] *)
  count_rows : string -> option nat;
  (** [DESCRIBE table] *)
  describe : string -> option (list string);
  (** [SELECT * FROM table LIMIT 3] *)
  sample : string -> bool
}.

(** An entry of [results] (lines 45 and 59-64); the entry of a table that
    was not found has no [missing_columns] key. *)
Record table_result : Type := {
  tr_exists : bool;
  tr_row_count : nat;
  tr_columns : list string;
  tr_missing_columns : option (list string)
}.

(** [x in l] for strings *)
Definition mem (x : string) (l : list string) : bool :=
  existsb (String.eqb x) l.

(** Lines 43-79, one turn of the loop over [expected_tables] *)
Definition validate_table (db : database) (actual_tables : list string)
  (table_name : string) (required_columns : list string)
  : option table_result :=
  if negb (mem table_name actual_tables) then
    Some {| tr_exists := false; tr_row_count := 0; tr_columns := [];
            tr_missing_columns := None |}
  else
    match count_rows db table_name with
    | None => None
    | Some row_count =>
        match describe db table_name with
        | None => None
        | Some actual_columns =>
            let missing_columns :=
              filter (fun col => negb (mem col actual_columns))
                required_columns in
            let r := {| tr_exists := true; tr_row_count := row_count;
                        tr_columns := actual_columns;
                        tr_missing_columns := Some missing_columns |} in
            if Nat.ltb 0 row_count then
              if sample db table_name then Some r else None
            else Some r
        end
    end.

(** Lines 40-79: the loop, which the first exception ends *)
Fixpoint validate_tables (db : database) (actual_tables : list string)
  (expected : list (string * list string))
  : option (list (string * table_result)) :=
  match expected with
  | [] => Some []
  | (table_name, required_columns) :: rest =>
      match validate_table db actual_tables table_name required_columns with
      | None => None
      | Some r =>
          match validate_tables db actual_tables rest with
          | None => None
          | Some rs => Some ((table_name, r) :: rs)
          end
      end
  end.

(** Lines 94-102: [(compatibility_score, max_score)] *)
Definition score (results : list (string * table_result)) : nat * nat :=
  fold_left
    (fun acc kv =>
       let (compatibility_score, max_score) := (acc : nat * nat) in
       let result := snd kv in
       let max_score := (max_score + 2)%nat in
       if tr_exists result then
         let compatibility_score := (compatibility_score + 1)%nat in
         if match tr_missing_columns result with
            | Some (_ :: _) => false
            | _ => true
            end
         then ((compatibility_score + 1)%nat, max_score)
         else (compatibility_score, max_score)
       else (compatibility_score, max_score))
    results (0%nat, 0%nat).

(** Line 104.  The quotient is a multiple of an eighth in every run, since
    [results] has four entries: the floating-point division and product of
    the source are exact on these values, and are rational arithmetic
    here. *)
Definition compatibility_pct (compatibility_score max_score : nat)
  : QArith_base.Q :=
  if Nat.ltb 0 max_score then
    QArith_base.Qmult
      (QArith_base.Qmake (Z.of_nat compatibility_score) (Pos.of_nat max_score))
      (QArith_base.inject_Z 100)
  else QArith_base.inject_Z 0.

(** The four ways the function ends: the three messages of lines 108-116
    and the handler of line 118 *)
Inductive report : Type :=
| FullyCompatible
| MostlyCompatible
| SignificantIssues
| FailedToValidate.

(** Lines 15-120 *)
Definition validation_report (db : database) : report :=
  if negb (connect db) then FailedToValidate
  else
    match show_tables db with
    | None => FailedToValidate
    | Some actual_tables =>
        match validate_tables db actual_tables expected_tables with
        | None => FailedToValidate
        | Some results =>
            let (compatibility_score, max_score) := score results in
            let pct := compatibility_pct compatibility_score max_score in
            if QArith_base.Qeq_bool pct (QArith_base.inject_Z 100)
            then FullyCompatible
            else if QArith_base.Qle_bool (QArith_base.inject_Z 75) pct
                 then MostlyCompatible
                 else SignificantIssues
        end
    end.

(** [validate_pipeline_output()]: [True] on the first message only *)
Definition validate_pipeline_output (db : database) : bool :=
  match validation_report db with
  | FullyCompatible => true
  | _ => false
  end.

(** [dbt_path] (line 130) and [key_files] (lines 137-142) *)
Definition dbt_path : string :=
  "/Users/enrico/Documents/Scripts/dlthub/facebook_pages/dbt_facebook_pages".

Definition key_files : list string :=
  [ "dbt_project.yml";
    "models/staging/src_facebook_pages.yml";
    "models/facebook_pages__pages_report.sql";
    "models/facebook_pages__posts_report.sql" ].

(** [os.path.join(dbt_path, file_path)] for these relative paths *)
Definition join (a b : string) : string := a ++ "/" ++ b.

(** [validate_dbt_compatibility()], given [os.path.exists] *)
Definition validate_dbt_compatibility (path_exists : string -> bool) : bool :=
  if negb (path_exists dbt_path) then false
  else
    match filter (fun file_path => negb (path_exists (join dbt_path file_path)))
            key_files with
    | [] => true
    | _ :: _ => false
    end.

(** Lines 158-183: the status the script exits with.  Both validations run
    before either result is looked at. *)
Definition exit_status (db : database) (path_exists : string -> bool) : nat :=
  let pipeline_valid := validate_pipeline_output db in
  let dbt_valid := validate_dbt_compatibility path_exists in
  if pipeline_valid && dbt_valid then 0%nat else 1%nat.

(** The number of expected tables that are absent, and of those that are
    present without all their required columns *)
Definition absent (results : list (string * table_result)) : nat :=
  List.length (filter (fun kv => negb (tr_exists (snd kv))) results).

Definition incomplete (results : list (string * table_result)) : nat :=
  List.length
    (filter (fun kv =>
               tr_exists (snd kv)
               && match tr_missing_columns (snd kv) with
                  | Some (_ :: _) => true
                  | _ => false
                  end) results).

End Validate.

(** ** The setup script ([setup_pipeline.py]) *)

Module Setup.

(** The working directory, as far as the script looks at it: the paths that
    exist, relative to it, and what they are.  A regular file holds bytes.
    Permissions, links and other processes are outside the model. *)
Inductive node : Type :=
| File (content : string)
| Dir.

Notation filesystem := (list (string * node)) (only parsing).

Inductive oserror : Type :=
| FileExistsError
| FileNotFoundError
| IsADirectoryError.

(** [path.exists()] *)
Definition path_exists (fs : filesystem) (path : string) : bool :=
  dict_mem path fs.

Definition dlt_dir : string := ".dlt".
Definition secrets_file : string := ".dlt/secrets.toml".
Definition config_file : string := ".dlt/config.toml".
Definition secrets_template : string := "secrets_template.toml".

Definition nl : string := String (ascii_of_nat 10) EmptyString.
Definition quoted (s : string) : string :=
  String (ascii_of_nat 34) s ++ String (ascii_of_nat 34) EmptyString.

(** [config_content] (lines 34-49) *)
Definition config_content : string :=
  "# DLT Configuration for Facebook Pages Pipeline" ++ nl
  ++ nl
  ++ "[runtime]" ++ nl
  ++ "log_level = " ++ quoted "INFO" ++ nl
  ++ "progress = " ++ quoted "log" ++ nl
  ++ nl
  ++ "[extract]" ++ nl
  ++ "max_parallel_resources = 3" ++ nl
  ++ nl
  ++ "[load]" ++ nl
  ++ "batch_size = 1000" ++ nl
  ++ nl
  ++ "[sources.facebook_pages_source]" ++ nl
  ++ "# Override defaults here if needed" ++ nl
  ++ "# days_back = 30" ++ nl.

(** [Path(".dlt").mkdir(exist_ok=True)] (line 20) *)
Definition mkdir_exist_ok (fs : filesystem) (path : string)
  : filesystem * option oserror :=
  match dict_get path fs with
  | Some Dir => (fs, None)
  | Some (File _) => (fs, Some FileExistsError)
  | None => (dict_set path Dir fs, None)
  end.

(** [shutil.copy(src, dst)] (line 25), for a [dst] that does not exist *)
Definition copy (fs : filesystem) (src dst : string)
  : filesystem * option oserror :=
  match dict_get src fs with
  | Some (File content) => (dict_set dst (File content) fs, None)
  | Some Dir => (fs, Some IsADirectoryError)
  | None => (fs, Some FileNotFoundError)
  end.

(** [setup_dlt_environment()]: the directory it leaves, and the exception
    that escaped it if any; it returns [True] when none does. *)
Definition setup_dlt_environment (fs : filesystem)
  : filesystem * option oserror :=
  match mkdir_exist_ok fs dlt_dir with
  | (fs, Some e) => (fs, Some e)
  | (fs, None) =>
      let (fs, failure) :=
        if negb (path_exists fs secrets_file)
        then copy fs secrets_template secrets_file
        else (fs, None) in
      match failure with
      | Some e => (fs, Some e)
      | None =>
          if negb (path_exists fs config_file)
          then (dict_set config_file (File config_content) fs, None)
          else (fs, None)
      end
  end.

(** [sub in s] for strings *)
Fixpoint contains (sub s : string) : bool :=
  String.prefix sub s
  || match s with
     | EmptyString => false
     | String _ rest => contains sub rest
     end.

Definition token_placeholder : string :=
  "YOUR_FACEBOOK_LONG_LIVED_ACCESS_TOKEN_HERE".
Definition page_id_placeholder : string := "YOUR_FACEBOOK_PAGE_ID_HERE".

Section Locale.

(** [decodes content]: the bytes [content] decode in the encoding that
    [open] uses in text mode, which is that of the locale; where they do
    not, [f.read()] raises [UnicodeDecodeError].  The encoding is taken to
    extend ASCII (UTF-8, the Latin and the Windows code pages): an ASCII
    string then occurs in the text read exactly where its bytes occur in the
    file, and the two tests of lines 103 and 107 are made on the bytes. *)
Variable decodes : string -> bool.

(** [validate_facebook_config()] (lines 87-116).  Opening a directory and
    reading bytes that do not decode raise inside the [try], and the handler
    of line 114 returns [False]. *)
Definition validate_facebook_config (fs : filesystem) : bool :=
  if negb (path_exists fs secrets_file) then false
  else
    match dict_get secrets_file fs with
    | Some (File content) =>
        if negb (decodes content) then false
        else if contains token_placeholder content then false
        else if contains page_id_placeholder content then false
        else true
    | _ => false
    end.

End Locale.

(** [required_packages] (lines 62-66) *)
Definition required_packages : list string := ["dlt"; "requests"; "duckdb"].

(** [check_dependencies()] (lines 57-84), given which packages import
    without [ImportError]: [missing_packages] and the value returned *)
Definition check_dependencies (importable : string -> bool)
  : list string * bool :=
  let missing_packages :=
    filter (fun package => negb (importable package)) required_packages in
  match missing_packages with
  | [] => (missing_packages, true)
  | _ :: _ => (missing_packages, false)
  end.

(** How [main()] ends: it returns after the usage guide, it calls
    [sys.exit(1)] at the step of that name, or an exception escapes a step *)
Inductive ending : Type :=
| Completed (success_count : nat)
| Exit1 (step_name : string)
| Escaped (e : oserror).

(** A step of [main()]: what it leaves of the directory, and the value it
    returns or the exception that escapes it *)
Notation step := (filesystem -> filesystem * (bool + oserror))%type
  (only parsing).

(** Lines 243-252: the loop over [steps] *)
Fixpoint run_steps (steps : list (string * step)) (success_count : nat)
  (fs : filesystem) : filesystem * ending :=
  match steps with
  | [] => (fs, Completed success_count)
  | (step_name, step_func) :: rest =>
      match step_func fs with
      | (fs, inl true) => run_steps rest (S success_count) fs
      | (fs, inl false) => (fs, Exit1 step_name)
      | (fs, inr e) => (fs, Escaped e)
      end
  end.

(** A step that catches its exceptions and returns a boolean *)
Definition caught (f : filesystem -> filesystem * bool) : step :=
  fun fs => let (fs, ok) := f fs in (fs, inl ok).

(** [setup_dlt_environment] as a step: it returns [True] unless an exception
    escapes it *)
Definition setup_step : step :=
  fun fs =>
    match setup_dlt_environment fs with
    | (fs, None) => (fs, inl true)
    | (fs, Some e) => (fs, inr e)
    end.

Section Main.

(** Which packages import *)
Variable importable : string -> bool.

(** Which bytes decode in the encoding of the locale *)
Variable decodes : string -> bool.

(** [test_facebook_connection()] and [run_test_pipeline()] call into the
    pipeline and the loader; each catches every exception and returns a
    boolean.  What they do to the directory is theirs to say. *)
Variable test_facebook_connection : filesystem -> filesystem * bool.
Variable run_test_pipeline : filesystem -> filesystem * bool.

(** [steps] (lines 233-239) *)
Definition steps : list (string * step) :=
  [ ("📦 Dependencies",
      caught (fun fs => (fs, snd (check_dependencies importable))));
    ("🔧 DLT Environment", setup_step);
    ("🔍 Facebook Config",
      caught (fun fs => (fs, validate_facebook_config decodes fs)));
    ("🌐 API Connection", caught test_facebook_connection);
    ("🧪 Test Pipeline", caught run_test_pipeline) ].

(** [main()] (lines 226-259) *)
Definition main (fs : filesystem) : filesystem * ending :=
  run_steps steps 0 fs.

End Main.

End Setup.

(** ** Strict UTF-8, the encoding of a UTF-8 locale *)

Module Utf8.

(** [well_formed pending lo hi s]: [s] continues a UTF-8 text in which
    [pending] continuation bytes are still due, the next of them between
    [lo] and [hi].  Overlong forms, surrogates and code points above
    [U+10FFFF] are refused, as the strict decoder refuses them. *)
Fixpoint well_formed (pending lo hi : nat) (s : string) : bool :=
  match s with
  | EmptyString => Nat.eqb pending 0
  | String c rest =>
      let b := nat_of_ascii c in
      match pending with
      | O =>
          if Nat.ltb b 128 then well_formed 0 128 191 rest
          else if Nat.leb 194 b && Nat.leb b 223
               then well_formed 1 128 191 rest
          else if Nat.eqb b 224 then well_formed 2 160 191 rest
          else if Nat.eqb b 237 then well_formed 2 128 159 rest
          else if Nat.leb 225 b && Nat.leb b 239
               then well_formed 2 128 191 rest
          else if Nat.eqb b 240 then well_formed 3 144 191 rest
          else if Nat.leb 241 b && Nat.leb b 243
               then well_formed 3 128 191 rest
          else if Nat.eqb b 244 then well_formed 3 128 143 rest
          else false
      | S pending =>
          if Nat.leb lo b && Nat.leb b hi
          then well_formed pending 128 191 rest
          else false
      end
  end.

Definition decodes (content : string) : bool := well_formed 0 128 191 content.

End Utf8.

(** ** Vocabulary of the setup properties *)

Module SetupSpec.

Import Setup.

(** The directory once [.dlt] has been created where there was nothing *)
Definition with_dir (fs : filesystem) : filesystem :=
  match dict_get dlt_dir fs with
  | None => dict_set dlt_dir Dir fs
  | Some _ => fs
  end.

(** The directory once the template has been copied where there were no
    secrets *)
Definition with_secrets (fs : filesystem) : filesystem :=
  match dict_get secrets_file fs, dict_get secrets_template fs with
  | None, Some (File content) => dict_set secrets_file (File content) fs
  | _, _ => fs
  end.

(** The directory once the configuration has been written where there was
    none *)
Definition with_config (fs : filesystem) : filesystem :=
  match dict_get config_file fs with
  | None => dict_set config_file (File config_content) fs
  | Some _ => fs
  end.


End SetupSpec.

(** ** Vocabulary of the validation properties *)

Module ValidateSpec.

Import Validate.

(** An expected table that is not among the tables shown *)
Definition table_absent (actual_tables : list string)
  (e : string * list string) : bool :=
  negb (mem (fst e) actual_tables).

(** An expected table that is shown but lacks a required column *)
Definition table_incomplete (db : database) (actual_tables : list string)
  (e : string * list string) : bool :=
  mem (fst e) actual_tables
  && match describe db (fst e) with
     | Some actual_columns =>
         negb (forallb (fun col => mem col actual_columns) (snd e))
     | None => false
     end.

(** Two points for every absent table, one for every incomplete one *)
Definition lost_points (db : database) (actual_tables : list string)
  (expected : list (string * list string)) : nat :=
  2 * List.length (filter (table_absent actual_tables) expected)
  + List.length (filter (table_incomplete db actual_tables) expected).

(** No statement about a table that is shown raises: the count and the
    description succeed, and so does the sample when the table has rows *)
Definition table_answers (db : database) (actual_tables : list string)
  (e : string * list string) : bool :=
  negb (mem (fst e) actual_tables)
  || match count_rows db (fst e), describe db (fst e) with
     | Some row_count, Some _ =>
         negb (Nat.ltb 0 row_count) || sample db (fst e)
     | _, _ => false
     end.

End ValidateSpec.

(** ** Sample destinations and directories *)

Module ValidateSample.

Import Validate.

Definition tables : list string :=
  [ "page"; "post_history"; "daily_page_metrics_total";
    "lifetime_post_metrics_total"; "_dlt_loads" ].

(** The columns of a table: its required columns and the loader's own *)
Definition columns (table_name : string) : option (list string) :=
  match dict_get table_name expected_tables with
  | Some required_columns => Some (required_columns ++ ["_dlt_id"])%list
  | None => Some ["load_id"]
  end.

(** A destination that holds the four tables, empty, with every column *)
Definition complete : database :=
  {| connect := true;
     show_tables := Some tables;
     count_rows := fun _ => Some 0;
     describe := columns;
     sample := fun _ => true |}.

(** The same, where [post_history] has three rows and no [message] column *)
Definition no_message : database :=
  {| connect := true;
     show_tables := Some tables;
     count_rows :=
       fun table_name =>
         if String.eqb table_name "post_history" then Some 3 else Some 0;
     describe :=
       fun table_name =>
         if String.eqb table_name "post_history"
         then Some ["id"; "created_time"; "page_id"; "_extracted_at"]
         else columns table_name;
     sample := fun _ => true |}.

(** A machine on which no path exists, and one on which every path does *)
Definition nowhere (path : string) : bool := false.
Definition everywhere (path : string) : bool := true.

End ValidateSample.

Module SetupSample.

Import Setup.

(** A template that still holds both placeholders *)
Definition template : string :=
  "[sources.facebook_pages_source]" ++ nl
  ++ "access_token = " ++ quoted token_placeholder ++ nl
  ++ "page_id = " ++ quoted page_id_placeholder ++ nl.

(** A checkout before its first setup *)
Definition fresh : filesystem :=
  [ ("secrets_template.toml", File template);
    ("facebook_pages_pipeline.py", File "import dlt") ].

(** A directory that was set up and whose secrets were edited *)
Definition edited : filesystem :=
  [ ("secrets_template.toml", File template);
    (".dlt", Dir);
    (".dlt/secrets.toml", File "access_token = 'EAAB'");
    (".dlt/config.toml", File "[runtime]") ].

(** A directory without the template *)
Definition no_template : filesystem :=
  [ ("facebook_pages_pipeline.py", File "import dlt") ].

(** A directory in which [.dlt] is a regular file *)
Definition blocked : filesystem :=
  [ (".dlt", File "notes"); ("secrets_template.toml", File template) ].


(** Every package imports; none but [dlt] does *)
Definition all_installed (package : string) : bool := true.
Definition only_dlt (package : string) : bool := String.eqb package "dlt".

(** A connection test and a test pipeline that pass and leave the directory
    as it is *)
Definition passes (fs : filesystem) : filesystem * bool := (fs, true).

End SetupSample.

(** * Properties *)

(** ** Dicts *)

Section DictFacts.
Context {K V : Type} `{Key K}.
Implicit Types (k : K) (v : V) (d : dict K V).

Lemma keqb_refl k : keqb k k = true.
Proof. now apply keqb_eq. Qed.

Lemma keqb_neq k k' : k <> k' -> keqb k k' = false.
Proof.
  intro N. destruct (keqb k k') eqn:E; [|reflexivity].
  apply keqb_eq in E. contradiction.
Qed.

Lemma keqb_dec k k' : {k = k'} + {k <> k'}.
Proof.
  destruct (keqb k k') eqn:E.
  - left. now apply keqb_eq.
  - right. intro Q. apply keqb_eq in Q. congruence.
Qed.

Lemma dict_get_set_same k v d : dict_get k (dict_set k v d) = Some v.
Proof.
  induction d as [|[k' v'] r IH]; simpl.
  - now rewrite keqb_refl.
  - destruct (keqb k k') eqn:E; simpl; rewrite E; auto.
Qed.

Lemma dict_get_set_other k k' v d :
  k <> k' -> dict_get k' (dict_set k v d) = dict_get k' d.
Proof.
  intro N. induction d as [|[k0 v0] r IH]; simpl.
  - rewrite keqb_neq; auto.
  - destruct (keqb k k0) eqn:E; simpl.
    + apply keqb_eq in E. subst k0. rewrite keqb_neq; auto.
    + destruct (keqb k' k0); auto.
Qed.

Lemma dict_mem_true k d : dict_mem k d = true <-> exists v, dict_get k d = Some v.
Proof.
  unfold dict_mem. destruct (dict_get k d); split; intro Q;
    try discriminate; eauto. now destruct Q.
Qed.

Lemma dict_mem_false k d : dict_mem k d = false <-> dict_get k d = None.
Proof.
  unfold dict_mem. destruct (dict_get k d); split; intro Q;
    try discriminate; auto.
Qed.

Lemma dict_mem_set_same k v d : dict_mem k (dict_set k v d) = true.
Proof. unfold dict_mem. now rewrite dict_get_set_same. Qed.

Lemma dict_mem_set_other k k' v d :
  k <> k' -> dict_mem k' (dict_set k v d) = dict_mem k' d.
Proof. intro N. unfold dict_mem. now rewrite dict_get_set_other. Qed.

(** Assigning to a key that is present leaves the key list as it is. *)
Lemma dict_keys_set_present k v d :
  dict_mem k d = true -> dict_keys (dict_set k v d) = dict_keys d.
Proof.
  unfold dict_mem, dict_keys. induction d as [|[k' v'] r IH]; simpl.
  - discriminate.
  - destruct (keqb k k') eqn:E; simpl; [reflexivity|].
    intro M. now rewrite IH.
Qed.

(** Assigning to a new key appends it. *)
Lemma dict_keys_set_absent k v d :
  dict_mem k d = false -> dict_keys (dict_set k v d) = (dict_keys d ++ [k])%list.
Proof.
  unfold dict_mem, dict_keys. induction d as [|[k' v'] r IH]; simpl.
  - reflexivity.
  - destruct (keqb k k') eqn:E; simpl; [discriminate|].
    intro M. now rewrite IH.
Qed.

Lemma dict_get_In k v d : dict_get k d = Some v -> In (k, v) d.
Proof.
  induction d as [|[k' v'] r IH]; simpl; [discriminate|].
  destruct (keqb k k') eqn:E.
  - apply keqb_eq in E. subst. intro Q. inversion Q. now left.
  - intro Q. right. auto.
Qed.

Lemma dict_mem_keys k d : dict_mem k d = true <-> In k (dict_keys d).
Proof.
  unfold dict_mem, dict_keys. induction d as [|[k' v'] r IH]; simpl.
  - split; [discriminate|tauto].
  - destruct (keqb k k') eqn:E.
    + apply keqb_eq in E. subst. split; auto.
    + rewrite IH. split; auto. intros [Q|Q]; auto.
      subst. rewrite keqb_refl in E. discriminate.
Qed.
(** Assignments keep the keys of a dict distinct. *)
Lemma dict_set_NoDup k v d :
  NoDup (dict_keys d) -> NoDup (dict_keys (dict_set k v d)).
Proof.
  intro N. destruct (dict_mem k d) eqn:M.
  - now rewrite dict_keys_set_present.
  - rewrite dict_keys_set_absent by assumption.
    apply NoDup_app; auto.
    + repeat constructor. intros [].
    + intros x I [<-|[]]. apply dict_mem_keys in I. congruence.
Qed.

Lemma dict_In_get k v d :
  NoDup (dict_keys d) -> In (k, v) d -> dict_get k d = Some v.
Proof.
  unfold dict_keys. induction d as [|[k' v'] r IH]; cbn [map fst dict_get];
    [contradiction|].
  intros N [I|I]; apply NoDup_cons_iff in N; destruct N as [Nk N].
  - inversion I. subst. now rewrite keqb_refl.
  - destruct (keqb k k') eqn:E; auto.
    apply keqb_eq in E. subst k'. exfalso.
    apply Nk. change k with (fst (k, v)). now apply in_map.
Qed.

End DictFacts.

(** ** Loops *)

Lemma for_each_app {A S} (body : A -> S -> result S) l1 l2 s :
  for_each body (l1 ++ l2) s = (s' <- for_each body l1 s ;; for_each body l2 s').
Proof.
  revert s. induction l1 as [|x r IH]; intro s; simpl; [reflexivity|].
  destruct (body x s); simpl; auto.
Qed.

(** An element on which the body does nothing can be left out. *)
Lemma for_each_skip {A S} (body : A -> S -> result S) pre x post s :
  (forall s0, body x s0 = Ok s0) ->
  for_each body (pre ++ x :: post) s = for_each body (pre ++ post) s.
Proof.
  intro Hx. rewrite !for_each_app.
  destruct (for_each body pre s); simpl; [|reflexivity].
  now rewrite Hx.
Qed.

(** Two elements on which the body acts alike can be exchanged. *)
Lemma for_each_replace {A S} (body : A -> S -> result S) pre x y post s :
  (forall s0, body x s0 = body y s0) ->
  for_each body (pre ++ x :: post) s = for_each body (pre ++ y :: post) s.
Proof.
  intro Hxy. rewrite !for_each_app.
  destruct (for_each body pre s); simpl; [|reflexivity].
  now rewrite Hxy.
Qed.

(** A loop that ends normally is the fold of a pure step that agrees with
    its body wherever the body ends normally. *)
Lemma for_each_fold {A S} (body : A -> S -> result S) (step : S -> A -> S) l :
  (forall x s s', In x l -> body x s = Ok s' -> s' = step s x) ->
  forall s s', for_each body l s = Ok s' -> s' = fold_left step l s.
Proof.
  induction l as [|x r IH]; intros Hstep s s'; simpl.
  - intro Q. now inversion Q.
  - destruct (body x s) as [s1|e] eqn:E; simpl; [|discriminate].
    intro Q. rewrite <- (Hstep x s s1 (or_introl eq_refl) E).
    apply IH; auto. intros y a b Hy. apply Hstep. now right.
Qed.

(** A loop whose body never raises on the elements of [l] ends normally. *)
Lemma for_each_total {A S} (body : A -> S -> result S) l :
  (forall x s, In x l -> exists s', body x s = Ok s') ->
  forall s, exists s', for_each body l s = Ok s'.
Proof.
  induction l as [|x r IH]; intros Hb s; simpl.
  - eauto.
  - destruct (Hb x s (or_introl eq_refl)) as [s1 E]. rewrite E. simpl.
    apply IH. intros y a Hy. apply Hb. now right.
Qed.

(** An exception that ends the loop was raised by its body. *)
Lemma for_each_raise {A S} (body : A -> S -> result S) l e :
  forall s, for_each body l s = Raise e ->
  exists x s0, In x l /\ body x s0 = Raise e.
Proof.
  induction l as [|x r IH]; intro s; simpl; [discriminate|].
  destruct (body x s) as [s1|e1] eqn:E; simpl.
  - intro Q. destruct (IH _ Q) as (y & s0 & I & B). eauto.
  - intro Q. inversion Q. subst. eauto.
Qed.

(** ** The metric-series flattener *)

Section FlattenFacts.

Variable fromisoformat_date : string -> option string.
Variable now : nat -> pydatetime.
Variable page_id : string.

Local Notation parse_date := (parse_date fromisoformat_date).
Local Notation flatten_value_entry :=
  (flatten_value_entry fromisoformat_date now page_id).
Local Notation flatten_metric_response :=
  (flatten_metric_response fromisoformat_date now page_id).
Local Notation group_by_date := (group_by_date fromisoformat_date now page_id).
Local Notation flatten_daily_metrics_inner :=
  (flatten_daily_metrics_inner fromisoformat_date now page_id).
Local Notation point_of := (point_of fromisoformat_date).
Local Notation points_of := (points_of fromisoformat_date).
Local Notation day_points := (day_points fromisoformat_date).
Local Notation apply_point := (apply_point now page_id).

(** A value-point whose [end_time] does not parse leaves the state alone,
    whatever the metric name is. *)
Lemma flatten_value_entry_unparsed metric_name ve st :
  parse_date (py_get ve "end_time") = None ->
  flatten_value_entry metric_name (JObj ve) st = Ok st.
Proof.
  intro P. unfold flatten_value_entry. rewrite P.
  now destruct (truthy _).
Qed.

(** A new date gets its three identity columns; the entry then exists. *)
Lemma apply_point_eq mbd t d k v :
  apply_point (mbd, t) (d, k, v) =
  match dict_get d mbd with
  | Some metrics => (dict_set d (dict_set k v metrics) mbd, t)
  | None =>
      (dict_set d
         (dict_set k v
            [ (KStr "page_id", JStr page_id);
              (KStr "date", JStr d);
              (KStr "_extracted_at", JStr (isoformat (now t))) ])
         (dict_set d
            [ (KStr "page_id", JStr page_id);
              (KStr "date", JStr d);
              (KStr "_extracted_at", JStr (isoformat (now t))) ] mbd), S t)
  end.
Proof.
  unfold apply_point, dict_mem.
  destruct (dict_get d mbd) eqn:E; simpl;
    rewrite ?E, ?dict_get_set_same; reflexivity.
Qed.

(** When it ends normally, the loop body stores the retained point. *)
Lemma flatten_value_entry_point metric_name value_entry st st' :
  flatten_value_entry metric_name value_entry st = Ok st' ->
  st' = fold_left apply_point (option_list (point_of metric_name value_entry)) st.
Proof.
  unfold flatten_value_entry, point_of.
  destruct value_entry as [| | | |l|ve]; try discriminate.
  destruct (truthy (py_get ve "end_time")); [|intro Q; now inversion Q].
  destruct (parse_date (py_get ve "end_time")) as [d|];
    [|intro Q; now inversion Q].
  destruct st as [mbd t].
  destruct (to_key metric_name) as [k|] eqn:Ek.
  - simpl option_list. simpl fold_left.
    unfold apply_point.
    destruct (negb (dict_mem d mbd)).
    + rewrite dict_get_set_same. intro Q. now inversion Q.
    + destruct (dict_get d mbd); [|discriminate]. intro Q. now inversion Q.
  - destruct (negb (dict_mem d mbd)).
    + rewrite dict_get_set_same. discriminate.
    + destruct (dict_get d mbd); discriminate.
Qed.

(** A value-point whose [end_time] parses, under a hashable metric name, is
    stored without any exception. *)
Lemma flatten_value_entry_stored metric_name ve st d k :
  truthy (py_get ve "end_time") = true ->
  parse_date (py_get ve "end_time") = Some d ->
  to_key metric_name = Some k ->
  flatten_value_entry metric_name (JObj ve) st =
  Ok (apply_point st (d, k, py_get ve "value")).
Proof.
  intros T P Hk. destruct st as [mbd t].
  unfold flatten_value_entry, apply_point. rewrite T, P, Hk.
  destruct (negb (dict_mem d mbd)) eqn:M.
  - now rewrite dict_get_set_same.
  - apply negb_false_iff, dict_mem_true in M. destruct M as [r G].
    now rewrite G.
Qed.

(** An object under a hashable metric name never raises. *)
Lemma flatten_value_entry_total metric_name ve st :
  hashable metric_name = true ->
  exists st', flatten_value_entry metric_name (JObj ve) st = Ok st'.
Proof.
  unfold hashable. destruct (to_key metric_name) as [k|] eqn:Hk;
    [intros _|discriminate].
  destruct (truthy (py_get ve "end_time")) eqn:T.
  - destruct (parse_date (py_get ve "end_time")) as [d|] eqn:P.
    + rewrite (flatten_value_entry_stored _ _ _ _ _ T P Hk). eauto.
    + rewrite flatten_value_entry_unparsed by assumption. eauto.
  - unfold flatten_value_entry. rewrite T. eauto.
Qed.

Lemma fold_left_flat_map {A B S} (f : S -> B -> S) (g : A -> list B) l s :
  fold_left f (flat_map g l) s = fold_left (fun s x => fold_left f (g x) s) l s.
Proof.
  revert s. induction l as [|x r IH]; intro s; simpl; [reflexivity|].
  now rewrite fold_left_app, IH.
Qed.

Lemma flatten_metric_response_points metric_response st st' :
  flatten_metric_response metric_response st = Ok st' ->
  st' = fold_left apply_point (points_of metric_response) st.
Proof.
  unfold flatten_metric_response, points_of.
  destruct metric_response as [| | | |l|mr]; try discriminate.
  destruct (py_get_default mr "period" (JStr "day")) as [| | |p| |];
    simpl andb; try (intro Q; inversion Q; now destruct (py_get_default mr "values" _)).
  destruct (String.eqb p "day"); simpl andb;
    [|intro Q; inversion Q; now destruct (py_get_default mr "values" _)].
  destruct (py_get_default mr "values" (JArr [])) as [|b|z|s|vs|o];
    simpl truthy.
  - intro Q. now inversion Q.
  - destruct b; simpl; [discriminate|]. intro Q. now inversion Q.
  - destruct (negb (z =? 0)%Z); simpl; [discriminate|]. intro Q. now inversion Q.
  - destruct (negb (s =? "")) eqn:Es; [|intro Q; now inversion Q].
    destruct s as [|a s]; [discriminate|]. simpl. discriminate.
  - destruct vs as [|v vs]; [intro Q; now inversion Q|].
    unfold py_iter, bind. intro Q. rewrite fold_left_flat_map.
    revert Q. apply for_each_fold.
    intros x s0 s1 _. apply flatten_value_entry_point.
  - destruct o as [|[k v] o]; [intro Q; now inversion Q|]. simpl. discriminate.
Qed.

(** A metric-response object of the documented shape never raises. *)
Lemma flatten_metric_response_total metric_response st :
  metric_shape metric_response = true ->
  exists st', flatten_metric_response metric_response st = Ok st'.
Proof.
  unfold metric_shape, flatten_metric_response.
  destruct metric_response as [| | | |l|mr]; try discriminate.
  intro S. apply andb_true_iff in S. destruct S as [Hk Hv].
  destruct (match py_get_default mr "period" (JStr "day") with
            | JStr p => String.eqb p "day" | _ => false end);
    cbn [andb]; [|eauto].
  unfold values_shape in Hv.
  destruct (py_get_default mr "values" (JArr [])) as [|b|z|s|vs|o].
  - cbn [truthy]. eauto.
  - apply negb_true_iff in Hv. rewrite Hv. eauto.
  - apply negb_true_iff in Hv. rewrite Hv. eauto.
  - apply negb_true_iff in Hv. rewrite Hv. eauto.
  - destruct (truthy (JArr vs)); [|eauto]. cbn [py_iter bind].
    apply for_each_total. intros x s0 I.
    rewrite forallb_forall in Hv. specialize (Hv x I).
    destruct x; try discriminate. now apply flatten_value_entry_total.
  - apply negb_true_iff in Hv. rewrite Hv. eauto.
Qed.

(** The flattener yields its records on every input of the documented
    shape. *)
Lemma flatten_daily_metrics_inner_total items t :
  forallb metric_shape items = true ->
  exists out, flatten_daily_metrics_inner items t = Ok out.
Proof.
  intro S. unfold flatten_daily_metrics_inner, group_by_date.
  destruct (for_each_total flatten_metric_response items) with (s := ([] : list (string * list (pykey * json)), t))
    as [st E].
  - intros x s0 I. apply flatten_metric_response_total.
    rewrite forallb_forall in S. auto.
  - rewrite E. cbn [bind]. eauto.
Qed.

(** When the grouping loop ends normally, its state is the fold of the
    retained points in input order. *)
Lemma group_by_date_points items t st :
  group_by_date items t = Ok st ->
  st = fold_left apply_point (day_points items) ([], t).
Proof.
  unfold group_by_date, day_points. intro Q.
  rewrite fold_left_flat_map. revert Q. apply for_each_fold.
  intros x s0 s1 _. apply flatten_metric_response_points.
Qed.

(** Storing a point sets its column in the record of its date. *)
Lemma apply_point_same mbd t d k v :
  lookup2 d k (fst (apply_point (mbd, t) (d, k, v))) = Some v.
Proof.
  rewrite apply_point_eq. unfold lookup2.
  destruct (dict_get d mbd); cbn [fst]; now rewrite !dict_get_set_same.
Qed.

(** Storing a point leaves every other stored column as it is. *)
Lemma apply_point_other mbd t d k v d' k' x :
  (d', k') <> (d, k) ->
  lookup2 d' k' mbd = Some x ->
  lookup2 d' k' (fst (apply_point (mbd, t) (d, k, v))) = Some x.
Proof.
  intros N. rewrite apply_point_eq. unfold lookup2.
  destruct (keqb_dec d d') as [<-|Nd].
  - destruct (dict_get d mbd) as [r|]; [|discriminate]. cbn [fst].
    rewrite dict_get_set_same. intro Q.
    rewrite dict_get_set_other; auto. congruence.
  - destruct (dict_get d mbd) as [r|]; cbn [fst];
      now rewrite !dict_get_set_other by assumption.
Qed.

Lemma last_value_none_cons d k d' k' v ps :
  last_value d k ((d', k', v) :: ps) = None ->
  last_value d k ps = None /\ (d, k) <> (d', k').
Proof.
  cbn [last_value]. destruct (last_value d k ps); [discriminate|].
  destruct (String.eqb d d' && keqb k k') eqn:E; [discriminate|].
  intros _. split; [reflexivity|]. intro Q. inversion Q. subst.
  rewrite String.eqb_refl, keqb_refl in E. discriminate.
Qed.

(** Points for other dates or columns do not touch a stored column. *)
Lemma fold_apply_point_frame d k x ps :
  forall st,
    last_value d k ps = None ->
    lookup2 d k (fst st) = Some x ->
    lookup2 d k (fst (fold_left apply_point ps st)) = Some x.
Proof.
  induction ps as [|[[d' k'] v] ps IH]; intros [mbd t] Hn Hx; simpl; auto.
  apply last_value_none_cons in Hn. destruct Hn as [Hn N].
  apply IH; auto. now apply apply_point_other.
Qed.

(** Last write wins: after storing [ps] in order, a column holds the value
    of the last point written to it. *)
Lemma fold_apply_point_last d k v ps :
  forall st,
    last_value d k ps = Some v ->
    lookup2 d k (fst (fold_left apply_point ps st)) = Some v.
Proof.
  induction ps as [|[[d' k'] w] ps IH]; intros [mbd t];
    cbn [last_value fold_left]; [discriminate|].
  destruct (last_value d k ps) as [u|] eqn:L.
  - intro Q. inversion Q. subst u. now apply IH.
  - destruct (String.eqb d d' && keqb k k') eqn:E; [|discriminate].
    intro Q. inversion Q. subst w.
    apply andb_true_iff in E. destruct E as [E1 E2].
    apply String.eqb_eq in E1. apply keqb_eq in E2. subst d' k'.
    apply fold_apply_point_frame; auto. apply apply_point_same.
Qed.

(** *** The catalog fill *)

Lemma add_missing_metric_keeps metrics m k v :
  dict_get k metrics = Some v -> dict_get k (add_missing_metric metrics m) = Some v.
Proof.
  intro G. unfold add_missing_metric.
  destruct (dict_mem (KStr m) metrics) eqn:M; simpl; auto.
  rewrite dict_get_set_other; auto.
  intro Q. subst k. apply dict_mem_false in M. congruence.
Qed.

Lemma add_missing_metrics_keeps ms : forall metrics k v,
  dict_get k metrics = Some v ->
  dict_get k (fold_left add_missing_metric ms metrics) = Some v.
Proof.
  induction ms as [|m ms IH]; intros metrics k v G; simpl; auto.
  apply IH. now apply add_missing_metric_keeps.
Qed.

Lemma add_missing_metrics_adds ms : forall metrics m,
  In m ms ->
  dict_get (KStr m) metrics = None ->
  dict_get (KStr m) (fold_left add_missing_metric ms metrics) = Some JNull.
Proof.
  induction ms as [|m0 ms IH]; intros metrics m I G; simpl; [contradiction|].
  destruct (string_dec m0 m) as [->|N].
  - apply add_missing_metrics_keeps. unfold add_missing_metric.
    apply dict_mem_false in G. rewrite G. simpl. apply dict_get_set_same.
  - destruct I as [I|I]; [contradiction|].
    apply IH; auto. unfold add_missing_metric.
    destruct (dict_mem (KStr m0) metrics); simpl; auto.
    rewrite dict_get_set_other; auto. congruence.
Qed.

(** *** The clock *)

Lemma for_each_rel {A S} (R : S -> S -> Prop) (body : A -> S -> result S) l :
  (forall x s1 s2, R s1 s2 -> result_rel R (body x s1) (body x s2)) ->
  forall s1 s2, R s1 s2 ->
    result_rel R (for_each body l s1) (for_each body l s2).
Proof.
  intro Hb. induction l as [|x r IH]; intros s1 s2 HR; simpl; auto.
  specialize (Hb x s1 s2 HR).
  destruct (body x s1), (body x s2); simpl in *; auto; contradiction.
Qed.

(** The grouping reads the clock only for [_extracted_at]: when the clock
    stands still, the grouped records do not depend on the reading count. *)
Section FrozenClock.

Hypothesis frozen : forall n m, isoformat (now n) = isoformat (now m).

Lemma flatten_value_entry_frozen metric_name value_entry s1 s2 :
  same_groups s1 s2 ->
  result_rel same_groups (flatten_value_entry metric_name value_entry s1)
    (flatten_value_entry metric_name value_entry s2).
Proof.
  destruct s1 as [mbd t1], s2 as [mbd2 t2]. unfold same_groups. cbn [fst].
  intros <-. unfold flatten_value_entry.
  destruct value_entry; cbn [result_rel]; auto.
  destruct (truthy _); cbn [result_rel]; auto.
  destruct (parse_date _) as [d|]; cbn [result_rel]; auto.
  rewrite (frozen t2 t1).
  destruct (negb (dict_mem d mbd)).
  - rewrite dict_get_set_same.
    destruct (to_key metric_name); cbn [result_rel fst]; auto.
  - destruct (dict_get d mbd); cbn [result_rel]; auto.
    destruct (to_key metric_name); cbn [result_rel fst]; auto.
Qed.

Lemma flatten_metric_response_frozen metric_response s1 s2 :
  same_groups s1 s2 ->
  result_rel same_groups (flatten_metric_response metric_response s1)
    (flatten_metric_response metric_response s2).
Proof.
  intro HR. unfold flatten_metric_response.
  destruct metric_response; cbn [result_rel]; auto.
  destruct (_ && _); cbn [result_rel]; auto.
  destruct (py_iter _); cbn [bind result_rel]; auto.
  apply for_each_rel; auto.
  intros. now apply flatten_value_entry_frozen.
Qed.

Lemma flatten_daily_metrics_inner_frozen items t1 t2 :
  flatten_daily_metrics_inner items t1 = flatten_daily_metrics_inner items t2.
Proof.
  unfold flatten_daily_metrics_inner, group_by_date.
  pose proof (for_each_rel same_groups flatten_metric_response items
                flatten_metric_response_frozen ([], t1) ([], t2) eq_refl) as Q.
  destruct (for_each _ items ([], t1)) as [[m1 u1]|e1],
           (for_each _ items ([], t2)) as [[m2 u2]|e2];
    cbn [result_rel bind] in *; try contradiction.
  - unfold same_groups in Q. cbn [fst] in *. now subst.
  - now subst.
Qed.

End FrozenClock.

(** *** Identity columns *)

(** A date that has a retained point has a record; its [page_id] and [date]
    columns hold the page id and the date unless a point overwrote them. *)
Lemma fold_apply_point_identity d k0 x ps :
  (forall t, dict_get k0
               [ (KStr "page_id", JStr page_id);
                 (KStr "date", JStr d);
                 (KStr "_extracted_at", JStr (isoformat (now t))) ] = Some x) ->
  forall st,
    (exists k v, In (d, k, v) ps) ->
    last_value d k0 ps = None ->
    dict_get d (fst st) = None ->
    lookup2 d k0 (fst (fold_left apply_point ps st)) = Some x.
Proof.
  intro Hinit.
  induction ps as [|[[d' k'] w] ps IH]; intros [mbd t] (k & v & I) Hn Ha.
  - contradiction.
  - apply last_value_none_cons in Hn. destruct Hn as [Hn N].
    cbn [fold_left]. destruct (keqb_dec d' d) as [->|Nd].
    + apply fold_apply_point_frame; auto.
      rewrite apply_point_eq. cbn [fst] in Ha. rewrite Ha. cbn [fst].
      unfold lookup2. rewrite dict_get_set_same.
      rewrite dict_get_set_other; auto. congruence.
    + apply IH; auto.
      * destruct I as [I|I]; [inversion I; congruence|eauto].
      * rewrite apply_point_eq. cbn [fst] in Ha.
        destruct (dict_get d' mbd); cbn [fst];
          now rewrite !dict_get_set_other by assumption.
Qed.

(** The records of a run that ends normally are the filled groups. *)
Lemma flatten_daily_metrics_inner_ok items t out :
  flatten_daily_metrics_inner items t = Ok out ->
  exists groups t',
    group_by_date items t = Ok (groups, t') /\
    out = map (fun kv => add_missing_metrics (snd kv)) groups.
Proof.
  unfold flatten_daily_metrics_inner.
  destruct (group_by_date items t) as [[groups t']|e]; cbn [bind];
    [|discriminate].
  intro Q. inversion Q. eauto.
Qed.

(** *** The groups *)

Lemma apply_point_NoDup st p :
  NoDup (dict_keys (fst st)) -> NoDup (dict_keys (fst (apply_point st p))).
Proof.
  destruct st as [mbd t], p as [[d k] v]. rewrite apply_point_eq.
  cbn [fst]. intro N.
  destruct (dict_get d mbd); cbn [fst]; repeat apply dict_set_NoDup; auto.
Qed.

Lemma fold_apply_point_NoDup ps : forall st,
  NoDup (dict_keys (fst st)) ->
  NoDup (dict_keys (fst (fold_left apply_point ps st))).
Proof.
  induction ps as [|p ps IH]; intros st N; cbn [fold_left]; auto.
  apply IH. now apply apply_point_NoDup.
Qed.

(** A column that is neither an identity column nor written stays absent. *)
Lemma apply_point_absent mbd t d k v d' k' :
  (d', k') <> (d, k) ->
  k' <> KStr "page_id" -> k' <> KStr "date" -> k' <> KStr "_extracted_at" ->
  lookup2 d' k' mbd = None ->
  lookup2 d' k' (fst (apply_point (mbd, t) (d, k, v))) = None.
Proof.
  intros N N1 N2 N3. rewrite apply_point_eq. unfold lookup2.
  destruct (keqb_dec d d') as [<-|Nd].
  - assert (Nk : k <> k') by congruence.
    destruct (dict_get d mbd) as [r|]; cbn [fst].
    + rewrite dict_get_set_same. intro Q.
      rewrite dict_get_set_other; auto.
    + intros _. rewrite dict_get_set_same.
      rewrite dict_get_set_other by assumption.
      cbn [dict_get]. rewrite !keqb_neq by assumption. reflexivity.
  - destruct (dict_get d mbd) as [r|]; cbn [fst];
      now rewrite !dict_get_set_other by assumption.
Qed.

Lemma fold_apply_point_absent d k ps :
  k <> KStr "page_id" -> k <> KStr "date" -> k <> KStr "_extracted_at" ->
  forall st,
    last_value d k ps = None ->
    lookup2 d k (fst st) = None ->
    lookup2 d k (fst (fold_left apply_point ps st)) = None.
Proof.
  intros N1 N2 N3.
  induction ps as [|[[d' k'] v] ps IH]; intros [mbd t] Hn Hx; cbn [fold_left];
    auto.
  apply last_value_none_cons in Hn. destruct Hn as [Hn N].
  apply IH; auto. now apply apply_point_absent.
Qed.

(** Every date with a record has a retained point. *)
Lemma fold_apply_point_dates d ps : forall st,
  dict_mem d (fst (fold_left apply_point ps st)) = true ->
  dict_mem d (fst st) = true \/ exists k v, In (d, k, v) ps.
Proof.
  induction ps as [|[[d' k'] v] ps IH]; intros [mbd t]; cbn [fold_left]; auto.
  intro M. apply IH in M. destruct M as [M|(k & w & I)].
  - rewrite apply_point_eq in M.
    destruct (keqb_dec d' d) as [->|Nd].
    + right. exists k', v. now left.
    + left. cbn [fst]. destruct (dict_get d' mbd); cbn [fst] in M;
        now rewrite !dict_mem_set_other in M by assumption.
  - right. exists k, w. now right.
Qed.

(** No catalog metric is named like an identity column. *)
Lemma missing_not_identity m :
  In m missing_metrics ->
  m <> "page_id" /\ m <> "date" /\ m <> "_extracted_at".
Proof.
  intro I. unfold missing_metrics in I. cbn [In] in I.
  repeat (destruct I as [<-|I]; [repeat split; discriminate|]).
  contradiction.
Qed.

(** *** A retained value-point in the run *)

Lemma point_of_retained metric_name s d k :
  truthy (py_get s "end_time") = true ->
  parse_date (py_get s "end_time") = Some d ->
  to_key metric_name = Some k ->
  point_of metric_name (JObj s) = Some (d, k, py_get s "value").
Proof. intros T P K. unfold point_of. now rewrite T, P, K. Qed.

(** The points of a daily metric around one of its retained value-points *)
Lemma points_of_split mr ws1 s ws2 d k :
  py_get_default mr "period" (JStr "day") = JStr "day" ->
  py_get_default mr "values" (JArr []) = JArr (ws1 ++ JObj s :: ws2) ->
  truthy (py_get s "end_time") = true ->
  parse_date (py_get s "end_time") = Some d ->
  to_key (py_get mr "name") = Some k ->
  points_of (JObj mr)
  = (flat_map (fun ve => option_list (point_of (py_get mr "name") ve)) ws1
     ++ (d, k, py_get s "value")
     :: flat_map (fun ve => option_list (point_of (py_get mr "name") ve)) ws2)%list.
Proof.
  intros Hp Hv T P K. unfold points_of. rewrite Hp, Hv, String.eqb_refl.
  rewrite flat_map_app. cbn [flat_map].
  now rewrite (point_of_retained _ _ _ _ T P K).
Qed.

Lemma last_value_app_point d k earlier v later :
  last_value d k (earlier ++ (d, k, v) :: later)
  = match last_value d k later with
    | Some w => Some w
    | None => Some v
    end.
Proof.
  induction earlier as [|[[d' k'] w] earlier IH]; cbn [app last_value].
  - destruct (last_value d k later); [reflexivity|].
    now rewrite String.eqb_refl, keqb_refl.
  - rewrite IH. now destruct (last_value d k later).
Qed.

(** In a run that ends normally, a value-point with a parseable [end_time]
    of a daily metric with a hashable name has a record of its date among
    the records yielded; the column of the metric holds there the value of
    the last point of the input for that date and column, which is the
    value of this value-point unless a later point replaces it. *)
Lemma run_stores_point pre mr post ws1 s ws2 t out d k :
  py_get_default mr "period" (JStr "day") = JStr "day" ->
  py_get_default mr "values" (JArr []) = JArr (ws1 ++ JObj s :: ws2) ->
  truthy (py_get s "end_time") = true ->
  parse_date (py_get s "end_time") = Some d ->
  to_key (py_get mr "name") = Some k ->
  flatten_daily_metrics_inner (pre ++ JObj mr :: post) t = Ok out ->
  exists groups t' grouped v,
    group_by_date (pre ++ JObj mr :: post) t = Ok (groups, t') /\
    out = map (fun kv => add_missing_metrics (snd kv)) groups /\
    dict_get d groups = Some grouped /\
    In (add_missing_metrics grouped) out /\
    dict_get k (add_missing_metrics grouped) = Some v /\
    last_value d k (day_points (pre ++ JObj mr :: post)) = Some v /\
    (last_value d k
       (flat_map (fun ve => option_list (point_of (py_get mr "name") ve)) ws2
        ++ day_points post) = None ->
     v = py_get s "value").
Proof.
  intros Hp Hv T P K R.
  destruct (flatten_daily_metrics_inner_ok _ _ _ R) as (groups & t' & G & ->).
  pose proof (group_by_date_points _ _ _ G) as F.
  set (later := (flat_map
                   (fun ve => option_list (point_of (py_get mr "name") ve)) ws2
                 ++ day_points post)%list).
  assert (E : day_points (pre ++ JObj mr :: post)
              = ((day_points pre
                  ++ flat_map
                       (fun ve => option_list (point_of (py_get mr "name") ve))
                       ws1)
                 ++ (d, k, py_get s "value") :: later)%list).
  { unfold day_points. rewrite flat_map_app. cbn [flat_map].
    rewrite (points_of_split _ _ _ _ _ _ Hp Hv T P K).
    subst later. unfold day_points.
    now rewrite <- !app_assoc, <- app_comm_cons. }
  assert (L : exists v,
             last_value d k (day_points (pre ++ JObj mr :: post)) = Some v /\
             (last_value d k later = None -> v = py_get s "value")).
  { rewrite E, last_value_app_point.
    destruct (last_value d k later) as [w|]; eexists; split; eauto.
    discriminate. }
  destruct L as (v & L & Hlast).
  pose proof (fold_apply_point_last d k v _ ([], t) L) as Q.
  rewrite <- F in Q. cbn [fst] in Q. unfold lookup2 in Q.
  destruct (dict_get d groups) as [grouped|] eqn:D; [|discriminate].
  exists groups, t', grouped, v. repeat split; auto.
  - apply dict_get_In in D.
    change (add_missing_metrics grouped)
      with ((fun kv : string * list (pykey * json) =>
               add_missing_metrics (snd kv)) (d, grouped)).
    now apply in_map.
  - now apply add_missing_metrics_keeps.
Qed.

End FlattenFacts.

(** ** The post-metrics fan-out *)

Section FanOutFacts.

Variable fromisoformat_date : string -> option string.
Variable now : nat -> pydatetime.

Local Notation post_date := (post_date fromisoformat_date now).
Local Notation post_metrics_item := (post_metrics_item fromisoformat_date now).
Local Notation post_metrics_resource :=
  (post_metrics_resource fromisoformat_date now).

(** What one returned metric does to the record when no exception escapes *)
Lemma update_metric_ok metric base r :
  update_metric metric base = Ok r ->
  r = match update_of metric with
      | Some (k, v) => if dict_mem k base then dict_set k v base else base
      | None => base
      end.
Proof.
  unfold update_metric, update_of.
  destruct metric as [| | | |l|m]; try discriminate.
  destruct (py_get_default m "values" (JArr [])) as [|b|z|s|vs|o];
    cbn [truthy].
  - intro Q. now inversion Q.
  - destruct b; cbn [py_len bind]; [discriminate|]. intro Q. now inversion Q.
  - destruct (negb (z =? 0)%Z); cbn [py_len bind]; [discriminate|].
    intro Q. now inversion Q.
  - destruct s as [|a s]; cbn [String.eqb negb]; [intro Q; now inversion Q|].
    cbn [py_len bind String.length Nat.ltb Nat.leb py_index0]. discriminate.
  - destruct vs as [|first vs]; [intro Q; now inversion Q|].
    cbn [py_len bind List.length Nat.ltb Nat.leb py_index0].
    destruct first; try discriminate.
    destruct (to_key (py_get m "name")) as [k|]; [|discriminate].
    destruct (dict_mem k base); intro Q; now inversion Q.
  - destruct o as [|kv o]; [intro Q; now inversion Q|].
    cbn [py_len bind List.length Nat.ltb Nat.leb py_index0]. discriminate.
Qed.

(** A returned metric of the documented shape never raises. *)
Lemma update_metric_total metric base :
  metric_shape metric = true -> exists r, update_metric metric base = Ok r.
Proof.
  unfold metric_shape, update_metric, hashable, values_shape.
  destruct metric as [| | | |l|m]; try discriminate.
  intro S. apply andb_true_iff in S. destruct S as [Hk Hv].
  destruct (to_key (py_get m "name")) as [k|]; [|discriminate].
  destruct (py_get_default m "values" (JArr [])) as [|b|z|s|vs|o].
  - cbn [truthy]. eauto.
  - apply negb_true_iff in Hv. rewrite Hv. eauto.
  - apply negb_true_iff in Hv. rewrite Hv. eauto.
  - apply negb_true_iff in Hv. rewrite Hv. eauto.
  - destruct vs as [|first vs]; cbn [truthy]; [eauto|].
    cbn [py_len bind List.length Nat.ltb Nat.leb py_index0].
    cbn [forallb] in Hv. destruct first; try discriminate.
    destruct (dict_mem k base); eauto.
  - apply negb_true_iff in Hv. rewrite Hv. eauto.
Qed.

Lemma store_metric_keys base metric :
  dict_keys (store_metric base metric) = dict_keys base.
Proof.
  unfold store_metric. destruct (update_of metric) as [[k v]|]; auto.
  destruct (dict_mem k base) eqn:M; auto.
  now apply dict_keys_set_present.
Qed.

Lemma fold_store_metric_keys ms : forall base,
  dict_keys (fold_left store_metric ms base) = dict_keys base.
Proof.
  induction ms as [|m ms IH]; intro base; cbn [fold_left]; auto.
  now rewrite IH, store_metric_keys.
Qed.

Lemma store_metric_other base metric k :
  overwrites k metric = false ->
  dict_get k (store_metric base metric) = dict_get k base.
Proof.
  unfold overwrites, store_metric.
  destruct (update_of metric) as [[k' v]|]; auto.
  intro N. destruct (dict_mem k' base); auto.
  rewrite dict_get_set_other; auto.
  intro Q. subst. rewrite keqb_refl in N. discriminate.
Qed.

Lemma last_update_none_cons k m ms :
  last_update k (m :: ms) = None ->
  last_update k ms = None /\ overwrites k m = false.
Proof.
  cbn [last_update]. unfold overwrites.
  destruct (last_update k ms); [discriminate|].
  destruct (update_of m) as [[k' v]|]; auto.
  destruct (keqb k k'); [discriminate|auto].
Qed.

Lemma fold_store_metric_frame k ms : forall base,
  last_update k ms = None ->
  dict_get k (fold_left store_metric ms base) = dict_get k base.
Proof.
  induction ms as [|m ms IH]; intros base Hn; cbn [fold_left]; auto.
  apply last_update_none_cons in Hn. destruct Hn as [Hn N].
  rewrite IH by assumption. now apply store_metric_other.
Qed.

(** Last write wins among the returned metrics, on the columns the record
    already has. *)
Lemma fold_store_metric_last k v ms : forall base,
  dict_mem k base = true ->
  last_update k ms = Some v ->
  dict_get k (fold_left store_metric ms base) = Some v.
Proof.
  induction ms as [|m ms IH]; intros base M; cbn [last_update fold_left];
    [discriminate|].
  assert (M' : dict_mem k (store_metric base m) = true).
  { apply dict_mem_keys. rewrite store_metric_keys. now apply dict_mem_keys. }
  destruct (last_update k ms) as [u|] eqn:L.
  - intro Q. inversion Q. subst u. now apply IH.
  - rewrite fold_store_metric_frame by assumption.
    unfold store_metric.
    destruct (update_of m) as [[k' w]|]; [|discriminate].
    destruct (keqb k k') eqn:E; [|discriminate].
    apply keqb_eq in E. subst k'. intro Q. inversion Q. subst w.
    rewrite M. apply dict_get_set_same.
Qed.

Lemma for_each_update_metric ms base r :
  for_each update_metric ms base = Ok r ->
  r = fold_left store_metric ms base.
Proof.
  apply for_each_fold. intros x s s' _. apply update_metric_ok.
Qed.

(** Reading the returned metrics raises no [RequestException]: the request
    itself is the only statement of the [try] block that can. *)
Lemma update_metric_not_request metric base :
  update_metric metric base <> Raise RequestException.
Proof.
  unfold update_metric.
  destruct metric as [| | | |l|m]; try discriminate.
  destruct (truthy _); [|discriminate].
  destruct (py_get_default m "values" (JArr [])) as [|b|z|s|vs|o];
    cbn [py_len bind]; try discriminate.
  - destruct (Nat.ltb _ _); [|discriminate].
    destruct s; cbn [py_index0 bind]; discriminate.
  - destruct (Nat.ltb _ _); [|discriminate].
    destruct vs as [|first vs]; cbn [py_index0 bind]; [discriminate|].
    destruct first; try discriminate.
    destruct (to_key _); [|discriminate].
    destruct (dict_mem _ _); discriminate.
  - destruct (Nat.ltb _ _); discriminate.
Qed.

(** The record of a post whose request did not abort the run: the preset
    record with the returned metrics stored in order. *)
Lemma try_fetch_metrics_ok outcome base r :
  try_fetch_metrics outcome base = Ok r ->
  r = fold_left store_metric (returned_metrics outcome) base.
Proof.
  unfold try_fetch_metrics, fetch_metrics, returned_metrics.
  destruct outcome as [e|body].
  - destruct e; try discriminate. intro Q. now inversion Q.
  - destruct body as [| | | |l|md]; try discriminate.
    destruct (py_iter (py_get_default md "data" (JArr []))) as [ms|e] eqn:P;
      cbn [bind].
    + destruct (for_each update_metric ms base) as [r'|e] eqn:E.
      * intro Q. inversion Q. subst r'. now apply for_each_update_metric.
      * destruct e; try discriminate.
        apply for_each_raise in E. destruct E as (x & s0 & _ & B).
        now apply update_metric_not_request in B.
    + unfold py_iter in P.
      destruct (py_get_default md "data" (JArr [])); inversion P;
        discriminate.
Qed.

Lemma try_fetch_metrics_failed base :
  try_fetch_metrics (HttpRaises RequestException) base = Ok base.
Proof. reflexivity. Qed.

Lemma try_fetch_metrics_total outcome base :
  outcome_shape outcome = true -> exists r, try_fetch_metrics outcome base = Ok r.
Proof.
  unfold outcome_shape, insights_shape, try_fetch_metrics, fetch_metrics.
  destruct outcome as [e|body].
  - destruct e; try discriminate. eauto.
  - destruct body as [| | | |l|md]; try discriminate.
    destruct (py_get_default md "data" (JArr [])) as [| | | |ms|];
      try discriminate.
    intro S. cbn [py_iter bind].
    destruct (for_each_total update_metric ms) with (s := base) as [r E].
    + intros x s0 I. apply update_metric_total.
      rewrite forallb_forall in S. auto.
    + rewrite E. eauto.
Qed.

(** One turn of the loop over the posts, when no exception escapes it *)
Lemma post_metrics_item_ok get_insights post i t r s :
  post_metrics_item get_insights post (i, t) = Ok (r, s) ->
  exists o post_id,
    post = JObj o /\ dict_get "id" o = Some post_id /\
    s = (S i, S (snd (post_date (py_get o "created_time") t))) /\
    try_fetch_metrics (get_insights i post_id)
      (base_record post_id
         (fst (post_date (py_get o "created_time") t))
         (isoformat (now (snd (post_date (py_get o "created_time") t)))))
    = Ok r.
Proof.
  unfold post_metrics_item, py_subscript.
  destruct post as [| | | |l|o]; try discriminate.
  destruct (dict_get "id" o) as [post_id|] eqn:I; [|discriminate].
  cbn [bind]. cbv beta iota. intro Q. exists o, post_id.
  destruct (post_date (py_get o "created_time") t) as [date_str t'].
  cbn [fst snd].
  destruct (try_fetch_metrics _ _) as [r'|e] eqn:E; [|discriminate].
  cbn [bind] in Q. inversion Q. subst. repeat split; auto.
Qed.

Lemma post_metrics_item_total get_insights post i t :
  post_shape post = true ->
  (forall post_id, outcome_shape (get_insights i post_id) = true) ->
  exists r s, post_metrics_item get_insights post (i, t) = Ok (r, s).
Proof.
  unfold post_shape, post_metrics_item, py_subscript.
  destruct post as [| | | |l|o]; try discriminate.
  intros M S. apply dict_mem_true in M. destruct M as [post_id I].
  rewrite I. cbn [bind]. cbv beta iota.
  destruct (post_date (py_get o "created_time") t) as [date_str t'].
  destruct (try_fetch_metrics_total (get_insights i post_id)
              (base_record post_id date_str (isoformat (now t'))) (S post_id))
    as [r E].
  rewrite E. cbn [bind]. eauto.
Qed.

(** The loop yields one record per listed post when every post is an object
    with an id and every request fails or returns an insights payload. *)
Lemma fan_out_total get_insights posts : forall i t,
  forallb post_shape posts = true ->
  (forall j post_id, j < List.length posts ->
     outcome_shape (get_insights (i + j) post_id) = true) ->
  exists records,
    yield_each (post_metrics_item get_insights) posts (i, t) = (records, None)
    /\ List.length records = List.length posts.
Proof.
  induction posts as [|post posts IH]; intros i t Hp Hg; cbn [yield_each].
  - exists []. auto.
  - cbn [forallb] in Hp. apply andb_true_iff in Hp. destruct Hp as [Hp Hps].
    destruct (post_metrics_item_total get_insights post i t Hp) as (r & s & E).
    { intro post_id. rewrite <- (Nat.add_0_r i). apply Hg. cbn. lia. }
    rewrite E. destruct (post_metrics_item_ok _ _ _ _ _ _ E)
      as (o & post_id & _ & _ & -> & _).
    destruct (IH (S i) (S (snd (post_date (py_get o "created_time") t))) Hps)
      as (records & Er & El).
    { intros j pid Hj. replace (S i + j) with (i + S j) by lia.
      apply Hg. cbn. lia. }
    rewrite Er. exists (r :: records). cbn. auto.
Qed.

(** Deriving the date of a post reads the clock at most once. *)
Lemma post_date_clock created t :
  snd (post_date created t) = t \/ snd (post_date created t) = S t.
Proof.
  unfold post_date. destruct (truthy created); auto.
  destruct (parse_date fromisoformat_date created); auto.
Qed.

(** The [j]-th record yielded comes from the [j]-th post and the [j]-th
    request; every earlier post has read the clock once or twice. *)
Lemma fan_out_nth get_insights posts : forall i t records e j r,
  yield_each (post_metrics_item get_insights) posts (i, t) = (records, e) ->
  nth_error records j = Some r ->
  exists o post_id t_j,
    t + j <= t_j <= t + 2 * j /\
    nth_error posts j = Some (JObj o) /\ dict_get "id" o = Some post_id /\
    try_fetch_metrics (get_insights (i + j) post_id)
      (base_record post_id
         (fst (post_date (py_get o "created_time") t_j))
         (isoformat (now (snd (post_date (py_get o "created_time") t_j)))))
    = Ok r.
Proof.
  induction posts as [|post posts IH]; intros i t records e j r;
    cbn [yield_each].
  - intro Q. inversion Q. subst. destruct j; discriminate.
  - destruct (post_metrics_item get_insights post (i, t)) as [[r0 s]|e0] eqn:E.
    + destruct (post_metrics_item_ok _ _ _ _ _ _ E)
        as (o & post_id & -> & I & -> & F).
      destruct (yield_each _ posts _) as [rs e1] eqn:Y.
      intro Q. inversion Q. subst. destruct j as [|j]; cbn [nth_error].
      * intro R. inversion R. subst. rewrite !Nat.add_0_r.
        exists o, post_id, t. split; [lia|auto].
      * intro R. replace (i + S j) with (S i + j) by lia.
        destruct (IH _ _ _ _ _ _ Y R) as (o' & pid & t_j & B & P & I' & F').
        exists o', pid, t_j. split; [|auto].
        destruct (post_date_clock (py_get o "created_time") t) as [C|C];
          rewrite C in B; lia.
    + intro Q. inversion Q. subst. destruct j; discriminate.
Qed.

(** Two collaborators that answer the [j]-th request alike give the same
    [j]-th record: a post's record depends on its own request only. *)
Lemma fan_out_compare g1 g2 posts : forall i t rs1 rs2 e1 e2 j,
  yield_each (post_metrics_item g1) posts (i, t) = (rs1, e1) ->
  yield_each (post_metrics_item g2) posts (i, t) = (rs2, e2) ->
  j < List.length rs1 -> j < List.length rs2 ->
  (forall post_id, g1 (i + j) post_id = g2 (i + j) post_id) ->
  nth_error rs1 j = nth_error rs2 j.
Proof.
  induction posts as [|post posts IH]; intros i t rs1 rs2 e1 e2 j;
    cbn [yield_each].
  - intros Q1 Q2. inversion Q1. inversion Q2. reflexivity.
  - destruct (post_metrics_item g1 post (i, t)) as [[r1 s1]|x1] eqn:E1;
      [|intro Q; inversion Q; cbn; lia].
    destruct (post_metrics_item g2 post (i, t)) as [[r2 s2]|x2] eqn:E2;
      [|intros _ Q; inversion Q; cbn; lia].
    destruct (post_metrics_item_ok _ _ _ _ _ _ E1)
      as (o & post_id & -> & I & -> & F1).
    destruct (post_metrics_item_ok _ _ _ _ _ _ E2)
      as (o' & post_id' & O & I' & -> & F2).
    inversion O. subst o'. rewrite I in I'. inversion I'. subst post_id'.
    destruct (yield_each (post_metrics_item g1) posts _) as [t1 x1] eqn:Y1.
    destruct (yield_each (post_metrics_item g2) posts _) as [t2 x2] eqn:Y2.
    intros Q1 Q2. inversion Q1. inversion Q2. subst.
    destruct j as [|j]; cbn [nth_error List.length].
    + intros _ _ G. rewrite Nat.add_0_r in G. rewrite G in F1.
      congruence.
    + intros L1 L2 G. eapply IH; eauto; try lia.
      intro pid. replace (S i + j) with (i + S j) by lia. apply G.
Qed.

(** *** The preset record *)

Lemma base_record_keys post_id date_str extracted_at :
  dict_keys (base_record post_id date_str extracted_at) =
  KStr "post_id" :: KStr "date" :: KStr "_extracted_at"
  :: map KStr post_metrics_catalog.
Proof. reflexivity. Qed.

Lemma base_record_catalog post_id date_str extracted_at m :
  In m post_metrics_catalog ->
  dict_get (KStr m) (base_record post_id date_str extracted_at) = Some JNull.
Proof.
  intro I. unfold post_metrics_catalog in I. cbn [In] in I.
  repeat (destruct I as [<-|I]; [reflexivity|]). contradiction.
Qed.

Lemma base_record_identity post_id date_str extracted_at :
  dict_get (KStr "post_id") (base_record post_id date_str extracted_at)
  = Some post_id /\
  dict_get (KStr "date") (base_record post_id date_str extracted_at)
  = Some (JStr date_str) /\
  dict_get (KStr "_extracted_at") (base_record post_id date_str extracted_at)
  = Some (JStr extracted_at).
Proof. repeat split. Qed.

(** *** The whole resource *)

Lemma post_metrics_resource_run get_insights listing t out e :
  post_metrics_resource get_insights listing t = (out, e) ->
  out = [] \/
  yield_each (post_metrics_item get_insights) (listed_posts listing) (0, S t)
  = (out, e).
Proof.
  unfold post_metrics_resource, listed_posts.
  destruct listing as [x|body]; [intro Q; inversion Q; auto|].
  destruct body; try (intro Q; inversion Q; now auto).
  destruct (py_iter _); [auto|]. intro Q. inversion Q. auto.
Qed.

(** The [j]-th record yielded comes from the [j]-th listed post and from the
    [j]-th request, after the clock reading of [end_date] and those of the
    earlier posts. *)
Lemma post_metrics_resource_nth get_insights listing t out e j r :
  post_metrics_resource get_insights listing t = (out, e) ->
  nth_error out j = Some r ->
  exists o post_id t_j,
    S t + j <= t_j <= S t + 2 * j /\
    nth_error (listed_posts listing) j = Some (JObj o) /\
    dict_get "id" o = Some post_id /\
    try_fetch_metrics (get_insights j post_id)
      (base_record post_id
         (fst (post_date (py_get o "created_time") t_j))
         (isoformat (now (snd (post_date (py_get o "created_time") t_j)))))
    = Ok r.
Proof.
  intros R N. apply post_metrics_resource_run in R. destruct R as [->|R].
  - destruct j; discriminate.
  - exact (fan_out_nth _ _ _ _ _ _ _ _ R N).
Qed.

(** The run ends normally, with one record per post, when the listed posts
    are objects with an id and every request fails with a request exception
    or returns an insights payload. *)
Lemma post_metrics_resource_total get_insights posts_data posts t :
  py_get_default posts_data "data" (JArr []) = JArr posts ->
  forallb post_shape posts = true ->
  (forall j post_id, j < List.length posts ->
     outcome_shape (get_insights j post_id) = true) ->
  exists records,
    post_metrics_resource get_insights (HttpJson (JObj posts_data)) t
    = (records, None) /\
    List.length records = List.length posts.
Proof.
  intros D Hp Hg. unfold post_metrics_resource. rewrite D. cbn [py_iter].
  apply fan_out_total; auto.
Qed.

Lemma forallb_not_overwrites k ms :
  forallb (fun metric => negb (overwrites k metric)) ms = true ->
  last_update k ms = None.
Proof.
  induction ms as [|m ms IH]; cbn [forallb last_update]; [reflexivity|].
  intro A. apply andb_true_iff in A. destruct A as [A B].
  rewrite (IH B). apply negb_true_iff in A. unfold overwrites in A.
  destruct (update_of m) as [[k' v]|]; [|reflexivity]. now rewrite A.
Qed.

End FanOutFacts.

(** ** Strings *)



(** ** Reading a JSON object after an assignment *)

Lemma py_get_set_other o k k' v :
  k <> k' -> py_get (dict_set k v o) k' = py_get o k'.
Proof. intro N. unfold py_get. now rewrite dict_get_set_other. Qed.

Lemma py_get_default_set_other o k k' v dflt :
  k <> k' -> py_get_default (dict_set k v o) k' dflt = py_get_default o k' dflt.
Proof. intro N. unfold py_get_default. now rewrite dict_get_set_other. Qed.

Lemma py_get_default_set_same o k v dflt :
  py_get_default (dict_set k v o) k dflt = v.
Proof. unfold py_get_default. now rewrite dict_get_set_same. Qed.

(** * The properties of the specification *)

Section Specified.

Variable fromisoformat_date : string -> option string.
Variable now : nat -> pydatetime.

Local Notation parse_date := (parse_date fromisoformat_date).
Local Notation flatten_value_entry :=
  (flatten_value_entry fromisoformat_date now).
Local Notation flatten_metric_response :=
  (flatten_metric_response fromisoformat_date now).
Local Notation group_by_date := (group_by_date fromisoformat_date now).
Local Notation flatten_daily_metrics_inner :=
  (flatten_daily_metrics_inner fromisoformat_date now).
Local Notation day_points := (day_points fromisoformat_date).
Local Notation add_post_fields_item := (add_post_fields_item now).
Local Notation post_date := (post_date fromisoformat_date now).
Local Notation post_metrics_item := (post_metrics_item fromisoformat_date now).
Local Notation post_metrics_resource :=
  (post_metrics_resource fromisoformat_date now).

(** C1.  When the listing request returns posts (objects with an id) and
    every per-post request either fails with a request exception or returns
    an insights payload, the fan-out ends normally and yields exactly one
    record per listed post; that covers the run in which every per-post
    request fails. *)
Theorem C1_fan_out_cardinality get_insights posts_data posts t :
  py_get_default posts_data "data" (JArr []) = JArr posts ->
  forallb post_shape posts = true ->
  (forall j post_id, j < List.length posts ->
     outcome_shape (get_insights j post_id) = true) ->
  exists records,
    post_metrics_resource get_insights (HttpJson (JObj posts_data)) t
    = (records, None) /\
    List.length records = List.length posts.
Proof.
  intros D Hp Hg. now apply post_metrics_resource_total.
Qed.

(** C2.  Every record of [daily_page_metrics_total] has every metric of the
    daily catalog as a column: it holds the last value found for that
    metric and date in the response, and null when the response has none;
    every other column found is kept as well, and the [date] column names
    the date of the record unless a metric of that name was returned.  Every record of
    [lifetime_post_metrics_total] has exactly the three identity columns
    and the columns of the post-metrics catalog: a catalog column holds the
    value of the last returned metric stored under it, and null when the
    response brought none or the request failed. *)
Theorem C2_catalog_completeness :
  (forall page_id items t out metrics,
      flatten_daily_metrics_inner page_id items t = Ok out ->
      In metrics out ->
      exists date_str,
        (exists k v, In (date_str, k, v) (day_points items)) /\
        (forall m, In m missing_metrics ->
           dict_mem (KStr m) metrics = true /\
           dict_get (KStr m) metrics =
           Some (match last_value date_str (KStr m) (day_points items) with
                 | Some v => v
                 | None => JNull
                 end)) /\
        (forall k v, last_value date_str k (day_points items) = Some v ->
           dict_get k metrics = Some v) /\
        (last_value date_str (KStr "date") (day_points items) = None ->
         dict_get (KStr "date") metrics = Some (JStr date_str)))
  /\
  (forall get_insights listing t out e j r,
      post_metrics_resource get_insights listing t = (out, e) ->
      nth_error out j = Some r ->
      dict_keys r =
        KStr "post_id" :: KStr "date" :: KStr "_extracted_at"
        :: map KStr post_metrics_catalog /\
      exists o post_id,
        nth_error (listed_posts listing) j = Some (JObj o) /\
        dict_get "id" o = Some post_id /\
        forall m, In m post_metrics_catalog ->
          dict_mem (KStr m) r = true /\
          dict_get (KStr m) r =
          Some (match last_update (KStr m)
                        (returned_metrics (get_insights j post_id)) with
                | Some v => v
                | None => JNull
                end)).
Proof.
  split.
  - intros page_id items t out metrics R I.
    destruct (flatten_daily_metrics_inner_ok _ _ _ _ _ _ R)
      as (groups & t' & G & ->).
    pose proof (group_by_date_points _ _ _ _ _ _ G) as F.
    apply in_map_iff in I. destruct I as ([d grouped] & <- & I). cbn [snd].
    assert (N : NoDup (dict_keys groups)).
    { change groups with (fst (groups, t')). rewrite F.
      apply fold_apply_point_NoDup. constructor. }
    pose proof (dict_In_get _ _ _ N I) as D.
    assert (L : forall k, lookup2 d k groups = dict_get k grouped)
      by (intro k; unfold lookup2; now rewrite D).
    assert (Hd : exists k v, In (d, k, v) (day_points items)).
    { assert (M : dict_mem d (fst (groups, t')) = true)
        by (apply dict_mem_true; eauto).
      rewrite F in M. apply fold_apply_point_dates in M.
      destruct M as [M|M]; [discriminate|exact M]. }
    exists d. split; [exact Hd|split; [|split]].
    + intros m Im.
      assert (Q : dict_get (KStr m) (add_missing_metrics grouped) =
                  Some (match last_value d (KStr m) (day_points items) with
                        | Some v => v
                        | None => JNull
                        end)).
      { destruct (last_value d (KStr m) (day_points items)) as [v|] eqn:Lv.
        - apply add_missing_metrics_keeps. rewrite <- L.
          change groups with (fst (groups, t')). rewrite F.
          now apply fold_apply_point_last.
        - apply add_missing_metrics_adds; auto. rewrite <- L.
          change groups with (fst (groups, t')). rewrite F.
          destruct (missing_not_identity m Im) as (N1 & N2 & N3).
          apply fold_apply_point_absent; auto; congruence. }
      split; [apply dict_mem_true; eauto|exact Q].
    + intros k v Lv. apply add_missing_metrics_keeps. rewrite <- L.
      change groups with (fst (groups, t')). rewrite F.
      now apply fold_apply_point_last.
    + intro Ln. apply add_missing_metrics_keeps. rewrite <- L.
      change groups with (fst (groups, t')). rewrite F.
      now apply fold_apply_point_identity.
  - intros get_insights listing t out e j r R N.
    destruct (post_metrics_resource_nth _ _ _ _ _ _ _ _ _ R N)
      as (o & post_id & t_j & _ & P & I & F).
    apply try_fetch_metrics_ok in F. subst r.
    split; [now rewrite fold_store_metric_keys|].
    exists o, post_id. repeat split; auto.
    + apply dict_mem_keys. rewrite fold_store_metric_keys, base_record_keys.
      right. right. right. now apply in_map.
    + destruct (last_update (KStr m) _) as [v|] eqn:Lv.
      * apply fold_store_metric_last; auto.
        apply dict_mem_true. rewrite base_record_catalog; eauto.
      * rewrite fold_store_metric_frame by assumption.
        now apply base_record_catalog.
Qed.


(** C4.  When the request for post [x] fails with a request exception and
    the other requests fail or return insights payloads, the run ends
    normally with one record per post; the record of [x] is the preset
    record, with [post_id], [date] and [_extracted_at] set and every metric
    column null; and the record of every other post is the one of the run
    in which the request for [x] does not fail. *)
Theorem C4_failure_isolation g_fail g_ok posts_data posts t x o post_id :
  py_get_default posts_data "data" (JArr []) = JArr posts ->
  forallb post_shape posts = true ->
  nth_error posts x = Some (JObj o) ->
  dict_get "id" o = Some post_id ->
  (forall id, g_fail x id = HttpRaises RequestException) ->
  (forall j id, j <> x -> g_fail j id = g_ok j id) ->
  (forall j id, j < List.length posts -> outcome_shape (g_ok j id) = true) ->
  exists rs_fail rs_ok date_str extracted_at,
    post_metrics_resource g_fail (HttpJson (JObj posts_data)) t
    = (rs_fail, None) /\
    post_metrics_resource g_ok (HttpJson (JObj posts_data)) t
    = (rs_ok, None) /\
    List.length rs_fail = List.length posts /\
    nth_error rs_fail x = Some (base_record post_id date_str extracted_at) /\
    dict_get (KStr "post_id") (base_record post_id date_str extracted_at)
    = Some post_id /\
    dict_get (KStr "date") (base_record post_id date_str extracted_at)
    = Some (JStr date_str) /\
    dict_get (KStr "_extracted_at") (base_record post_id date_str extracted_at)
    = Some (JStr extracted_at) /\
    (forall m, In m post_metrics_catalog ->
       dict_get (KStr m) (base_record post_id date_str extracted_at)
       = Some JNull) /\
    (forall j, j <> x -> nth_error rs_fail j = nth_error rs_ok j).
Proof.
  intros D Hp Px Ix Hx Hagree Hok.
  assert (Hfail : forall j id, j < List.length posts ->
                    outcome_shape (g_fail j id) = true).
  { intros j id Lj. destruct (Nat.eq_dec j x) as [->|N].
    - now rewrite Hx.
    - rewrite Hagree; auto. }
  destruct (post_metrics_resource_total fromisoformat_date now g_fail posts_data
              posts t D Hp Hfail)
    as (rs_fail & Rf & Lf).
  destruct (post_metrics_resource_total fromisoformat_date now g_ok posts_data
              posts t D Hp Hok)
    as (rs_ok & Ro & Lo).
  assert (Lx : x < List.length posts)
    by (apply nth_error_Some; congruence).
  destruct (nth_error rs_fail x) as [r|] eqn:Nx;
    [|apply nth_error_None in Nx; lia].
  destruct (post_metrics_resource_nth _ _ _ _ _ _ _ _ _ Rf Nx)
    as (o' & post_id' & t_x & _ & P & I & F).
  unfold listed_posts in P. rewrite D in P. cbn [py_iter] in P.
  rewrite Px in P. inversion P. subst o'.
  rewrite Ix in I. inversion I. subst post_id'.
  rewrite Hx, try_fetch_metrics_failed in F. inversion F. subst r.
  eexists rs_fail, rs_ok, _, _.
  split; [exact Rf|]. split; [exact Ro|]. split; [exact Lf|].
  split; [exact Nx|].
  repeat split.
  - intros m Im. now apply base_record_catalog.
  - intros j N.
    destruct (Nat.lt_ge_cases j (List.length posts)) as [Lj|Lj].
    + apply post_metrics_resource_run in Rf, Ro.
      destruct Rf as [->|Rf]; [cbn in Lf; lia|].
      destruct Ro as [->|Ro]; [cbn in Lo; lia|].
      eapply fan_out_compare; eauto; lia.
    + transitivity (@None (list (pykey * json))).
      * apply nth_error_None. lia.
      * symmetry. apply nth_error_None. lia.
Qed.

(** C5.  A value-point whose [end_time] does not parse is skipped without
    any exception: the loop body returns the state it was given, and the run
    is the run of the input without that value-point.  A sibling value-point
    of the same metric whose [end_time] parses is processed: after it, the
    record of its date holds its value under the metric's name.  In the run
    itself, when it ends normally, every such sibling has the record of its
    date among the records yielded, and the column of the metric holds
    there the last value of the input for that date and column: the
    sibling's own value, unless a later point replaces it.  On an input of
    the shape the API returns, the run ends normally. *)
Theorem C5_malformed_end_time_skipped page_id metric_name ve :
  parse_date (py_get ve "end_time") = None ->
  (forall st, flatten_value_entry page_id metric_name (JObj ve) st = Ok st)
  /\
  (forall mr vs1 vs2 pre post t,
      dict_get "values" mr = Some (JArr (vs1 ++ JObj ve :: vs2)) ->
      flatten_daily_metrics_inner page_id (pre ++ JObj mr :: post) t =
      flatten_daily_metrics_inner page_id
        (pre ++ JObj (dict_set "values" (JArr (vs1 ++ vs2)) mr) :: post) t)
  /\
  (forall sibling date_str k st,
      truthy (py_get sibling "end_time") = true ->
      parse_date (py_get sibling "end_time") = Some date_str ->
      to_key metric_name = Some k ->
      exists st',
        flatten_value_entry page_id metric_name (JObj sibling) st = Ok st' /\
        lookup2 date_str k (fst st') = Some (py_get sibling "value"))
  /\
  (forall mr vs1 vs2 ws1 sibling ws2 pre post t out date_str k,
      dict_get "values" mr = Some (JArr (vs1 ++ JObj ve :: vs2)) ->
      (vs1 ++ JObj ve :: vs2 = ws1 ++ JObj sibling :: ws2)%list ->
      py_get_default mr "period" (JStr "day") = JStr "day" ->
      truthy (py_get sibling "end_time") = true ->
      parse_date (py_get sibling "end_time") = Some date_str ->
      to_key (py_get mr "name") = Some k ->
      flatten_daily_metrics_inner page_id (pre ++ JObj mr :: post) t = Ok out ->
      exists groups t' grouped v,
        group_by_date page_id (pre ++ JObj mr :: post) t = Ok (groups, t') /\
        out = map (fun kv => add_missing_metrics (snd kv)) groups /\
        dict_get date_str groups = Some grouped /\
        In (add_missing_metrics grouped) out /\
        dict_get k (add_missing_metrics grouped) = Some v /\
        last_value date_str k (day_points (pre ++ JObj mr :: post)) = Some v /\
        (last_value date_str k
           (flat_map
              (fun x => option_list
                          (point_of fromisoformat_date (py_get mr "name") x))
              ws2
            ++ day_points post) = None ->
         v = py_get sibling "value"))
  /\
  (forall mr vs1 vs2 pre post t,
      dict_get "values" mr = Some (JArr (vs1 ++ JObj ve :: vs2)) ->
      forallb metric_shape (pre ++ JObj mr :: post) = true ->
      exists out,
        flatten_daily_metrics_inner page_id (pre ++ JObj mr :: post) t
        = Ok out).
Proof.
  intro P. split; [|split; [|split; [|split]]];
    [| | |
     intros mr vs1 vs2 ws1 sibling ws2 pre post t out d k V E Hp T S K R;
     apply (run_stores_point fromisoformat_date now page_id pre mr post
              ws1 sibling ws2 t out d k); auto;
     unfold py_get_default; now rewrite V, E
    |intros mr vs1 vs2 pre post t _ Sh;
     now apply flatten_daily_metrics_inner_total].
  - intro st. now apply flatten_value_entry_unparsed.
  - intros mr vs1 vs2 pre post t V.
    unfold flatten_daily_metrics_inner, group_by_date. f_equal.
    apply for_each_replace. intro st. unfold flatten_metric_response.
    rewrite py_get_set_other by discriminate.
    rewrite py_get_default_set_other by discriminate.
    rewrite py_get_default_set_same.
    assert (Hv : py_get_default mr "values" (JArr []) =
                 JArr (vs1 ++ JObj ve :: vs2))
      by (unfold py_get_default; now rewrite V).
    rewrite !Hv.
    destruct (match py_get_default mr "period" (JStr "day") with
              | JStr p => String.eqb p "day" | _ => false end);
      cbn [andb]; [|reflexivity].
    assert (T : truthy (JArr (vs1 ++ JObj ve :: vs2)) = true)
      by (now destruct vs1).
    rewrite T. cbn [py_iter bind].
    rewrite for_each_skip
      by (intro s0; now apply flatten_value_entry_unparsed).
    destruct (vs1 ++ vs2)%list eqn:E; reflexivity.
  - intros sibling d k [mbd t] T S Hk.
    rewrite (flatten_value_entry_stored _ _ _ _ _ _ _ _ T S Hk).
    eexists. split; [reflexivity|]. apply apply_point_same.
Qed.

(** C6.  The flattener is a function of its input and of the clock: when the
    clock stands still, two runs on the same input, started at any two
    moments, end alike and yield the same records.  In a run that ends
    normally, for every date and column the record of that date holds the
    value of the last retained value-point, in input order, for that date
    and column; a later point for the same date and column wins over every
    earlier one. *)
Theorem C6_flatten_idempotent_last_write_wins page_id items :
  ((forall n m, isoformat (now n) = isoformat (now m)) ->
   forall t1 t2,
     flatten_daily_metrics_inner page_id items t1 =
     flatten_daily_metrics_inner page_id items t2)
  /\
  (forall t out date_str k v,
      flatten_daily_metrics_inner page_id items t = Ok out ->
      last_value date_str k (day_points items) = Some v ->
      exists groups t' grouped,
        group_by_date page_id items t = Ok (groups, t') /\
        out = map (fun kv => add_missing_metrics (snd kv)) groups /\
        dict_get date_str groups = Some grouped /\
        In (add_missing_metrics grouped) out /\
        dict_get k (add_missing_metrics grouped) = Some v)
  /\
  (forall date_str k earlier v later,
      last_value date_str k later = None ->
      last_value date_str k (earlier ++ (date_str, k, v) :: later) = Some v).
Proof.
  split; [|split].
  - intros frozen t1 t2. now apply flatten_daily_metrics_inner_frozen.
  - intros t out d k v R L.
    destruct (flatten_daily_metrics_inner_ok _ _ _ _ _ _ R)
      as (groups & t' & G & ->).
    pose proof (group_by_date_points _ _ _ _ _ _ G) as F.
    pose proof (fold_apply_point_last now page_id d k v _ ([], t) L) as Q.
    rewrite <- F in Q. cbn [fst] in Q. unfold lookup2 in Q.
    destruct (dict_get d groups) as [grouped|] eqn:D; [|discriminate].
    exists groups, t', grouped. repeat split; auto.
    + apply dict_get_In in D.
      change (add_missing_metrics grouped)
        with ((fun kv : string * list (pykey * json) =>
                 add_missing_metrics (snd kv)) (d, grouped)).
      now apply in_map.
    + now apply add_missing_metrics_keeps.
  - intros d k earlier v later L.
    induction earlier as [|[[d' k'] w] earlier IH]; cbn [app last_value].
    + rewrite L, String.eqb_refl, keqb_refl. reflexivity.
    + now rewrite IH.
Qed.

(** C7, as the code has it.  A metric-response object whose [period] is
    present and is not the string ["day"] contributes nothing: the run is
    the run of the input without it.  An object without a [period] key is
    processed as one whose [period] is ["day"]. *)
Theorem C7_period_filter page_id mr :
  (forall p,
      dict_get "period" mr = Some p -> p <> JStr "day" ->
      (forall st, flatten_metric_response page_id (JObj mr) st = Ok st) /\
      (forall pre post t,
          flatten_daily_metrics_inner page_id (pre ++ JObj mr :: post) t =
          flatten_daily_metrics_inner page_id (pre ++ post) t))
  /\
  (dict_get "period" mr = None ->
   (forall st,
       flatten_metric_response page_id (JObj mr) st =
       flatten_metric_response page_id (JObj (("period", JStr "day") :: mr)) st)
   /\
   (forall pre post t,
       flatten_daily_metrics_inner page_id (pre ++ JObj mr :: post) t =
       flatten_daily_metrics_inner page_id
         (pre ++ JObj (("period", JStr "day") :: mr) :: post) t)).
Proof.
  split.
  - intros p G N.
    assert (S : forall st, flatten_metric_response page_id (JObj mr) st = Ok st).
    { intro st. unfold flatten_metric_response.
      assert (Hp : py_get_default mr "period" (JStr "day") = p)
        by (unfold py_get_default; now rewrite G).
      rewrite Hp. destruct p; try reflexivity.
      destruct (String.eqb s "day") eqn:E; [|reflexivity].
      apply String.eqb_eq in E. congruence. }
    split; [exact S|].
    intros pre post t. unfold flatten_daily_metrics_inner, group_by_date.
    f_equal. now apply for_each_skip.
  - intro G.
    assert (S : forall st,
               flatten_metric_response page_id (JObj mr) st =
               flatten_metric_response page_id
                 (JObj (("period", JStr "day") :: mr)) st).
    { intro st. unfold flatten_metric_response, py_get_default, py_get.
      cbn [dict_get keqb string_Key String.eqb Ascii.eqb Bool.eqb].
      rewrite G. reflexivity. }
    split; [exact S|].
    intros pre post t. unfold flatten_daily_metrics_inner, group_by_date.
    f_equal. now apply for_each_replace.
Qed.


(** C9, as the code has it.  The record of a post is preset with the date
    parsed from the post's [created_time], or with the current date when
    [created_time] is missing, empty or does not parse; deriving it raises
    nothing.  The current date is the one of the clock reading [t_j] taken
    for this post, after the reading of [end_date] and the one or two
    readings of each earlier post.  The record yielded keeps that date when
    the request failed, and when it returned no metric that is stored under
    the column [date]. *)
Theorem C9_post_date get_insights listing t out e j r :
  post_metrics_resource get_insights listing t = (out, e) ->
  nth_error out j = Some r ->
  exists o post_id t_j,
    S t + j <= t_j <= S t + 2 * j /\
    nth_error (listed_posts listing) j = Some (JObj o) /\
    dict_get "id" o = Some post_id /\
    (forallb (fun metric => negb (overwrites (KStr "date") metric))
       (returned_metrics (get_insights j post_id)) = true ->
     dict_get (KStr "date") r
     = Some (JStr (fst (post_date (py_get o "created_time") t_j)))) /\
    (get_insights j post_id = HttpRaises RequestException ->
     dict_get (KStr "date") r
     = Some (JStr (fst (post_date (py_get o "created_time") t_j)))) /\
    (forall d,
        truthy (py_get o "created_time") = true ->
        parse_date (py_get o "created_time") = Some d ->
        fst (post_date (py_get o "created_time") t_j) = d) /\
    (truthy (py_get o "created_time") = false \/
     parse_date (py_get o "created_time") = None ->
     fst (post_date (py_get o "created_time") t_j) = date_isoformat (now t_j)).
Proof.
  intros R N.
  destruct (post_metrics_resource_nth _ _ _ _ _ _ _ _ _ R N)
    as (o & post_id & t_j & B & P & I & F).
  exists o, post_id, t_j. split; [exact B|]. split; [exact P|].
  split; [exact I|].
  apply try_fetch_metrics_ok in F.
  assert (K : forallb (fun metric => negb (overwrites (KStr "date") metric))
                (returned_metrics (get_insights j post_id)) = true ->
              dict_get (KStr "date") r
              = Some (JStr (fst (post_date (py_get o "created_time") t_j)))).
  { intro A. subst r. rewrite fold_store_metric_frame; [reflexivity|].
    apply forallb_not_overwrites. exact A. }
  split; [exact K|]. split; [|split].
  - intro Q. apply K. now rewrite Q.
  - intros d T S. unfold post_date. now rewrite T, S.
  - intros [T|S]; unfold post_date.
    + now rewrite T.
    + rewrite S. now destruct (truthy _).
Qed.

(** C10.  A returned metric is recognised when its name is a key of the
    record, and the identity columns are keys of the record without being in
    the metrics catalog: a successful response with a metric named
    [post_id], [date] or [_extracted_at] replaces that identity column by
    the metric's first value, so the [post_id] of the record can differ
    from the id of the listed post. *)
Theorem C10_identity_columns_overwritten listed_id v t :
  let listing := HttpJson (JObj [("data", JArr [JObj [("id", listed_id)]])]) in
  let response := fun name (i : nat) (post_id : json) =>
    HttpJson (JObj [("data",
      JArr [JObj [("name", JStr name);
                  ("values", JArr [JObj [("value", v)]])]])]) in
  (exists r,
      post_metrics_resource (response "post_id") listing t = ([r], None) /\
      dict_get (KStr "post_id") r = Some v) /\
  (exists r,
      post_metrics_resource (response "date") listing t = ([r], None) /\
      dict_get (KStr "date") r = Some v) /\
  (exists r,
      post_metrics_resource (response "_extracted_at") listing t = ([r], None) /\
      dict_get (KStr "_extracted_at") r = Some v) /\
  (forall name, In name ["post_id"; "date"; "_extracted_at"] ->
     ~ In name post_metrics_catalog) /\
  (v <> listed_id ->
   exists r,
     post_metrics_resource (response "post_id") listing t = ([r], None) /\
     dict_get (KStr "post_id") r <> Some listed_id).
Proof.
  intros listing response.
  split; [|split; [|split; [|split]]].
  - eexists. split; reflexivity.
  - eexists. split; reflexivity.
  - eexists. split; reflexivity.
  - intros name I C. cbn [In] in I.
    unfold post_metrics_catalog in C. cbn [In] in C.
    destruct I as [<-|[<-|[<-|[]]]];
      repeat (destruct C as [C|C]; [discriminate|]); contradiction.
  - intro N. eexists. split; [reflexivity|].
    cbn. intro Q. inversion Q. contradiction.
Qed.

End Specified.

(** * The properties on the sample payloads *)

Lemma C1_witness :
  forallb post_shape [JObj Sample.post_a; JObj Sample.post_b] = true /\
  (forall j post_id, j < 2 -> outcome_shape (unreachable j post_id) = true) /\
  exists records,
    post_metrics_resource IsoBasic.fromisoformat_date frozen_clock unreachable
      Sample.listing 0 = (records, None) /\
    List.length records = 2.
Proof.
  split; [reflexivity|]. split; [intros; reflexivity|].
  apply (C1_fan_out_cardinality IsoBasic.fromisoformat_date frozen_clock
           unreachable Sample.posts_data [JObj Sample.post_a; JObj Sample.post_b] 0).
  - reflexivity.
  - reflexivity.
  - intros; reflexivity.
Defined.

Lemma C2_witness :
  exists out metrics r,
    flatten_daily_metrics_inner IsoBasic.fromisoformat_date ticking_clock
      "P1" Sample.items 0 = Ok out /\
    In metrics out /\
    dict_mem (KStr "page_negative_feedback") metrics = true /\
    nth_error
      (fst (post_metrics_resource IsoBasic.fromisoformat_date ticking_clock
              Sample.first_fails Sample.listing 0)) 1 = Some r /\
    dict_keys r =
      KStr "post_id" :: KStr "date" :: KStr "_extracted_at"
      :: map KStr post_metrics_catalog.
Proof.
  destruct (C2_catalog_completeness IsoBasic.fromisoformat_date ticking_clock)
    as [Hdaily Hpost].
  eexists. eexists. eexists.
  split; [reflexivity|]. split; [left; reflexivity|]. split.
  - destruct (Hdaily "P1" Sample.items 0 _ _ eq_refl (or_introl eq_refl))
      as (d & _ & Hm & _).
    apply (Hm "page_negative_feedback"). left. reflexivity.
  - split; [reflexivity|].
    apply (Hpost Sample.first_fails Sample.listing 0 _ _ 1 _ eq_refl eq_refl).
Defined.


Lemma C4_witness :
  exists rs_fail rs_ok date_str extracted_at,
    post_metrics_resource IsoBasic.fromisoformat_date ticking_clock
      Sample.first_fails Sample.listing 0 = (rs_fail, None) /\
    post_metrics_resource IsoBasic.fromisoformat_date ticking_clock
      Sample.reachable Sample.listing 0 = (rs_ok, None) /\
    nth_error rs_fail 0
    = Some (base_record (JStr "123456_789") date_str extracted_at) /\
    nth_error rs_fail 1 = nth_error rs_ok 1.
Proof.
  destruct (C4_failure_isolation IsoBasic.fromisoformat_date ticking_clock
              Sample.first_fails Sample.reachable Sample.posts_data
              [JObj Sample.post_a; JObj Sample.post_b] 0 0 Sample.post_a
              (JStr "123456_789"))
    as (rs_fail & rs_ok & d & x & Rf & Ro & _ & N0 & _ & _ & _ & _ & Hother).
  - reflexivity.
  - reflexivity.
  - reflexivity.
  - reflexivity.
  - intros; reflexivity.
  - intros [|j] id N; [contradiction|reflexivity].
  - intros; reflexivity.
  - exists rs_fail, rs_ok, d, x. repeat split; auto.
Defined.

Lemma C5_witness :
  parse_date IsoBasic.fromisoformat_date (py_get Sample.malformed "end_time")
  = None /\
  flatten_daily_metrics_inner IsoBasic.fromisoformat_date frozen_clock "P1"
    ([] ++ JObj Sample.page_fans :: [JObj Sample.weekly]) 0 =
  flatten_daily_metrics_inner IsoBasic.fromisoformat_date frozen_clock "P1"
    ([] ++ JObj (dict_set "values"
              (JArr ([JObj (Sample.value_point "2024-01-15T08:00:00+00:00" 1)]
                     ++ [ JObj (Sample.value_point "2024-01-16T08:00:00Z" 3);
                          JObj (Sample.value_point "2024-01-15T08:00:00+00:00" 4) ]))
              Sample.page_fans) :: [JObj Sample.weekly]) 0 /\
  exists out grouped,
    flatten_daily_metrics_inner IsoBasic.fromisoformat_date frozen_clock "P1"
      ([] ++ JObj Sample.page_fans :: [JObj Sample.weekly]) 0 = Ok out /\
    In (add_missing_metrics grouped) out /\
    dict_get (KStr "page_fans") (add_missing_metrics grouped)
    = Some (JInt 3).
Proof.
  split; [reflexivity|].
  destruct (C5_malformed_end_time_skipped IsoBasic.fromisoformat_date
              frozen_clock "P1" (JStr "page_fans") Sample.malformed eq_refl)
    as (_ & Hrun & _ & Hrecord & Hends).
  split; [apply Hrun; reflexivity|].
  destruct (Hends Sample.page_fans
              [JObj (Sample.value_point "2024-01-15T08:00:00+00:00" 1)]
              [ JObj (Sample.value_point "2024-01-16T08:00:00Z" 3);
                JObj (Sample.value_point "2024-01-15T08:00:00+00:00" 4) ]
              [] [JObj Sample.weekly] 0 eq_refl eq_refl) as [out R].
  destruct (Hrecord Sample.page_fans
              [JObj (Sample.value_point "2024-01-15T08:00:00+00:00" 1)]
              [ JObj (Sample.value_point "2024-01-16T08:00:00Z" 3);
                JObj (Sample.value_point "2024-01-15T08:00:00+00:00" 4) ]
              [ JObj (Sample.value_point "2024-01-15T08:00:00+00:00" 1);
                JObj Sample.malformed ]
              (Sample.value_point "2024-01-16T08:00:00Z" 3)
              [JObj (Sample.value_point "2024-01-15T08:00:00+00:00" 4)]
              [] [JObj Sample.weekly] 0 out "2024-01-16" (KStr "page_fans")
              eq_refl eq_refl eq_refl eq_refl eq_refl eq_refl R)
    as (groups & t' & grouped & v & _ & _ & _ & I & V & _ & Hlast).
  exists out, grouped. split; [exact R|]. split; [exact I|].
  rewrite V. f_equal. apply Hlast. reflexivity.
Defined.

Lemma C6_witness :
  (forall n m, isoformat (frozen_clock n) = isoformat (frozen_clock m)) /\
  flatten_daily_metrics_inner IsoBasic.fromisoformat_date frozen_clock "P1"
    Sample.items 0 =
  flatten_daily_metrics_inner IsoBasic.fromisoformat_date frozen_clock "P1"
    Sample.items 5 /\
  last_value "2024-01-15" (KStr "page_fans")
    (day_points IsoBasic.fromisoformat_date Sample.items) = Some (JInt 4) /\
  exists groups t' grouped,
    group_by_date IsoBasic.fromisoformat_date frozen_clock "P1" Sample.items 0
    = Ok (groups, t') /\
    dict_get "2024-01-15" groups = Some grouped /\
    dict_get (KStr "page_fans") (add_missing_metrics grouped) = Some (JInt 4).
Proof.
  destruct (C6_flatten_idempotent_last_write_wins IsoBasic.fromisoformat_date
              frozen_clock "P1" Sample.items) as (Hsame & Hlast & _).
  split; [intros; reflexivity|]. split; [apply Hsame; intros; reflexivity|].
  split; [reflexivity|].
  destruct (Hlast 0 _ "2024-01-15" (KStr "page_fans") (JInt 4) eq_refl eq_refl)
    as (groups & t' & grouped & G & _ & D & _ & V).
  exists groups, t', grouped. auto.
Defined.

Lemma C7_witness :
  dict_get "period" Sample.weekly = Some (JStr "week") /\
  flatten_daily_metrics_inner IsoBasic.fromisoformat_date frozen_clock "P1"
    ([JObj Sample.page_fans] ++ JObj Sample.weekly :: [JObj Sample.no_period]) 0 =
  flatten_daily_metrics_inner IsoBasic.fromisoformat_date frozen_clock "P1"
    ([JObj Sample.page_fans] ++ [JObj Sample.no_period]) 0 /\
  dict_get "period" Sample.no_period = None /\
  flatten_daily_metrics_inner IsoBasic.fromisoformat_date frozen_clock "P1"
    ([] ++ JObj Sample.no_period :: []) 0 =
  flatten_daily_metrics_inner IsoBasic.fromisoformat_date frozen_clock "P1"
    ([] ++ JObj (("period", JStr "day") :: Sample.no_period) :: []) 0.
Proof.
  split; [reflexivity|]. split.
  - destruct (C7_period_filter IsoBasic.fromisoformat_date frozen_clock "P1"
                Sample.weekly) as [Hother _].
    destruct (Hother (JStr "week") eq_refl) as [_ Hrun]; [discriminate|].
    apply Hrun.
  - split; [reflexivity|].
    destruct (C7_period_filter IsoBasic.fromisoformat_date frozen_clock "P1"
                Sample.no_period) as [_ Habsent].
    destruct (Habsent eq_refl) as [_ Hrun]. apply Hrun.
Defined.


Lemma C9_witness :
  exists r o post_id t_j,
    nth_error
      (fst (post_metrics_resource IsoBasic.fromisoformat_date ticking_clock
              Sample.reachable Sample.listing 0)) 0 = Some r /\
    nth_error (listed_posts Sample.listing) 0 = Some (JObj o) /\
    dict_get "id" o = Some post_id /\
    (forallb (fun metric => negb (overwrites (KStr "date") metric))
       (returned_metrics (Sample.reachable 0 post_id)) = true ->
     dict_get (KStr "date") r
     = Some (JStr (fst (post_date IsoBasic.fromisoformat_date ticking_clock
                          (py_get o "created_time") t_j)))).
Proof.
  eexists.
  destruct (C9_post_date IsoBasic.fromisoformat_date ticking_clock
              Sample.reachable Sample.listing 0 _ _ 0 _ eq_refl eq_refl)
    as (o & post_id & t_j & _ & P & I & K & _).
  exists o, post_id, t_j. split; [reflexivity|]. auto.
Defined.

Lemma C10_witness :
  JInt 7 <> JStr "123456_789" /\
  exists r,
    post_metrics_resource IsoBasic.fromisoformat_date frozen_clock
      (fun _ _ =>
         HttpJson (JObj [("data",
           JArr [JObj [("name", JStr "post_id");
                       ("values", JArr [JObj [("value", JInt 7)]])]])]))
      (HttpJson (JObj [("data", JArr [JObj [("id", JStr "123456_789")]])])) 0
    = ([r], None) /\
    dict_get (KStr "post_id") r <> Some (JStr "123456_789").
Proof.
  split; [discriminate|].
  destruct (C10_identity_columns_overwritten IsoBasic.fromisoformat_date
              frozen_clock (JStr "123456_789") (JInt 7) 0)
    as (_ & _ & _ & _ & Hdiff).
  apply Hdiff. discriminate.
Defined.

(** C7 as the specification words it fails: an object without a [period] key contributes
    its value-point to the record of its date. *)
Lemma C7_counterexample :
  dict_get "period" Sample.no_period = None /\
  flatten_daily_metrics_inner IsoBasic.fromisoformat_date frozen_clock "P1"
    [] 0 = Ok [] /\
  exists r,
    flatten_daily_metrics_inner IsoBasic.fromisoformat_date frozen_clock "P1"
      [JObj Sample.no_period] 0 = Ok [r] /\
    dict_get (KStr "date") r = Some (JStr "2024-01-15") /\
    dict_get (KStr "page_video_view_time") r = Some (JInt 10).
Proof.
  split; [reflexivity|]. split; [reflexivity|].
  eexists. split; [reflexivity|]. split; reflexivity.
Qed.

(** C9 as the specification words it fails: a returned metric named [date] replaces the
    date derived from [created_time] in the record yielded. *)
Lemma C9_counterexample :
  parse_date IsoBasic.fromisoformat_date
    (py_get Sample.post_a "created_time") = Some "2024-01-15" /\
  exists r,
    post_metrics_resource IsoBasic.fromisoformat_date frozen_clock
      Sample.date_metric Sample.one_post_listing 0 = ([r], None) /\
    dict_get (KStr "date") r = Some (JInt 7) /\
    dict_get (KStr "date") r <> Some (JStr "2024-01-15").
Proof.
  split; [reflexivity|].
  eexists. split; [reflexivity|]. split; [reflexivity|]. discriminate.
Qed.

(** * Further properties of the pipeline *)

(** ** Generators *)

(** A generator whose body never raises yields one value per element. *)
Lemma yield_each_all {A B S} (body : A -> S -> result (B * S)) l :
  (forall x s, In x l -> exists b s', body x s = Ok (b, s')) ->
  forall s, exists out,
    yield_each body l s = (out, None) /\ List.length out = List.length l.
Proof.
  induction l as [|x r IH]; intros Hb s; cbn [yield_each].
  - exists []. auto.
  - destruct (Hb x s (or_introl eq_refl)) as (b & s' & E). rewrite E.
    destruct (IH (fun y u I => Hb y u (or_intror I)) s') as (out & Y & L).
    rewrite Y. exists (b :: out). cbn [List.length]. auto.
Qed.

(** When the body only counts its turns, the [j]-th value yielded is the
    one of the [j]-th element at count [s + j]. *)
Lemma yield_each_nth_counter {A B} (body : A -> nat -> result (B * nat)) l :
  (forall x s b s', body x s = Ok (b, s') -> s' = S s) ->
  forall s out e j b,
    yield_each body l s = (out, e) ->
    nth_error out j = Some b ->
    exists x, nth_error l j = Some x /\ body x (s + j) = Ok (b, S (s + j)).
Proof.
  intro Hc. induction l as [|x r IH]; intros s out e j b; cbn [yield_each].
  - intro Q. inversion Q. subst. destruct j; discriminate.
  - destruct (body x s) as [[b0 s']|e0] eqn:E.
    + pose proof (Hc _ _ _ _ E) as ->.
      destruct (yield_each body r (S s)) as [bs e1] eqn:Y.
      intro Q. inversion Q. subst. destruct j as [|j]; cbn [nth_error].
      * intro R. inversion R. subst. rewrite Nat.add_0_r. eauto.
      * intro R. replace (s + S j) with (S s + j) by lia. eapply IH; eauto.
    + intro Q. inversion Q. subst. destruct j; discriminate.
Qed.

(** An element on which the body raises ends the generator: what came
    before it has been yielded, what follows it is never reached. *)
Lemma yield_each_abort {A B S} (body : A -> S -> result (B * S)) pre x post e :
  (forall s, body x s = Raise e) ->
  forall s out,
    yield_each body pre s = (out, None) ->
    yield_each body (pre ++ x :: post) s = (out, Some e).
Proof.
  intro Hx. induction pre as [|y pre IH]; intros s out; cbn [yield_each app].
  - intro Q. inversion Q. now rewrite Hx.
  - destruct (body y s) as [[b s']|e0]; [|discriminate].
    destruct (yield_each body pre s') as [bs e1] eqn:Y.
    intro Q. inversion Q. subst. now rewrite (IH _ _ Y).
Qed.

(** ** Row enrichment *)

Section EnrichmentFacts.

Variable now : nat -> pydatetime.

Local Notation add_page_fields_item := (add_page_fields_item now).
Local Notation add_post_fields_item := (add_post_fields_item now).
Local Notation add_page_fields := (add_page_fields now).
Local Notation add_post_fields := (add_post_fields now).

Lemma add_page_fields_item_clock item t b t' :
  add_page_fields_item item t = Ok (b, t') -> t' = S t.
Proof.
  unfold add_page_fields_item. destruct item; try discriminate.
  intro Q. now inversion Q.
Qed.

Lemma add_post_fields_item_clock item t b t' :
  add_post_fields_item item t = Ok (b, t') -> t' = S t.
Proof.
  unfold add_post_fields_item. destruct item; try discriminate.
  destruct (py_contains_underscore _) as [[|]|]; cbn [bind]; try discriminate.
  - destruct (py_get_default l "id" (JStr "")); cbn [bind]; try discriminate.
    intro Q. now inversion Q.
  - intro Q. now inversion Q.
Qed.

Lemma add_post_fields_item_shaped item t :
  post_item_shape item = true ->
  exists b, add_post_fields_item item t = Ok (b, S t).
Proof.
  unfold post_item_shape, add_post_fields_item.
  destruct item as [| | | | |o]; try discriminate.
  destruct (py_get_default o "id" (JStr "")) as [| | |s| |]; try discriminate.
  intros _. cbn [py_contains_underscore bind].
  destruct (contains_char "_" s); cbn [bind]; eauto.
Qed.

(** X1.  Page enrichment of an object never raises.  It copies the item's
    own [id], whatever it is, into [page_id], replacing a [page_id] the item
    already had; an item without [id] keeps its [page_id] or its lack of
    one.  [_extracted_at] is set to the clock reading and every other field
    is unchanged. *)
Theorem add_page_fields_item_spec o t :
  exists o',
    add_page_fields_item (JObj o) t = Ok (JObj o', S t) /\
    dict_get "_extracted_at" o' = Some (JStr (isoformat (now t))) /\
    (forall id, dict_get "id" o = Some id -> dict_get "page_id" o' = Some id) /\
    (dict_get "id" o = None -> dict_get "page_id" o' = dict_get "page_id" o) /\
    (forall k, k <> "page_id" -> k <> "_extracted_at" ->
       dict_get k o' = dict_get k o).
Proof.
  unfold add_page_fields_item. eexists. split; [reflexivity|].
  split; [apply dict_get_set_same|].
  destruct (dict_get "id" o) as [id|] eqn:I; repeat split.
  - intros id' Q. inversion Q. subst.
    rewrite dict_get_set_other by discriminate. apply dict_get_set_same.
  - discriminate.
  - intros k N1 N2. now rewrite !dict_get_set_other by congruence.
  - discriminate.
  - intros _. now rewrite dict_get_set_other by discriminate.
  - intros k N1 N2. now rewrite dict_get_set_other by congruence.
Qed.

(** X2.  Both enrichment transforms yield one item per input item, in input
    order, and read the clock once per item: the [j]-th item yielded is the
    enrichment of the [j]-th input item at the [j]-th clock reading.  Page
    enrichment does so on every list of objects, post enrichment on every
    list of posts whose ids are strings or missing. *)
Theorem enrichment_yields_in_order items t :
  (forallb is_object items = true ->
   exists out,
     add_page_fields items t = (out, None) /\
     List.length out = List.length items /\
     forall j item', nth_error out j = Some item' ->
       exists item, nth_error items j = Some item /\
         add_page_fields_item item (t + j) = Ok (item', S (t + j)))
  /\
  (forallb post_item_shape items = true ->
   exists out,
     add_post_fields items t = (out, None) /\
     List.length out = List.length items /\
     forall j item', nth_error out j = Some item' ->
       exists item, nth_error items j = Some item /\
         add_post_fields_item item (t + j) = Ok (item', S (t + j))).
Proof.
  split; intro Sh; rewrite forallb_forall in Sh.
  - destruct (yield_each_all add_page_fields_item items) with (s := t)
      as (out & Y & L).
    { intros x s I. specialize (Sh x I). destruct x; try discriminate.
      unfold add_page_fields_item. eauto. }
    exists out. split; [exact Y|]. split; [exact L|].
    intros j item' N.
    exact (yield_each_nth_counter _ _ add_page_fields_item_clock
             _ _ _ _ _ Y N).
  - destruct (yield_each_all add_post_fields_item items) with (s := t)
      as (out & Y & L).
    { intros x s I. destruct (add_post_fields_item_shaped x s (Sh x I)).
      eauto. }
    exists out. split; [exact Y|]. split; [exact L|].
    intros j item' N.
    exact (yield_each_nth_counter _ _ add_post_fields_item_clock
             _ _ _ _ _ Y N).
Qed.

(** X3.  A post whose [id] is present but is null, a boolean or a number
    makes post enrichment raise [TypeError]: the posts before it have been
    yielded, the post itself and those after it are not. *)
Theorem add_post_fields_aborts_on_scalar_id pre o post id t :
  forallb post_item_shape pre = true ->
  dict_get "id" o = Some id ->
  id = JNull \/ (exists b, id = JBool b) \/ (exists z, id = JInt z) ->
  exists out,
    add_post_fields pre t = (out, None) /\
    List.length out = List.length pre /\
    add_post_fields (pre ++ JObj o :: post) t = (out, Some TypeError).
Proof.
  intros Sh I Hid. rewrite forallb_forall in Sh.
  destruct (yield_each_all add_post_fields_item pre) with (s := t)
    as (out & Y & L).
  { intros x s Ix. destruct (add_post_fields_item_shaped x s (Sh x Ix)).
    eauto. }
  exists out. split; [exact Y|]. split; [exact L|].
  apply yield_each_abort; [|exact Y].
  intro s. unfold add_post_fields_item, py_get_default. rewrite I.
  destruct Hid as [->|[[b ->]|[z ->]]]; reflexivity.
Qed.

End EnrichmentFacts.

(** ** The records of the flattener *)

Section FlattenRecords.

Variable fromisoformat_date : string -> option string.
Variable now : nat -> pydatetime.
Variable page_id : string.

Local Notation group_by_date := (group_by_date fromisoformat_date now page_id).
Local Notation flatten_daily_metrics_inner :=
  (flatten_daily_metrics_inner fromisoformat_date now page_id).
Local Notation flatten_metric_response :=
  (flatten_metric_response fromisoformat_date now page_id).
Local Notation flatten_value_entry :=
  (flatten_value_entry fromisoformat_date now page_id).
Local Notation parse_date := (parse_date fromisoformat_date).
Local Notation day_points := (day_points fromisoformat_date).
Local Notation apply_point := (apply_point now page_id).

(** One step of [first_seen] *)
Local Notation see :=
  (fun seen d =>
     if existsb (String.eqb d) seen then seen else (seen ++ [d])%list).

Lemma existsb_dict_mem {V} d (m : list (string * V)) :
  existsb (String.eqb d) (dict_keys m) = dict_mem d m.
Proof.
  unfold dict_mem, dict_keys.
  induction m as [|[d' v] m IH]; cbn [map fst existsb dict_get]; auto.
  change (keqb d d') with (String.eqb d d').
  destruct (String.eqb d d'); auto.
Qed.

(** Storing a point adds its date after the others when it is new, and
    reads the clock exactly then. *)
Lemma apply_point_keys mbd t p :
  dict_keys (fst (apply_point (mbd, t) p)) = see (dict_keys mbd) (point_date p)
  /\ snd (apply_point (mbd, t) p)
     = t + (List.length (see (dict_keys mbd) (point_date p))
            - List.length (dict_keys mbd)).
Proof.
  destruct p as [[d k] v]. rewrite apply_point_eq. unfold point_date.
  cbn [fst]. rewrite existsb_dict_mem. unfold dict_mem.
  destruct (dict_get d mbd) as [r|] eqn:G; cbn [fst snd].
  - assert (M : dict_mem d mbd = true) by (apply dict_mem_true; eauto).
    rewrite dict_keys_set_present by assumption. split; [reflexivity|lia].
  - assert (M : dict_mem d mbd = false) by now apply dict_mem_false.
    rewrite dict_keys_set_present by apply dict_mem_set_same.
    rewrite dict_keys_set_absent by assumption.
    rewrite length_app. cbn [List.length]. split; [reflexivity|lia].
Qed.

Lemma fold_see_grows ds : forall seen,
  exists extra, fold_left see ds seen = (seen ++ extra)%list.
Proof.
  induction ds as [|d ds IH]; intro seen; cbn [fold_left].
  - exists []. now rewrite app_nil_r.
  - destruct (existsb (String.eqb d) seen); [apply IH|].
    destruct (IH (seen ++ [d])%list) as [extra E].
    exists (d :: extra). rewrite E, <- app_assoc. reflexivity.
Qed.

Lemma fold_apply_point_keys ps : forall mbd t,
  dict_keys (fst (fold_left apply_point ps (mbd, t)))
  = fold_left see (map point_date ps) (dict_keys mbd)
  /\ snd (fold_left apply_point ps (mbd, t))
     = t + (List.length (fold_left see (map point_date ps) (dict_keys mbd))
            - List.length (dict_keys mbd)).
Proof.
  induction ps as [|p ps IH]; intros mbd t; cbn [fold_left map].
  - cbn [fst snd]. split; [reflexivity|lia].
  - destruct (apply_point (mbd, t) p) as [mbd1 t1] eqn:A.
    destruct (apply_point_keys mbd t p) as [K T]. rewrite A in K, T.
    cbn [fst snd] in K, T.
    destruct (IH mbd1 t1) as [K1 T1]. rewrite K1, T1, K. split; [reflexivity|].
    destruct (fold_see_grows (map point_date ps)
                (see (dict_keys mbd) (point_date p))) as [extra E].
    rewrite E, T, length_app.
    destruct (existsb (String.eqb (point_date p)) (dict_keys mbd));
      rewrite ?length_app; cbn [List.length]; lia.
Qed.

(** X4.  The flattener yields exactly one record per distinct date among the
    value-points it retains, in the order in which the dates first appear in
    the input, and reads the clock once per record. *)
Theorem flatten_one_record_per_date items t out :
  flatten_daily_metrics_inner items t = Ok out ->
  exists groups t',
    group_by_date items t = Ok (groups, t') /\
    out = map (fun kv => add_missing_metrics (snd kv)) groups /\
    dict_keys groups = first_seen (map point_date (day_points items)) /\
    NoDup (dict_keys groups) /\
    List.length out
    = List.length (first_seen (map point_date (day_points items))) /\
    t' = t + List.length out.
Proof.
  intro R.
  destruct (flatten_daily_metrics_inner_ok _ _ _ _ _ _ R)
    as (groups & t' & G & ->).
  exists groups, t'. split; [exact G|]. split; [reflexivity|].
  pose proof (group_by_date_points _ _ _ _ _ _ G) as F.
  destruct (fold_apply_point_keys (day_points items) [] t) as [K T].
  rewrite <- F in K, T. cbn [fst snd dict_keys map] in K, T.
  assert (Hk : dict_keys groups
               = first_seen (map point_date (day_points items))) by exact K.
  split; [exact Hk|]. split.
  - change groups with (fst (groups, t')). rewrite F.
    apply fold_apply_point_NoDup. constructor.
  - rewrite length_map. unfold first_seen. rewrite <- K.
    rewrite length_map. split; [reflexivity|].
    rewrite T, <- K, length_map. cbn [List.length]. lia.
Qed.

(** *** The catalog fill *)

Lemma add_missing_metric_present metrics m :
  dict_mem (KStr m) metrics = true -> add_missing_metric metrics m = metrics.
Proof. intro M. unfold add_missing_metric. now rewrite M. Qed.

Lemma fold_add_missing_present ms : forall metrics,
  (forall m, In m ms -> dict_mem (KStr m) metrics = true) ->
  fold_left add_missing_metric ms metrics = metrics.
Proof.
  induction ms as [|m ms IH]; intros metrics A; cbn [fold_left]; auto.
  rewrite add_missing_metric_present by (apply A; now left).
  apply IH. intros x I. apply A. now right.
Qed.

Lemma fold_add_missing_keys ms : forall metrics,
  NoDup ms ->
  dict_keys (fold_left add_missing_metric ms metrics)
  = (dict_keys metrics
     ++ map KStr (filter (fun m => negb (dict_mem (KStr m) metrics)) ms))%list.
Proof.
  induction ms as [|m ms IH]; intros metrics N; cbn [fold_left filter map].
  - now rewrite app_nil_r.
  - apply NoDup_cons_iff in N. destruct N as [Nm N].
    rewrite IH by assumption. unfold add_missing_metric.
    destruct (dict_mem (KStr m) metrics) eqn:M; cbn [negb map]; [reflexivity|].
    rewrite dict_keys_set_absent by assumption. rewrite <- app_assoc.
    cbn [app]. do 3 f_equal. apply filter_ext_in. intros x I. f_equal.
    apply dict_mem_set_other. intro Q. inversion Q. subst. contradiction.
Qed.

Lemma missing_metrics_NoDup : NoDup missing_metrics.
Proof.
  unfold missing_metrics.
  repeat (constructor;
          [cbn [In]; intros Q;
           repeat (destruct Q as [Q|Q]; [discriminate Q|]); exact Q|]).
  constructor.
Qed.

(** X5.  The catalog fill appends, after the columns a record has, the
    catalog metrics the record lacks, in catalog order and with null values,
    and nothing else; filling a filled record changes nothing. *)
Theorem add_missing_metrics_columns metrics :
  dict_keys (add_missing_metrics metrics)
  = (dict_keys metrics
     ++ map KStr
          (filter (fun m => negb (dict_mem (KStr m) metrics)) missing_metrics))%list
  /\ (forall k v, dict_get k (add_missing_metrics metrics) = Some v ->
        dict_get k metrics = Some v \/ (dict_get k metrics = None /\ v = JNull))
  /\ add_missing_metrics (add_missing_metrics metrics)
     = add_missing_metrics metrics.
Proof.
  split; [|split].
  - apply fold_add_missing_keys, missing_metrics_NoDup.
  - unfold add_missing_metrics. generalize missing_metrics as ms.
    intro ms. revert metrics.
    induction ms as [|m ms IH]; intros metrics k v; cbn [fold_left]; auto.
    intro G. apply IH in G. unfold add_missing_metric in G.
    destruct (dict_mem (KStr m) metrics) eqn:M; cbn [negb] in G; auto.
    apply dict_mem_false in M.
    destruct (keqb_dec (KStr m) k) as [<-|N].
    + rewrite dict_get_set_same in G. destruct G as [G|[G _]];
        [inversion G; auto|discriminate].
    + now rewrite dict_get_set_other in G by assumption.
  - unfold add_missing_metrics at 1. apply fold_add_missing_present.
    intros m I. apply dict_mem_true.
    destruct (dict_get (KStr m) metrics) as [v|] eqn:G.
    + exists v. now apply add_missing_metrics_keeps.
    + exists JNull. now apply add_missing_metrics_adds.
Qed.


(** *** Identity columns *)

Local Notation identity_first :=
  (fun metrics : list (pykey * json) =>
     exists rest,
       dict_keys metrics
       = KStr "page_id" :: KStr "date" :: KStr "_extracted_at" :: rest).

Lemma dict_set_identity_first k v (metrics : list (pykey * json)) :
  identity_first metrics -> identity_first (dict_set k v metrics).
Proof.
  intros [rest E]. destruct (dict_mem k metrics) eqn:M.
  - rewrite dict_keys_set_present by assumption. eauto.
  - rewrite dict_keys_set_absent by assumption. rewrite E.
    exists (rest ++ [k])%list. reflexivity.
Qed.

Lemma dict_set_Forall_snd {V} (Q : V -> Prop) d v (m : list (string * V)) :
  Forall (fun kv => Q (snd kv)) m -> Q v ->
  Forall (fun kv => Q (snd kv)) (dict_set d v m).
Proof.
  intros F Hv. induction m as [|[d' v'] m IH]; cbn [dict_set].
  - repeat constructor. exact Hv.
  - apply Forall_cons_iff in F. destruct F as [F1 F2].
    destruct (keqb d d'); constructor; auto.
Qed.

Lemma dict_get_Forall_snd {V} (Q : V -> Prop) d v (m : list (string * V)) :
  Forall (fun kv => Q (snd kv)) m -> dict_get d m = Some v -> Q v.
Proof.
  intros F G. apply dict_get_In in G. rewrite Forall_forall in F.
  exact (F _ G).
Qed.

Lemma apply_point_identity_first st p :
  Forall (fun kv => identity_first (snd kv)) (fst st) ->
  Forall (fun kv => identity_first (snd kv)) (fst (apply_point st p)).
Proof.
  destruct st as [mbd t], p as [[d k] v]. rewrite apply_point_eq. cbn [fst].
  intro F. destruct (dict_get d mbd) as [r|] eqn:G; cbn [fst].
  - apply (dict_set_Forall_snd identity_first); auto.
    apply dict_set_identity_first.
    exact (dict_get_Forall_snd identity_first _ _ _ F G).
  - apply (dict_set_Forall_snd identity_first).
    + apply (dict_set_Forall_snd identity_first); auto.
      exists []. reflexivity.
    + apply dict_set_identity_first. exists []. reflexivity.
Qed.

Lemma fold_apply_point_identity_first ps : forall st,
  Forall (fun kv => identity_first (snd kv)) (fst st) ->
  Forall (fun kv => identity_first (snd kv)) (fst (fold_left apply_point ps st)).
Proof.
  induction ps as [|p ps IH]; intros st F; cbn [fold_left]; auto.
  apply IH. now apply apply_point_identity_first.
Qed.

Lemma dict_keys_length {K V} (m : list (K * V)) :
  List.length (dict_keys m) = List.length m.
Proof. unfold dict_keys. apply length_map. Qed.

(** The record of a date that appears during the fold is stamped with the
    clock reading taken when the date appeared. *)
Lemma fold_apply_point_extracted_at ps : forall mbd tc d j,
  nth_error (dict_keys (fst (fold_left apply_point ps (mbd, tc)))) j = Some d ->
  List.length mbd <= j ->
  last_value d (KStr "_extracted_at") ps = None ->
  lookup2 d (KStr "_extracted_at") (fst (fold_left apply_point ps (mbd, tc)))
  = Some (JStr (isoformat (now (tc + (j - List.length mbd))))).
Proof.
  induction ps as [|[[d0 k0] v0] ps IH]; intros mbd tc d j N L Hn.
  - cbn [fold_left fst] in N. exfalso.
    assert (nth_error (dict_keys mbd) j = None)
      by (apply nth_error_None; rewrite dict_keys_length; lia).
    congruence.
  - apply last_value_none_cons in Hn. destruct Hn as [Hn Nk].
    cbn [fold_left] in *. rewrite apply_point_eq in *.
    destruct (dict_get d0 mbd) as [r|] eqn:G.
    + assert (M : dict_mem d0 mbd = true) by (apply dict_mem_true; eauto).
      specialize (IH _ _ _ _ N). rewrite <- dict_keys_length in IH, L.
      rewrite dict_keys_set_present in IH by assumption.
      rewrite <- dict_keys_length. apply IH; auto.
    + assert (M : dict_mem d0 mbd = false) by now apply dict_mem_false.
      set (init := [ (KStr "page_id", JStr page_id); (KStr "date", JStr d0);
                     (KStr "_extracted_at", JStr (isoformat (now tc))) ]) in *.
      set (mbd1 := dict_set d0 (dict_set k0 v0 init) (dict_set d0 init mbd))
        in *.
      assert (K1 : dict_keys mbd1 = (dict_keys mbd ++ [d0])%list).
      { unfold mbd1.
        rewrite dict_keys_set_present by apply dict_mem_set_same.
        now apply dict_keys_set_absent. }
      assert (L1 : List.length mbd1 = S (List.length mbd)).
      { rewrite <- !dict_keys_length, K1, length_app. cbn [List.length]. lia. }
      destruct (Nat.eq_dec j (List.length mbd)) as [->|Nj].
      * destruct (fold_apply_point_keys ps mbd1 (S tc)) as [K _].
        destruct (fold_see_grows (map point_date ps) (dict_keys mbd1))
          as [extra E].
        rewrite K, E, K1, <- app_assoc in N.
        rewrite nth_error_app2 in N by (rewrite dict_keys_length; lia).
        rewrite dict_keys_length, Nat.sub_diag in N. cbn in N.
        inversion N. subst d0.
        rewrite Nat.sub_diag, Nat.add_0_r.
        apply fold_apply_point_frame; auto. cbn [fst]. unfold lookup2, mbd1.
        rewrite dict_get_set_same.
        rewrite dict_get_set_other by congruence. reflexivity.
      * rewrite (IH mbd1 (S tc) d j N) by (auto; lia).
        do 4 f_equal. lia.
Qed.

(** X6.  Every record yielded starts with the columns [page_id], [date] and
    [_extracted_at].  In the [j]-th record, unless a metric of that very
    name was returned for its date, [page_id] is the page id, [date] is the
    [j]-th distinct date of the input, and [_extracted_at] is the [j]-th
    clock reading of the run: records of different dates carry different
    readings. *)
Theorem flatten_identity_columns items t out j metrics :
  flatten_daily_metrics_inner items t = Ok out ->
  nth_error out j = Some metrics ->
  exists date_str,
    nth_error (first_seen (map point_date (day_points items))) j
    = Some date_str /\
    (exists rest,
        dict_keys metrics
        = KStr "page_id" :: KStr "date" :: KStr "_extracted_at" :: rest) /\
    (last_value date_str (KStr "page_id") (day_points items) = None ->
     dict_get (KStr "page_id") metrics = Some (JStr page_id)) /\
    (last_value date_str (KStr "date") (day_points items) = None ->
     dict_get (KStr "date") metrics = Some (JStr date_str)) /\
    (last_value date_str (KStr "_extracted_at") (day_points items) = None ->
     dict_get (KStr "_extracted_at") metrics
     = Some (JStr (isoformat (now (t + j))))).
Proof.
  intros R N.
  destruct (flatten_daily_metrics_inner_ok _ _ _ _ _ _ R)
    as (groups & t' & G & ->).
  pose proof (group_by_date_points _ _ _ _ _ _ G) as F.
  rewrite nth_error_map in N.
  destruct (nth_error groups j) as [[d grouped]|] eqn:Nj; [|discriminate].
  cbn [option_map snd] in N. inversion N. subst metrics. clear N.
  assert (Nd : NoDup (dict_keys groups)).
  { change groups with (fst (groups, t')). rewrite F.
    apply fold_apply_point_NoDup. constructor. }
  pose proof (dict_In_get _ _ _ Nd (nth_error_In _ _ Nj)) as D.
  assert (L : forall k, lookup2 d k groups = dict_get k grouped)
    by (intro k; unfold lookup2; now rewrite D).
  assert (Kj : nth_error (dict_keys groups) j = Some d).
  { unfold dict_keys. rewrite nth_error_map, Nj. reflexivity. }
  assert (Hd : exists k v, In (d, k, v) (day_points items)).
  { assert (M : dict_mem d (fst (groups, t')) = true)
      by (apply dict_mem_true; eauto).
    rewrite F in M. apply fold_apply_point_dates in M.
    destruct M as [M|M]; [discriminate|exact M]. }
  exists d. split; [|split; [|split; [|split]]].
  - destruct (fold_apply_point_keys (day_points items) [] t) as [K _].
    rewrite <- F in K. cbn [fst] in K. rewrite K in Kj. exact Kj.
  - assert (Q : Forall (fun kv => identity_first (snd kv)) groups).
    { change groups with (fst (groups, t')). rewrite F.
      apply fold_apply_point_identity_first. constructor. }
    destruct (dict_get_Forall_snd identity_first _ _ _ Q D) as [rest E].
    unfold add_missing_metrics.
    rewrite fold_add_missing_keys by apply missing_metrics_NoDup.
    rewrite E. eexists. reflexivity.
  - intro Ln. apply add_missing_metrics_keeps. rewrite <- L.
    change groups with (fst (groups, t')). rewrite F.
    now apply fold_apply_point_identity.
  - intro Ln. apply add_missing_metrics_keeps. rewrite <- L.
    change groups with (fst (groups, t')). rewrite F.
    now apply fold_apply_point_identity.
  - intro Ln. apply add_missing_metrics_keeps. rewrite <- L.
    pose proof (fold_apply_point_extracted_at (day_points items) [] t d j) as X.
    rewrite <- F in X. cbn [fst List.length] in X.
    rewrite Nat.sub_0_r in X. apply X; auto. lia.
Qed.


(** *** Feeding the input twice *)

(** Two dicts with the same distinct keys and the same values are equal. *)
Lemma dict_ext {K V} `{Key K} (m1 m2 : list (K * V)) :
  NoDup (dict_keys m1) ->
  dict_keys m1 = dict_keys m2 ->
  (forall k, dict_get k m1 = dict_get k m2) ->
  m1 = m2.
Proof.
  revert m2. induction m1 as [|[k v1] r1 IH]; intros [|[k2 v2] r2] N E L;
    try discriminate; auto.
  cbn [dict_keys map fst] in E. injection E as <- E.
  apply NoDup_cons_iff in N. destruct N as [Nk N].
  pose proof (L k) as Lk. cbn [dict_get] in Lk. rewrite keqb_refl in Lk.
  inversion Lk. subst v2. f_equal. apply IH; auto.
  intro k'. destruct (keqb_dec k' k) as [->|Nk'].
  - assert (A : forall r : list (K * V), ~ In k (dict_keys r) ->
                  dict_get k r = None).
    { intros r Nr. apply dict_mem_false.
      destruct (dict_mem k r) eqn:M; auto.
      apply dict_mem_keys in M. contradiction. }
    rewrite (A r1), (A r2); auto. unfold dict_keys. now rewrite <- E.
  - specialize (L k'). cbn [dict_get] in L.
    now rewrite (keqb_neq k' k) in L by assumption.
Qed.

Lemma columns_by_date_keys (m : list (string * list (pykey * json))) :
  dict_keys (columns_by_date m) = dict_keys m.
Proof.
  unfold columns_by_date, dict_keys. rewrite map_map. reflexivity.
Qed.

Lemma columns_by_date_get d (m : list (string * list (pykey * json))) :
  dict_get d (columns_by_date m) = option_map dict_keys (dict_get d m).
Proof.
  induction m as [|[d' r] m IH]; cbn [columns_by_date map dict_get fst snd];
    auto.
  destruct (keqb d d'); auto.
Qed.

(** Whether a column exists depends on the columns only. *)
Lemma lookup2_none_columns d k m1 m2 :
  columns_by_date m1 = columns_by_date m2 ->
  lookup2 d k m1 = None -> lookup2 d k m2 = None.
Proof.
  intros E. pose proof (columns_by_date_get d m1) as G1.
  pose proof (columns_by_date_get d m2) as G2. rewrite E in G1.
  rewrite G1 in G2. unfold lookup2.
  destruct (dict_get d m1) as [r1|], (dict_get d m2) as [r2|];
    cbn [option_map] in G2; try discriminate; auto.
  injection G2 as G2. intro L. apply dict_mem_false.
  destruct (dict_mem k r2) eqn:M; auto.
  apply dict_mem_keys in M. rewrite <- G2 in M. apply dict_mem_keys in M.
  apply dict_mem_false in L. congruence.
Qed.

(** Two groupings with the same distinct columns and the same values are
    equal. *)
Lemma groups_ext (m1 m2 : list (string * list (pykey * json))) :
  distinct_columns m1 ->
  columns_by_date m1 = columns_by_date m2 ->
  (forall d k, lookup2 d k m1 = lookup2 d k m2) ->
  m1 = m2.
Proof.
  intros [Nd Nr] E L. apply dict_ext; auto.
  - now rewrite <- !columns_by_date_keys, E.
  - intro d. pose proof (columns_by_date_get d m1) as G1.
    pose proof (columns_by_date_get d m2) as G2. rewrite E in G1.
    rewrite G1 in G2. specialize (L d). unfold lookup2 in L.
    destruct (dict_get d m1) as [r1|] eqn:D1, (dict_get d m2) as [r2|];
      cbn [option_map] in G2; try discriminate; auto.
    injection G2 as G2. f_equal. apply dict_ext; auto.
    apply dict_get_In in D1. rewrite Forall_forall in Nr.
    exact (Nr _ D1).
Qed.

Lemma columns_by_date_set d r r' (m : list (string * list (pykey * json))) :
  dict_get d m = Some r -> dict_keys r' = dict_keys r ->
  columns_by_date (dict_set d r' m) = columns_by_date m.
Proof.
  intros G E. induction m as [|[d' r0] m IH]; cbn [dict_get] in G;
    [discriminate|].
  cbn [dict_set]. destruct (keqb d d') eqn:Q.
  - inversion G. subst r0. cbn [columns_by_date map fst snd]. now rewrite E.
  - cbn [columns_by_date map fst snd]. f_equal. now apply IH.
Qed.

(** Storing a point in a column that exists changes neither the columns
    nor the clock. *)
Lemma apply_point_columns mbd t d k v :
  lookup2 d k mbd <> None ->
  columns_by_date (fst (apply_point (mbd, t) (d, k, v))) = columns_by_date mbd
  /\ snd (apply_point (mbd, t) (d, k, v)) = t.
Proof.
  rewrite apply_point_eq. unfold lookup2.
  destruct (dict_get d mbd) as [r|] eqn:G; [|congruence].
  intro Nn. cbn [fst snd]. split; [|reflexivity].
  apply columns_by_date_set with (r := r); auto.
  apply dict_keys_set_present. apply dict_mem_true.
  destruct (dict_get k r); [eauto|congruence].
Qed.

Lemma fold_apply_point_columns ps : forall mbd t,
  (forall d k v, In (d, k, v) ps -> lookup2 d k mbd <> None) ->
  columns_by_date (fst (fold_left apply_point ps (mbd, t)))
  = columns_by_date mbd
  /\ snd (fold_left apply_point ps (mbd, t)) = t.
Proof.
  induction ps as [|[[d k] v] ps IH]; intros mbd t Sat; cbn [fold_left].
  - auto.
  - destruct (apply_point_columns mbd t d k v) as [C T].
    { apply (Sat d k v). now left. }
    destruct (apply_point (mbd, t) (d, k, v)) as [mbd1 t1] eqn:A.
    cbn [fst snd] in C, T. subst t1.
    destruct (IH mbd1 t) as [C1 T1].
    + intros d' k' v' I.
      destruct (lookup2 d' k' mbd) as [x|] eqn:Lx;
        [|exfalso; apply (Sat d' k' v'); [now right|exact Lx]].
      assert (Q : (d', k') = (d, k) \/ (d', k') <> (d, k)).
      { destruct (keqb_dec d' d) as [->|Nd]; [|right; congruence].
        destruct (keqb_dec k' k) as [->|Nk]; [now left|right; congruence]. }
      destruct Q as [Q|Nq].
      * inversion Q. subst.
        pose proof (apply_point_same now page_id mbd t d k v) as P.
        rewrite A in P. cbn [fst] in P. congruence.
      * pose proof (apply_point_other now page_id mbd t d k v d' k' x Nq Lx)
          as P.
        rewrite A in P. cbn [fst] in P. congruence.
    + now rewrite C1, T1.
Qed.

Lemma apply_point_distinct_columns st p :
  Forall (fun kv => NoDup (dict_keys (snd kv))) (fst st) ->
  Forall (fun kv => NoDup (dict_keys (snd kv))) (fst (apply_point st p)).
Proof.
  destruct st as [mbd t], p as [[d k] v]. rewrite apply_point_eq. cbn [fst].
  intro F. destruct (dict_get d mbd) as [r|] eqn:G; cbn [fst].
  - apply (dict_set_Forall_snd (fun r => NoDup (dict_keys r))); auto.
    apply dict_set_NoDup.
    exact (dict_get_Forall_snd (fun r => NoDup (dict_keys r)) _ _ _ F G).
  - assert (Ni : NoDup (dict_keys
                  [ (KStr "page_id", JStr page_id); (KStr "date", JStr d);
                    (KStr "_extracted_at", JStr (isoformat (now t))) ])).
    { cbn [dict_keys map fst].
      repeat (constructor; [cbn [In]; intuition discriminate|]).
      constructor. }
    apply (dict_set_Forall_snd (fun r => NoDup (dict_keys r))).
    + apply (dict_set_Forall_snd (fun r => NoDup (dict_keys r))); auto.
    + now apply dict_set_NoDup.
Qed.

Lemma fold_apply_point_distinct_columns ps : forall st,
  distinct_columns (fst st) ->
  distinct_columns (fst (fold_left apply_point ps st)).
Proof.
  induction ps as [|p ps IH]; intros st [Nd Nr]; cbn [fold_left].
  - split; auto.
  - apply IH. split.
    + now apply apply_point_NoDup.
    + now apply apply_point_distinct_columns.
Qed.

Lemma last_value_some d k v ps :
  In (d, k, v) ps -> exists w, last_value d k ps = Some w.
Proof.
  induction ps as [|[[d' k'] u] ps IH]; [contradiction|].
  intros [I|I]; cbn [last_value].
  - inversion I. subst. destruct (last_value d k ps); eauto.
    rewrite String.eqb_refl, keqb_refl. cbn [andb]. eauto.
  - destruct (IH I) as [w ->]. eauto.
Qed.

(** Storing the same points a second time changes nothing. *)
Lemma fold_apply_point_twice ps st :
  distinct_columns (fst st) ->
  fold_left apply_point ps (fold_left apply_point ps st)
  = fold_left apply_point ps st.
Proof.
  intro Dc.
  destruct (fold_left apply_point ps st) as [m1 t1] eqn:F1.
  assert (D1 : distinct_columns m1).
  { change m1 with (fst (m1, t1)). rewrite <- F1.
    now apply fold_apply_point_distinct_columns. }
  assert (Last : forall d k w, last_value d k ps = Some w ->
                   lookup2 d k m1 = Some w).
  { intros d k w L. change m1 with (fst (m1, t1)). rewrite <- F1.
    now apply fold_apply_point_last. }
  destruct (fold_apply_point_columns ps m1 t1) as [C T].
  { intros d k v I. destruct (last_value_some _ _ _ _ I) as [w L].
    rewrite (Last _ _ _ L). discriminate. }
  destruct (fold_left apply_point ps (m1, t1)) as [m2 t2] eqn:F2.
  cbn [fst snd] in C, T. subst t2. f_equal.
  symmetry. apply groups_ext; auto.
  intros d k. change m2 with (fst (m2, t1)). rewrite <- F2.
  destruct (last_value d k ps) as [w|] eqn:L.
  - rewrite (Last _ _ _ L). symmetry. now apply fold_apply_point_last.
  - destruct (lookup2 d k m1) as [x|] eqn:Lx.
    + symmetry. now apply fold_apply_point_frame.
    + symmetry. rewrite F2. cbn [fst].
      apply lookup2_none_columns with (m1 := m1); auto.
Qed.

(** A list or an object as the metric name cannot be a column: storing a
    point under it raises [TypeError]. *)
Lemma flatten_value_entry_unhashable metric_name ve st d :
  truthy (py_get ve "end_time") = true ->
  parse_date (py_get ve "end_time") = Some d ->
  to_key metric_name = None ->
  flatten_value_entry metric_name (JObj ve) st = Raise TypeError.
Proof.
  intros T P Hk. destruct st as [mbd t].
  unfold flatten_value_entry. rewrite T, P, Hk.
  destruct (negb (dict_mem d mbd)) eqn:M.
  - now rewrite dict_get_set_same.
  - apply negb_false_iff, dict_mem_true in M. destruct M as [r G].
    now rewrite G.
Qed.

(** Whether the loop bodies raise does not depend on the state. *)
Lemma flatten_value_entry_raise metric_name value_entry s1 s2 :
  result_rel (fun _ _ => True) (flatten_value_entry metric_name value_entry s1)
    (flatten_value_entry metric_name value_entry s2).
Proof.
  destruct value_entry as [| | | | |ve];
    try (unfold flatten_value_entry; cbn [result_rel]; reflexivity).
  destruct (truthy (py_get ve "end_time")) eqn:T.
  - destruct (parse_date (py_get ve "end_time")) as [d|] eqn:P.
    + destruct (to_key metric_name) as [k|] eqn:Hk.
      * rewrite !(flatten_value_entry_stored _ _ _ _ _ _ _ _ T P Hk).
        exact I.
      * rewrite !(flatten_value_entry_unhashable _ _ _ _ T P Hk).
        reflexivity.
    + rewrite !flatten_value_entry_unparsed by assumption. exact I.
  - unfold flatten_value_entry. rewrite T. exact I.
Qed.

Lemma flatten_metric_response_raise metric_response s1 s2 :
  result_rel (fun _ _ => True) (flatten_metric_response metric_response s1)
    (flatten_metric_response metric_response s2).
Proof.
  unfold flatten_metric_response.
  destruct metric_response; cbn [result_rel]; auto.
  destruct (_ && _); cbn [result_rel]; auto.
  destruct (py_iter _); cbn [bind result_rel]; auto.
  apply for_each_rel; auto.
  intros. apply flatten_value_entry_raise.
Qed.

(** X7.  Feeding the same metric-response objects twice in one run gives the
    same outcome as feeding them once: the same records with the same
    values, columns, order and timestamps, or the same exception. *)
Theorem flatten_input_twice items t :
  flatten_daily_metrics_inner (items ++ items) t
  = flatten_daily_metrics_inner items t.
Proof.
  unfold flatten_daily_metrics_inner, group_by_date. rewrite for_each_app.
  destruct (for_each flatten_metric_response items ([], t)) as [st|e] eqn:E1;
    cbn [bind]; [|reflexivity].
  pose proof (for_each_rel (fun _ _ => True) flatten_metric_response items
                (fun x s1 s2 _ => flatten_metric_response_raise x s1 s2)
                ([], t) st I) as Q.
  rewrite E1 in Q.
  destruct (for_each flatten_metric_response items st) as [st2|e2] eqn:E2;
    cbn [result_rel] in Q; [|contradiction].
  assert (F : forall s s', for_each flatten_metric_response items s = Ok s' ->
                s' = fold_left apply_point (day_points items) s).
  { intros s s' Hs. unfold day_points. rewrite fold_left_flat_map.
    revert Hs. apply for_each_fold. intros x a b _.
    apply flatten_metric_response_points. }
  apply F in E1, E2. rewrite E1 in E2.
  rewrite fold_apply_point_twice in E2.
  - cbn [bind]. now rewrite E2, <- E1.
  - split; constructor.
Qed.


(** *** Ill-formed and incomplete input *)

Lemma for_each_shaped_prefix pre t :
  forallb metric_shape pre = true ->
  exists st, for_each flatten_metric_response pre ([], t) = Ok st.
Proof.
  intro Sh. apply for_each_total. intros x s I.
  apply flatten_metric_response_total. rewrite forallb_forall in Sh. auto.
Qed.

(** Under a name that cannot be a key, value-points that are objects leave
    the state alone or raise [TypeError]. *)
Lemma for_each_unhashable metric_name vs st :
  to_key metric_name = None ->
  forallb is_object vs = true ->
  for_each (flatten_value_entry metric_name) vs st = Ok st \/
  for_each (flatten_value_entry metric_name) vs st = Raise TypeError.
Proof.
  intro K. induction vs as [|x vs IH]; cbn [forallb for_each]; [now left|].
  intro O. apply andb_true_iff in O. destruct O as [Ox O].
  destruct x as [| | | | |ve]; try discriminate.
  destruct (truthy (py_get ve "end_time")) eqn:T.
  - destruct (parse_date (py_get ve "end_time")) as [d|] eqn:P.
    + rewrite (flatten_value_entry_unhashable _ _ _ _ T P K). now right.
    + rewrite flatten_value_entry_unparsed by assumption. cbn [bind]. auto.
  - assert (E : flatten_value_entry metric_name (JObj ve) st = Ok st)
      by (unfold flatten_value_entry; now rewrite T).
    rewrite E. cbn [bind]. auto.
Qed.

(** Value-points that are objects without a parseable [end_time] leave the
    state alone. *)
Lemma for_each_unretained metric_name vs st :
  forallb is_object vs = true ->
  (forall v, In (JObj v) vs ->
     truthy (py_get v "end_time") = false \/
     parse_date (py_get v "end_time") = None) ->
  for_each (flatten_value_entry metric_name) vs st = Ok st.
Proof.
  induction vs as [|x vs IH]; cbn [forallb for_each]; [reflexivity|].
  intros O U. apply andb_true_iff in O. destruct O as [Ox O].
  destruct x as [| | | | |ve]; try discriminate.
  assert (E : flatten_value_entry metric_name (JObj ve) st = Ok st).
  { destruct (U ve (or_introl eq_refl)) as [T|P].
    - unfold flatten_value_entry. now rewrite T.
    - now apply flatten_value_entry_unparsed. }
  rewrite E. cbn [bind]. apply IH; auto. intros v I. apply U. now right.
Qed.

(** Value-points that are objects, under a hashable name, never raise. *)
Lemma for_each_hashable metric_name vs st :
  hashable metric_name = true ->
  forallb is_object vs = true ->
  exists st', for_each (flatten_value_entry metric_name) vs st = Ok st'.
Proof.
  intros K O. apply for_each_total. intros x s I.
  rewrite forallb_forall in O. specialize (O x I).
  destruct x; try discriminate. now apply flatten_value_entry_total.
Qed.

(** X8.  The flattener is all or nothing: no record is yielded when the run
    raises, not even for the well-formed items before the one that raises.
    It raises [AttributeError] at an item that is not an object.  It raises
    [TypeError] at a daily metric whose name is a list or an object and
    which has, anywhere among its value-points, one with a parseable
    [end_time] that only objects precede.  It raises [AttributeError] at a
    daily metric with a value-point that is not an object and that only
    objects precede, when the name is hashable or none of those objects
    has a parseable [end_time]. *)
Theorem flatten_all_or_nothing pre x post t :
  forallb metric_shape pre = true ->
  (is_object x = false ->
   flatten_daily_metrics_inner (pre ++ x :: post) t = Raise AttributeError)
  /\
  (forall mr vs1 ve vs2 d,
      x = JObj mr ->
      to_key (py_get mr "name") = None ->
      py_get_default mr "period" (JStr "day") = JStr "day" ->
      py_get_default mr "values" (JArr []) = JArr (vs1 ++ JObj ve :: vs2) ->
      forallb is_object vs1 = true ->
      truthy (py_get ve "end_time") = true ->
      parse_date (py_get ve "end_time") = Some d ->
      flatten_daily_metrics_inner (pre ++ x :: post) t = Raise TypeError)
  /\
  (forall mr vs1 bad vs2,
      x = JObj mr ->
      py_get_default mr "period" (JStr "day") = JStr "day" ->
      py_get_default mr "values" (JArr []) = JArr (vs1 ++ bad :: vs2) ->
      forallb is_object vs1 = true ->
      is_object bad = false ->
      hashable (py_get mr "name") = true \/
      (forall v, In (JObj v) vs1 ->
         truthy (py_get v "end_time") = false \/
         parse_date (py_get v "end_time") = None) ->
      flatten_daily_metrics_inner (pre ++ x :: post) t = Raise AttributeError).
Proof.
  intro Sh. destruct (for_each_shaped_prefix pre t Sh) as [st E].
  unfold flatten_daily_metrics_inner, group_by_date.
  rewrite for_each_app, E. cbn [bind for_each]. split; [|split].
  - intro O. unfold flatten_metric_response.
    destruct x; try reflexivity. discriminate.
  - intros mr vs1 ve vs2 d -> Hk Hp Hv O T P. unfold flatten_metric_response.
    assert (Tv : truthy (JArr (vs1 ++ JObj ve :: vs2)) = true)
      by (now destruct vs1).
    rewrite Hp, Hv, Tv, String.eqb_refl. cbn [andb py_iter bind].
    rewrite for_each_app.
    destruct (for_each_unhashable (py_get mr "name") vs1 st Hk O) as [Q|Q];
      rewrite Q; cbn [bind for_each]; [|reflexivity].
    now rewrite (flatten_value_entry_unhashable _ _ _ _ T P Hk).
  - intros mr vs1 bad vs2 -> Hp Hv O B H. unfold flatten_metric_response.
    assert (Tv : truthy (JArr (vs1 ++ bad :: vs2)) = true)
      by (now destruct vs1).
    rewrite Hp, Hv, Tv, String.eqb_refl. cbn [andb py_iter bind].
    rewrite for_each_app.
    assert (Q : exists st',
               for_each (flatten_value_entry (py_get mr "name")) vs1 st
               = Ok st').
    { destruct H as [K|U].
      - now apply for_each_hashable.
      - exists st. now apply for_each_unretained. }
    destruct Q as [st' Q]. rewrite Q. cbn [bind for_each].
    unfold flatten_value_entry. destruct bad; try reflexivity. discriminate.
Qed.

(** A value-point on which the loop body does nothing can be left out of
    the input. *)
Lemma run_without_point mr vs1 ve vs2 pre post t :
  dict_get "values" mr = Some (JArr (vs1 ++ JObj ve :: vs2)) ->
  (forall metric_name st,
      flatten_value_entry metric_name (JObj ve) st = Ok st) ->
  flatten_daily_metrics_inner (pre ++ JObj mr :: post) t
  = flatten_daily_metrics_inner
      (pre ++ JObj (dict_set "values" (JArr (vs1 ++ vs2)) mr) :: post) t.
Proof.
  intros V Skip.
  unfold flatten_daily_metrics_inner, group_by_date. f_equal.
  apply for_each_replace. intro st. unfold flatten_metric_response.
  rewrite py_get_set_other by discriminate.
  rewrite py_get_default_set_other by discriminate.
  rewrite py_get_default_set_same.
  assert (Hv : py_get_default mr "values" (JArr [])
               = JArr (vs1 ++ JObj ve :: vs2))
    by (unfold py_get_default; now rewrite V).
  rewrite !Hv.
  destruct (match py_get_default mr "period" (JStr "day") with
            | JStr p => String.eqb p "day" | _ => false end);
    cbn [andb]; [|reflexivity].
  assert (T : truthy (JArr (vs1 ++ JObj ve :: vs2)) = true)
    by (now destruct vs1).
  rewrite T. cbn [py_iter bind].
  rewrite for_each_skip by (intro s0; apply Skip).
  destruct (vs1 ++ vs2)%list eqn:E; reflexivity.
Qed.

(** X9.  Missing keys never raise.  An object without [values] contributes
    nothing.  A value-point whose [end_time] is missing, null or empty is
    skipped, whatever the parser would make of it: the run is the run of
    the input without it.  A value-point without [value] stores null under
    the name of its metric, whatever that name is: in a run that ends
    normally the record of its date is yielded and holds null in that
    column, unless a later point replaces it.  A metric-response object
    without [name] stores its values under the key [None]. *)
Theorem flatten_missing_keys :
  (forall mr pre post t,
      dict_get "values" mr = None ->
      flatten_daily_metrics_inner (pre ++ JObj mr :: post) t
      = flatten_daily_metrics_inner (pre ++ post) t)
  /\
  (forall metric_name ve st,
      truthy (py_get ve "end_time") = false ->
      flatten_value_entry metric_name (JObj ve) st = Ok st)
  /\
  (forall mr ve st d,
      dict_get "name" mr = None ->
      truthy (py_get ve "end_time") = true ->
      parse_date (py_get ve "end_time") = Some d ->
      exists st',
        flatten_value_entry (py_get mr "name") (JObj ve) st = Ok st' /\
        lookup2 d KNone (fst st') = Some (py_get ve "value") /\
        (dict_get "value" ve = None -> lookup2 d KNone (fst st') = Some JNull))
  /\
  (forall mr vs1 ve vs2 pre post t,
      dict_get "values" mr = Some (JArr (vs1 ++ JObj ve :: vs2)) ->
      truthy (py_get ve "end_time") = false ->
      flatten_daily_metrics_inner (pre ++ JObj mr :: post) t
      = flatten_daily_metrics_inner
          (pre ++ JObj (dict_set "values" (JArr (vs1 ++ vs2)) mr) :: post) t)
  /\
  (forall metric_name k ve st d,
      to_key metric_name = Some k ->
      truthy (py_get ve "end_time") = true ->
      parse_date (py_get ve "end_time") = Some d ->
      dict_get "value" ve = None ->
      exists st',
        flatten_value_entry metric_name (JObj ve) st = Ok st' /\
        lookup2 d k (fst st') = Some JNull)
  /\
  (forall pre mr post ws1 ve ws2 t out d k,
      py_get_default mr "period" (JStr "day") = JStr "day" ->
      py_get_default mr "values" (JArr []) = JArr (ws1 ++ JObj ve :: ws2) ->
      truthy (py_get ve "end_time") = true ->
      parse_date (py_get ve "end_time") = Some d ->
      to_key (py_get mr "name") = Some k ->
      dict_get "value" ve = None ->
      last_value d k
        (flat_map
           (fun x => option_list
                       (point_of fromisoformat_date (py_get mr "name") x)) ws2
         ++ day_points post) = None ->
      flatten_daily_metrics_inner (pre ++ JObj mr :: post) t = Ok out ->
      exists groups t' grouped,
        group_by_date (pre ++ JObj mr :: post) t = Ok (groups, t') /\
        dict_get d groups = Some grouped /\
        In (add_missing_metrics grouped) out /\
        dict_get k (add_missing_metrics grouped) = Some JNull)
  /\
  (forall mr,
      dict_get "name" mr = None -> to_key (py_get mr "name") = Some KNone).
Proof.
  split; [|split; [|split; [|split; [|split; [|split]]]]].
  - intros mr pre post t V.
    unfold flatten_daily_metrics_inner, group_by_date. f_equal.
    apply for_each_skip. intro st. unfold flatten_metric_response.
    assert (Hv : py_get_default mr "values" (JArr []) = JArr [])
      by (unfold py_get_default; now rewrite V).
    rewrite Hv. cbn [truthy]. now rewrite andb_false_r.
  - intros metric_name ve st T. unfold flatten_value_entry. now rewrite T.
  - intros mr ve [mbd t] d Hn T P.
    assert (Hk : to_key (py_get mr "name") = Some KNone)
      by (unfold py_get; now rewrite Hn).
    rewrite (flatten_value_entry_stored _ _ _ _ _ _ _ _ T P Hk).
    eexists. split; [reflexivity|]. split.
    + apply apply_point_same.
    + intro V.
      assert (Hv : py_get ve "value" = JNull)
        by (unfold py_get; now rewrite V).
      rewrite <- Hv. apply apply_point_same.
  - intros mr vs1 ve vs2 pre post t V T. apply (run_without_point mr vs1 ve vs2); auto.
    intros metric_name st. unfold flatten_value_entry. now rewrite T.
  - intros metric_name k ve [mbd t] d Hk T P V.
    rewrite (flatten_value_entry_stored _ _ _ _ _ _ _ _ T P Hk).
    eexists. split; [reflexivity|].
    assert (Hv : py_get ve "value" = JNull)
      by (unfold py_get; now rewrite V).
    rewrite Hv. apply apply_point_same.
  - intros pre mr post ws1 ve ws2 t out d k Hp Hv T P Hk V L R.
    destruct (run_stores_point fromisoformat_date now page_id pre mr post
                ws1 ve ws2 t out d k Hp Hv T P Hk R)
      as (groups & t' & grouped & v & G & _ & D & I & C & _ & Hlast).
    exists groups, t', grouped. repeat split; auto.
    rewrite C, (Hlast L). unfold py_get. now rewrite V.
  - intros mr Hn. unfold py_get. now rewrite Hn.
Qed.

End FlattenRecords.

(** ** The records of the fan-out *)

(** A generator yields at most one value per element, and one per element
    exactly when no exception escapes. *)
Lemma yield_each_length {A B S} (body : A -> S -> result (B * S)) l :
  forall s out e,
    yield_each body l s = (out, e) ->
    List.length out <= List.length l /\
    (e = None <-> List.length out = List.length l).
Proof.
  induction l as [|x r IH]; intros s out e; cbn [yield_each].
  - intro Q. inversion Q. subst. cbn. intuition.
  - destruct (body x s) as [[b s']|e0].
    + destruct (yield_each body r s') as [bs e1] eqn:Y.
      intro Q. inversion Q. subst. destruct (IH _ _ _ Y) as [L E].
      cbn [List.length]. split; [lia|]. rewrite E. lia.
    + intro Q. inversion Q. subst. cbn [List.length].
      split; [lia|]. split; [discriminate|lia].
Qed.

Section FanOutRecords.

Variable fromisoformat_date : string -> option string.
Variable now : nat -> pydatetime.

Local Notation post_date := (post_date fromisoformat_date now).
Local Notation post_metrics_item := (post_metrics_item fromisoformat_date now).
Local Notation post_metrics_resource :=
  (post_metrics_resource fromisoformat_date now).

(** X10.  In every run, whatever the requests return, the fan-out yields at
    most one record per listed post; it yields one per post whenever no
    exception escapes it, and fewer whenever one does after at least one
    post was listed. *)
Theorem post_metrics_resource_count get_insights listing t out e :
  post_metrics_resource get_insights listing t = (out, e) ->
  List.length out <= List.length (listed_posts listing) /\
  (e = None -> List.length out = List.length (listed_posts listing)) /\
  (e <> None -> listed_posts listing <> [] ->
   List.length out < List.length (listed_posts listing)).
Proof.
  intro R. destruct (post_metrics_resource_run _ _ _ _ _ _ _ R) as [->|Y].
  - cbn [List.length]. split; [lia|]. split.
    + intros ->. revert R. unfold post_metrics_resource, listed_posts.
      destruct listing as [x|body]; [discriminate|].
      destruct body; try discriminate.
      destruct (py_iter _) as [posts|x]; [|discriminate].
      intro R. destruct (yield_each_length _ _ _ _ _ R) as [_ E].
      now apply E.
    + intros _ N. destruct (listed_posts listing); [contradiction|].
      cbn [List.length]. lia.
  - destruct (yield_each_length _ _ _ _ _ Y) as [L E].
    split; [exact L|]. split; [apply E|].
    intros N _. destruct e as [x|]; [|contradiction].
    assert (List.length out <> List.length (listed_posts listing))
      by (intro Q; apply E in Q; discriminate).
    lia.
Qed.

(** X11.  A listed post that has no [id], or is not an object, makes the
    fan-out raise at that post: the records of the posts before it have been
    yielded, exactly as a run on those posts alone yields them, and no
    later post is processed. *)
Theorem post_metrics_resource_aborts_at_post
  get_insights posts_data pre bad post t e :
  py_get_default posts_data "data" (JArr []) = JArr (pre ++ bad :: post) ->
  py_subscript bad "id" = Raise e ->
  forallb post_shape pre = true ->
  (forall j post_id, j < List.length pre ->
     outcome_shape (get_insights j post_id) = true) ->
  exists out,
    post_metrics_resource get_insights (HttpJson (JObj posts_data)) t
    = (out, Some e) /\
    List.length out = List.length pre /\
    post_metrics_resource get_insights
      (HttpJson (JObj [("data", JArr pre)])) t = (out, None) /\
    (e = KeyError \/ e = TypeError).
Proof.
  intros D B Sh Hg.
  destruct (fan_out_total fromisoformat_date now get_insights pre 0 (S t) Sh Hg)
    as (out & Y & L).
  exists out. unfold post_metrics_resource. rewrite D.
  cbn [py_iter py_get_default dict_get keqb string_Key String.eqb].
  split; [|split; [exact L|split; [exact Y|]]].
  - apply yield_each_abort; [|exact Y].
    intros [i u]. unfold post_metrics_item. now rewrite B.
  - unfold py_subscript in B. destruct bad; inversion B; auto.
    destruct (dict_get "id" l); inversion B; auto.
Qed.

(** X12.  [post_impressions_unique] is requested for every post but is not
    a column of the record: no record yielded ever has it, whatever the
    response returns.  The other eight requested metrics are columns of the
    catalog. *)
Theorem post_impressions_unique_never_stored
  get_insights listing t out e j r :
  post_metrics_resource get_insights listing t = (out, e) ->
  nth_error out j = Some r ->
  dict_get (KStr "post_impressions_unique") r = None /\
  In "post_impressions_unique" post_metrics /\
  (forall m, In m post_metrics ->
     m = "post_impressions_unique" \/ In m post_metrics_catalog).
Proof.
  intros R N.
  destruct (post_metrics_resource_nth _ _ _ _ _ _ _ _ _ R N)
    as (o & post_id & t_j & _ & _ & _ & F).
  apply try_fetch_metrics_ok in F. split; [|split].
  - apply dict_mem_false.
    destruct (dict_mem (KStr "post_impressions_unique") r) eqn:M; auto.
    apply dict_mem_keys in M. subst r.
    rewrite fold_store_metric_keys, base_record_keys in M.
    exfalso. cbn [In map post_metrics_catalog] in M.
    repeat (destruct M as [M|M]; [discriminate|]). contradiction.
  - cbn. tauto.
  - intros m I. unfold post_metrics in I. cbn [In] in I.
    unfold post_metrics_catalog. cbn [In].
    repeat (destruct I as [<-|I]; [tauto|]). contradiction.
Qed.

(** X13.  The [post_id] of the [j]-th record is the id of the [j]-th listed
    post, and its [_extracted_at] is a clock reading taken for that post,
    whenever the request failed or returned no metric of that very name. *)
Theorem post_record_identity get_insights listing t out e j r :
  post_metrics_resource get_insights listing t = (out, e) ->
  nth_error out j = Some r ->
  exists o post_id n,
    nth_error (listed_posts listing) j = Some (JObj o) /\
    dict_get "id" o = Some post_id /\
    S t + j <= n <= S t + 2 * j + 1 /\
    (forallb (fun metric => negb (overwrites (KStr "post_id") metric))
       (returned_metrics (get_insights j post_id)) = true ->
     dict_get (KStr "post_id") r = Some post_id) /\
    (forallb (fun metric => negb (overwrites (KStr "_extracted_at") metric))
       (returned_metrics (get_insights j post_id)) = true ->
     dict_get (KStr "_extracted_at") r = Some (JStr (isoformat (now n)))).
Proof.
  intros R N.
  destruct (post_metrics_resource_nth _ _ _ _ _ _ _ _ _ R N)
    as (o & post_id & t_j & B & P & I & F).
  apply try_fetch_metrics_ok in F.
  exists o, post_id, (snd (post_date (py_get o "created_time") t_j)).
  split; [exact P|]. split; [exact I|]. split.
  - destruct (post_date_clock fromisoformat_date now
                (py_get o "created_time") t_j) as [C|C]; rewrite C; lia.
  - split; intro A; subst r;
      (rewrite fold_store_metric_frame;
       [reflexivity|now apply forallb_not_overwrites]).
Qed.

End FanOutRecords.

(** ** The rewrite of [Z] *)

Lemma string_app_assoc (a b c : string) : (a ++ b) ++ c = a ++ (b ++ c).
Proof. induction a as [|x a IH]; cbn [append]; [reflexivity|now rewrite IH]. Qed.

Lemma replace_char_app c by_ a b :
  replace_char c by_ (a ++ b) = replace_char c by_ a ++ replace_char c by_ b.
Proof.
  induction a as [|x a IH]; cbn [append replace_char]; auto.
  destruct (Ascii.eqb x c); rewrite IH.
  - symmetry. apply string_app_assoc.
  - reflexivity.
Qed.

Lemma contains_char_app c a b :
  contains_char c (a ++ b) = contains_char c a || contains_char c b.
Proof.
  induction a as [|x a IH]; cbn [append contains_char]; auto.
  destruct (Ascii.eqb x c); auto.
Qed.

(** X14.  The timestamp handed to the parser is the input with every [Z],
    wherever it stands, replaced by [+00:00]: a string without [Z] reaches
    the parser unchanged, a trailing [Z] becomes the offset, and no [Z] is
    left in what the parser sees. *)
Theorem replace_Z_spec (fromisoformat_date : string -> option string) :
  (forall s, contains_char "Z" s = false ->
     replace_char "Z" "+00:00" s = s /\
     parse_date fromisoformat_date (JStr s) = fromisoformat_date s)
  /\
  (forall a b,
     replace_char "Z" "+00:00" (a ++ "Z" ++ b)
     = replace_char "Z" "+00:00" a ++ "+00:00" ++ replace_char "Z" "+00:00" b)
  /\
  (forall s, contains_char "Z" s = false ->
     parse_date fromisoformat_date (JStr (s ++ "Z"))
     = fromisoformat_date (s ++ "+00:00"))
  /\
  (forall s, contains_char "Z" (replace_char "Z" "+00:00" s) = false).
Proof.
  assert (Id : forall s, contains_char "Z" s = false ->
                 replace_char "Z" "+00:00" s = s).
  { induction s as [|x s IH]; cbn [contains_char replace_char]; auto.
    destruct (Ascii.eqb x "Z"); [discriminate|].
    intro C. now rewrite IH. }
  split; [|split; [|split]].
  - intros s C. split; [now apply Id|]. cbn [parse_date]. now rewrite Id.
  - intros a b. rewrite !replace_char_app. reflexivity.
  - intros s C. cbn [parse_date]. rewrite replace_char_app, Id by assumption.
    reflexivity.
  - induction s as [|x s IH]; cbn [replace_char]; auto.
    destruct (Ascii.eqb x "Z") eqn:E.
    + rewrite contains_char_app, IH. reflexivity.
    + cbn [contains_char]. now rewrite E.
Qed.

(** * Properties of the validation script *)

Section ValidateFacts.

Import Validate.
Import ValidateSpec.

Lemma mem_In x l : mem x l = true <-> In x l.
Proof.
  unfold mem. rewrite existsb_exists. split.
  - intros (y & I & E). apply String.eqb_eq in E. now subst.
  - intro I. exists x. split; [exact I|apply String.eqb_refl].
Qed.

(** The points of one entry: one for the table, one for its columns *)
Local Notation points :=
  (fun kv : string * table_result =>
     if tr_exists (snd kv) then
       if match tr_missing_columns (snd kv) with
          | Some (_ :: _) => false
          | _ => true
          end
       then 2 else 1
     else 0).

Lemma score_fold results : forall a b,
  exists s,
    fold_left
      (fun acc kv =>
         let (compatibility_score, max_score) := (acc : nat * nat) in
         let result := snd kv in
         let max_score := (max_score + 2)%nat in
         if tr_exists result then
           let compatibility_score := (compatibility_score + 1)%nat in
           if match tr_missing_columns result with
              | Some (_ :: _) => false
              | _ => true
              end
           then ((compatibility_score + 1)%nat, max_score)
           else (compatibility_score, max_score)
         else (compatibility_score, max_score))
      results (a, b)
    = (a + s, b + 2 * List.length results) /\
    s + 2 * absent results + incomplete results = 2 * List.length results.
Proof.
  induction results as [|[name r] results IH]; intros a b.
  - exists 0. cbn. split; [f_equal; lia|reflexivity].
  - cbn [fold_left snd]. unfold absent, incomplete in *.
    cbn [filter snd List.length].
    destruct (tr_exists r); cbn [negb andb].
    + destruct (tr_missing_columns r) as [[|c cs]|].
      * destruct (IH (a + 1 + 1) (b + 2)) as (s & E & Q). rewrite E.
        exists (2 + s). split; [f_equal; lia|]. lia.
      * destruct (IH (a + 1) (b + 2)) as (s & E & Q). rewrite E.
        exists (1 + s). cbn [List.length]. split; [f_equal; lia|]. lia.
      * destruct (IH (a + 1 + 1) (b + 2)) as (s & E & Q). rewrite E.
        exists (2 + s). split; [f_equal; lia|]. lia.
    + destruct (IH a (b + 2)) as (s & E & Q). rewrite E.
      exists s. cbn [List.length]. split; [f_equal; lia|]. lia.
Qed.

Lemma score_eq results :
  exists s,
    score results = (s, 2 * List.length results) /\
    s + 2 * absent results + incomplete results = 2 * List.length results.
Proof.
  destruct (score_fold results 0 0) as (s & E & Q).
  exists s. split; [exact E|exact Q].
Qed.

Lemma validate_tables_names db actual expected results :
  validate_tables db actual expected = Some results ->
  map fst results = map fst expected.
Proof.
  revert results. induction expected as [|[name required] expected IH];
    intros results; cbn [validate_tables].
  - intro Q. now inversion Q.
  - destruct (validate_table db actual name required); [|discriminate].
    destruct (validate_tables db actual expected); [|discriminate].
    intro Q. inversion Q. cbn [map fst]. f_equal. now apply IH.
Qed.

(** The loop ends normally exactly when every turn does, with one entry per
    expected table. *)
Lemma validate_tables_some db actual expected results :
  validate_tables db actual expected = Some results <->
  Forall2 (fun e kv =>
             fst kv = fst e /\
             validate_table db actual (fst e) (snd e) = Some (snd kv))
    expected results.
Proof.
  revert results. induction expected as [|[name required] expected IH];
    intros results; cbn [validate_tables].
  - split.
    + intro Q. inversion Q. constructor.
    + intro F. now inversion F.
  - split.
    + destruct (validate_table db actual name required) as [r|] eqn:E;
        [|discriminate].
      destruct (validate_tables db actual expected) as [rs|]; [|discriminate].
      intro Q. inversion Q. constructor; [split; auto|now apply IH].
    + intro F. inversion F as [|e kv es rs [Hn Hv] Hr]. subst.
      cbn [fst snd] in *. rewrite Hv.
      apply IH in Hr. rewrite Hr. destruct kv. cbn [fst snd] in *. now subst.
Qed.

Lemma validate_tables_none db actual expected name required :
  In (name, required) expected ->
  validate_table db actual name required = None ->
  validate_tables db actual expected = None.
Proof.
  induction expected as [|[n r] expected IH]; [contradiction|].
  intros [I|I] E; cbn [validate_tables].
  - inversion I. subst. now rewrite E.
  - destruct (validate_table db actual n r); [|reflexivity].
    now rewrite IH.
Qed.

Lemma pct_full s :
  s <= 8 ->
  QArith_base.Qeq_bool (compatibility_pct s 8) (QArith_base.inject_Z 100)
  = Nat.eqb s 8.
Proof.
  intro L. do 9 (destruct s as [|s]; [vm_compute; reflexivity|]). lia.
Qed.

Lemma pct_mostly s :
  s <= 8 ->
  QArith_base.Qle_bool (QArith_base.inject_Z 75) (compatibility_pct s 8)
  = Nat.leb 6 s.
Proof.
  intro L. do 9 (destruct s as [|s]; [vm_compute; reflexivity|]). lia.
Qed.

(** The message, from the numbers of absent and of incomplete tables *)
Lemma validation_report_results db actual results :
  connect db = true ->
  show_tables db = Some actual ->
  validate_tables db actual expected_tables = Some results ->
  validation_report db
  = if Nat.eqb (2 * absent results + incomplete results) 0
    then FullyCompatible
    else if Nat.leb (2 * absent results + incomplete results) 2
         then MostlyCompatible
         else SignificantIssues.
Proof.
  intros C S V. unfold validation_report. rewrite C, S, V. cbn [negb].
  pose proof (validate_tables_names _ _ _ _ V) as N.
  assert (L : List.length results = 4).
  { rewrite <- (length_map fst), N. reflexivity. }
  destruct (score_eq results) as (s & E & Q). rewrite E, L in *.
  change (2 * 4) with 8 in *.
  rewrite pct_full, pct_mostly by lia.
  destruct (Nat.eqb_spec s 8) as [->|Ns].
  - replace (2 * absent results + incomplete results) with 0 by lia.
    reflexivity.
  - destruct (Nat.eqb_spec (2 * absent results + incomplete results) 0);
      [lia|].
    destruct (Nat.leb_spec 6 s), (Nat.leb_spec
      (2 * absent results + incomplete results) 2); try reflexivity; lia.
Qed.

Lemma Forall2_left_In {A B} (R : A -> B -> Prop) l1 l2 x :
  Forall2 R l1 l2 -> In x l1 -> exists y, In y l2 /\ R x y.
Proof.
  induction 1 as [|a b l1 l2 Hab F IH]; [contradiction|].
  intros [<-|I].
  - exists b. split; [now left|exact Hab].
  - destruct (IH I) as (y & Iy & Hy). exists y. split; [now right|exact Hy].
Qed.

Lemma filter_length_zero {A} (f : A -> bool) l :
  List.length (filter f l) = 0 -> forall x, In x l -> f x = false.
Proof.
  induction l as [|y l IH]; cbn [filter]; [contradiction|].
  destruct (f y) eqn:E; cbn [List.length]; [discriminate|].
  intros Z x [<-|I]; auto.
Qed.

Lemma validate_table_exists db actual name required r :
  validate_table db actual name required = Some r ->
  tr_exists r = true ->
  mem name actual = true /\
  exists row_count cols,
    count_rows db name = Some row_count /\
    describe db name = Some cols /\
    (0 < row_count -> sample db name = true) /\
    tr_row_count r = row_count /\
    tr_columns r = cols /\
    tr_missing_columns r
    = Some (filter (fun col => negb (mem col cols)) required).
Proof.
  unfold validate_table. destruct (mem name actual); cbn [negb].
  - intros V _. split; [reflexivity|].
    destruct (count_rows db name) as [n|]; [|discriminate].
    destruct (describe db name) as [cols|]; [|discriminate].
    exists n, cols. destruct (Nat.ltb_spec 0 n).
    + destruct (sample db name); [|discriminate]. inversion V. cbn.
      repeat split; auto.
    + inversion V. cbn. repeat split; auto. lia.
  - intro Q. inversion Q. cbn. discriminate.
Qed.

Lemma validate_table_absent db actual name required r :
  validate_table db actual name required = Some r ->
  tr_exists r = negb (negb (mem name actual)).
Proof.
  unfold validate_table. destruct (mem name actual); cbn [negb].
  - destruct (count_rows db name) as [n|]; [|discriminate].
    destruct (describe db name) as [cols|]; [|discriminate].
    destruct (Nat.ltb 0 n); [destruct (sample db name)|];
      intro Q; inversion Q; reflexivity.
  - intro Q. inversion Q. reflexivity.
Qed.

(** X15.  A successful validation is a guarantee: when
    [validate_pipeline_output] returns [True], whatever the destination
    answered, the connection worked and each of the four expected tables is
    among the tables shown and has every one of its required columns. *)
Theorem validate_pipeline_output_sound db :
  validate_pipeline_output db = true ->
  connect db = true /\
  exists actual_tables,
    show_tables db = Some actual_tables /\
    forall table_name required_columns,
      In (table_name, required_columns) expected_tables ->
      In table_name actual_tables /\
      exists actual_columns,
        describe db table_name = Some actual_columns /\
        forall col, In col required_columns -> In col actual_columns.
Proof.
  unfold validate_pipeline_output.
  destruct (connect db) eqn:C;
    [|unfold validation_report; rewrite C; discriminate].
  destruct (show_tables db) as [actual|] eqn:S;
    [|unfold validation_report; rewrite C, S; discriminate].
  destruct (validate_tables db actual expected_tables) as [results|] eqn:V;
    [|unfold validation_report; rewrite C, S, V; discriminate].
  rewrite (validation_report_results db actual results C S V).
  destruct (Nat.eqb_spec (2 * absent results + incomplete results) 0) as [Z|];
    [|destruct (Nat.leb _ 2); discriminate].
  intros _. split; [reflexivity|]. exists actual. split; [reflexivity|].
  intros name required I.
  apply validate_tables_some in V.
  destruct (Forall2_left_In _ _ _ _ V I) as ([name' r] & Ir & Hn & Hv).
  cbn [fst snd] in *. subst name'.
  assert (Ex : tr_exists r = true).
  { assert (A : absent results = 0) by lia. unfold absent in A.
    pose proof (filter_length_zero _ _ A _ Ir) as F. cbn [snd] in F.
    now apply negb_false_iff in F. }
  destruct (validate_table_exists _ _ _ _ _ Hv Ex)
    as (M & n & cols & _ & D & _ & _ & _ & Mc).
  split; [now apply mem_In|]. exists cols. split; [exact D|].
  assert (Inc : incomplete results = 0) by lia. unfold incomplete in Inc.
  pose proof (filter_length_zero _ _ Inc _ Ir) as F. cbn [snd] in F.
  rewrite Ex, Mc in F. cbn [andb] in F.
  intros col Ic. apply mem_In.
  destruct (mem col cols) eqn:Mcol; auto. exfalso.
  assert (In col (filter (fun c => negb (mem c cols)) required)).
  { apply filter_In. split; auto. now rewrite Mcol. }
  destruct (filter (fun c => negb (mem c cols)) required);
    [contradiction|discriminate].
Qed.


Lemma filter_nil_forallb {A} (f : A -> bool) l :
  match filter (fun x => negb (f x)) l with [] => true | _ :: _ => false end
  = forallb f l.
Proof.
  induction l as [|x l IH]; cbn [filter forallb]; auto.
  destruct (f x); cbn [negb andb]; auto.
Qed.

(** One turn of the loop, from what the destination answers *)
Lemma validate_table_cases db actual e :
  (table_answers db actual e = false /\
   validate_table db actual (fst e) (snd e) = None)
  \/
  (table_answers db actual e = true /\
   exists r,
     validate_table db actual (fst e) (snd e) = Some r /\
     negb (tr_exists r) = table_absent actual e /\
     (tr_exists r
      && match tr_missing_columns r with
         | Some (_ :: _) => true
         | _ => false
         end) = table_incomplete db actual e).
Proof.
  unfold table_answers, validate_table, table_absent, table_incomplete.
  destruct (mem (fst e) actual); cbn [negb orb andb].
  - destruct (count_rows db (fst e)) as [n|]; [|now left].
    destruct (describe db (fst e)) as [cols|]; [|now left].
    assert (Q : forall r,
               tr_exists r = true ->
               tr_missing_columns r
               = Some (filter (fun col => negb (mem col cols)) (snd e)) ->
               negb (tr_exists r) = false /\
               tr_exists r
               && match tr_missing_columns r with
                  | Some (_ :: _) => true
                  | _ => false
                  end
               = negb (forallb (fun col => mem col cols) (snd e))).
    { intros r E M. rewrite E, M. split; [reflexivity|]. cbn [andb].
      rewrite <- (filter_nil_forallb (fun col => mem col cols) (snd e)).
      now destruct (filter _ (snd e)). }
    destruct (Nat.ltb 0 n); cbn [negb orb].
    + destruct (sample db (fst e)); [|now left].
      right. split; [reflexivity|]. eexists. split; [reflexivity|].
      now apply Q.
    + right. split; [reflexivity|]. eexists. split; [reflexivity|].
      now apply Q.
  - right. split; [reflexivity|]. eexists. split; [reflexivity|].
    split; reflexivity.
Qed.

Lemma validate_tables_cases db actual expected :
  (forallb (table_answers db actual) expected = false /\
   validate_tables db actual expected = None)
  \/
  (forallb (table_answers db actual) expected = true /\
   exists results,
     validate_tables db actual expected = Some results /\
     2 * absent results + incomplete results
     = lost_points db actual expected).
Proof.
  induction expected as [|[name required] expected IH];
    cbn [forallb validate_tables].
  - right. split; [reflexivity|]. exists []. split; reflexivity.
  - destruct (validate_table_cases db actual (name, required))
      as [[A V]|(A & r & V & Ha & Hi)]; cbn [fst snd] in V; rewrite A, V.
    + left. split; reflexivity.
    + cbn [andb].
      destruct IH as [[B W]|(B & rs & W & L)]; rewrite B, W.
      * left. split; reflexivity.
      * right. split; [reflexivity|]. eexists. split; [reflexivity|].
        unfold lost_points, absent, incomplete in *.
        cbn [filter snd]. rewrite Ha, Hi.
        destruct (table_absent actual (name, required)),
                 (table_incomplete db actual (name, required));
          cbn [List.length]; lia.
Qed.

(** X16.  Once connected and given the tables shown, the outcome is fixed by
    three things.  If a statement about a shown table raises (its count, its
    description, or its sample when it has rows), validation fails.
    Otherwise every absent table costs two points of eight and every shown
    table lacking a required column costs one: no point lost is success,
    one or two is the warning, more is the error; only success returns
    [True].  Row counts matter only through the sample statement: empty
    tables pass. *)
Theorem validation_report_characterised db actual_tables :
  connect db = true ->
  show_tables db = Some actual_tables ->
  (forallb (table_answers db actual_tables) expected_tables = false ->
   validation_report db = FailedToValidate)
  /\
  (forallb (table_answers db actual_tables) expected_tables = true ->
   validation_report db
   = if Nat.eqb (lost_points db actual_tables expected_tables) 0
     then FullyCompatible
     else if Nat.leb (lost_points db actual_tables expected_tables) 2
          then MostlyCompatible
          else SignificantIssues)
  /\
  (validate_pipeline_output db = true <->
   forallb (table_answers db actual_tables) expected_tables = true /\
   lost_points db actual_tables expected_tables = 0).
Proof.
  intros C S.
  assert (Hf : forallb (table_answers db actual_tables) expected_tables = false ->
               validation_report db = FailedToValidate).
  { intro A.
    destruct (validate_tables_cases db actual_tables expected_tables)
      as [[_ V]|[B _]]; [|congruence].
    unfold validation_report. now rewrite C, S, V. }
  assert (Ht : forallb (table_answers db actual_tables) expected_tables = true ->
               validation_report db
               = if Nat.eqb (lost_points db actual_tables expected_tables) 0
                 then FullyCompatible
                 else if Nat.leb (lost_points db actual_tables expected_tables) 2
                      then MostlyCompatible
                      else SignificantIssues).
  { intro A.
    destruct (validate_tables_cases db actual_tables expected_tables)
      as [[B _]|(_ & results & V & L)]; [congruence|].
    rewrite <- L. now apply (validation_report_results db actual_tables). }
  split; [exact Hf|]. split; [exact Ht|].
  unfold validate_pipeline_output.
  destruct (forallb (table_answers db actual_tables) expected_tables) eqn:A.
  - rewrite (Ht eq_refl).
    destruct (Nat.eqb_spec (lost_points db actual_tables expected_tables) 0).
    + tauto.
    + destruct (Nat.leb _ 2); split; try discriminate; intros [_ Q]; lia.
  - rewrite (Hf eq_refl). split; [discriminate|]. intros [Q _]. discriminate.
Qed.

(** X17.  The script exits with status 0 exactly when the pipeline output is
    valid and the dbt directory and its four key files exist.  The dbt
    directory is a fixed absolute path: where it does not exist, the script
    exits with status 1 whatever the destination holds. *)
Theorem validation_script_exit_status db path_exists :
  (exit_status db path_exists = 0 <->
   validate_pipeline_output db = true /\
   path_exists dbt_path = true /\
   forall file_path, In file_path key_files ->
     path_exists (join dbt_path file_path) = true)
  /\
  (path_exists dbt_path = false -> exit_status db path_exists = 1).
Proof.
  unfold exit_status, validate_dbt_compatibility. split.
  - destruct (validate_pipeline_output db); cbn [andb];
      [|split; [discriminate|intros [Q _]; discriminate]].
    destruct (path_exists dbt_path); cbn [negb];
      [|split; [discriminate|intros (_ & Q & _); discriminate]].
    pose proof (filter_nil_forallb
                  (fun file_path => path_exists (join dbt_path file_path))
                  key_files) as F.
    destruct (filter _ key_files).
    + split; [|reflexivity]. intros _. repeat split.
      symmetry in F. now rewrite forallb_forall in F.
    + split; [discriminate|]. intros (_ & _ & Q).
      apply forallb_forall in Q. congruence.
  - intros ->. cbn [negb]. now rewrite andb_false_r.
Qed.

End ValidateFacts.

(** * Properties of the setup script *)

Section SetupFacts.

Import Setup.
Import SetupSpec.

Implicit Types (fs : list (string * node)) (path : string).

(** ** The three writes of [setup_dlt_environment] *)

Lemma with_dir_keeps fs path n :
  dict_get path fs = Some n -> dict_get path (with_dir fs) = Some n.
Proof.
  intro G. unfold with_dir. destruct (dict_get dlt_dir fs) eqn:D; auto.
  rewrite dict_get_set_other; auto. congruence.
Qed.

Lemma with_dir_other fs path :
  path <> dlt_dir -> dict_get path (with_dir fs) = dict_get path fs.
Proof.
  intro N. unfold with_dir. destruct (dict_get dlt_dir fs); auto.
  apply dict_get_set_other. auto.
Qed.

Lemma with_dir_dir fs :
  (forall c, dict_get dlt_dir fs <> Some (File c)) ->
  dict_get dlt_dir (with_dir fs) = Some Dir.
Proof.
  intro N. unfold with_dir. destruct (dict_get dlt_dir fs) as [[c|]|] eqn:D.
  - now destruct (N c).
  - exact D.
  - apply dict_get_set_same.
Qed.

Lemma with_dir_fixed fs n :
  dict_get dlt_dir fs = Some n -> with_dir fs = fs.
Proof. intro G. unfold with_dir. now rewrite G. Qed.

Lemma with_secrets_keeps fs path n :
  dict_get path fs = Some n -> dict_get path (with_secrets fs) = Some n.
Proof.
  intro G. unfold with_secrets. destruct (dict_get secrets_file fs) eqn:S; auto.
  destruct (dict_get secrets_template fs) as [[c|]|]; auto.
  rewrite dict_get_set_other; auto. congruence.
Qed.

Lemma with_secrets_other fs path :
  path <> secrets_file -> dict_get path (with_secrets fs) = dict_get path fs.
Proof.
  intro N. unfold with_secrets. destruct (dict_get secrets_file fs); auto.
  destruct (dict_get secrets_template fs) as [[c|]|]; auto.
  apply dict_get_set_other. auto.
Qed.

Lemma with_secrets_fixed fs n :
  dict_get secrets_file fs = Some n -> with_secrets fs = fs.
Proof. intro G. unfold with_secrets. now rewrite G. Qed.

Lemma with_secrets_copied fs content :
  dict_get secrets_file fs = None ->
  dict_get secrets_template fs = Some (File content) ->
  dict_get secrets_file (with_secrets fs) = Some (File content).
Proof.
  intros S T. unfold with_secrets. rewrite S, T. apply dict_get_set_same.
Qed.

Lemma with_config_keeps fs path n :
  dict_get path fs = Some n -> dict_get path (with_config fs) = Some n.
Proof.
  intro G. unfold with_config. destruct (dict_get config_file fs) eqn:C; auto.
  rewrite dict_get_set_other; auto. congruence.
Qed.

Lemma with_config_other fs path :
  path <> config_file -> dict_get path (with_config fs) = dict_get path fs.
Proof.
  intro N. unfold with_config. destruct (dict_get config_file fs); auto.
  apply dict_get_set_other. auto.
Qed.

Lemma with_config_fixed fs n :
  dict_get config_file fs = Some n -> with_config fs = fs.
Proof. intro G. unfold with_config. now rewrite G. Qed.

Lemma with_config_written fs :
  dict_get config_file (with_config fs) =
  match dict_get config_file fs with
  | Some n => Some n
  | None => Some (File config_content)
  end.
Proof.
  unfold with_config. destruct (dict_get config_file fs) eqn:C; auto.
  apply dict_get_set_same.
Qed.

(** [setup_dlt_environment], case by case *)
Lemma setup_dlt_environment_cases fs :
  setup_dlt_environment fs =
  match dict_get dlt_dir fs with
  | Some (File _) => (fs, Some FileExistsError)
  | _ =>
      match dict_get secrets_file (with_dir fs),
            dict_get secrets_template (with_dir fs) with
      | None, None => (with_dir fs, Some FileNotFoundError)
      | None, Some Dir => (with_dir fs, Some IsADirectoryError)
      | _, _ => (with_config (with_secrets (with_dir fs)), None)
      end
  end.
Proof.
  unfold setup_dlt_environment, mkdir_exist_ok, with_dir.
  destruct (dict_get dlt_dir fs) as [[c|]|] eqn:D; [reflexivity| |];
    unfold path_exists, dict_mem, copy, with_config, with_secrets;
    (destruct (dict_get secrets_file _) as [s|] eqn:Sf; cbn [negb];
     [|destruct (dict_get secrets_template _) as [[c|]|] eqn:T;
        try reflexivity]);
    destruct (dict_get config_file _); reflexivity.
Qed.

(** The same, as the four ways the function ends *)
Lemma setup_dlt_environment_ends fs :
  (exists c, dict_get dlt_dir fs = Some (File c) /\
             setup_dlt_environment fs = (fs, Some FileExistsError)) \/
  (forall c, dict_get dlt_dir fs <> Some (File c)) /\
  ((dict_get secrets_file fs = None /\ dict_get secrets_template fs = None /\
    setup_dlt_environment fs = (with_dir fs, Some FileNotFoundError)) \/
   (dict_get secrets_file fs = None /\
    dict_get secrets_template fs = Some Dir /\
    setup_dlt_environment fs = (with_dir fs, Some IsADirectoryError)) \/
   ((dict_get secrets_file fs <> None \/
     exists content, dict_get secrets_template fs = Some (File content)) /\
    setup_dlt_environment fs = (with_config (with_secrets (with_dir fs)), None))).
Proof.
  rewrite setup_dlt_environment_cases.
  rewrite !with_dir_other by discriminate.
  destruct (dict_get dlt_dir fs) as [[c|]|] eqn:D; [left; eauto| |];
    (right; split; [discriminate|]);
    (destruct (dict_get secrets_file fs) as [s|] eqn:Sf;
     [right; right; split; [left; discriminate|reflexivity]|]);
    (destruct (dict_get secrets_template fs) as [[c|]|] eqn:T;
     [right; right; split; [right; eauto|reflexivity]
     |right; left; auto
     |left; auto]).
Qed.

(** What a run that returns leaves of the three paths *)
Lemma setup_returns_dir fs fs' :
  setup_dlt_environment fs = (fs', None) -> dict_get dlt_dir fs' = Some Dir.
Proof.
  destruct (setup_dlt_environment_ends fs)
    as [[c [_ E]]|[N [[_ [_ E]]|[[_ [_ E]]|[_ E]]]]];
    rewrite E; intro Q; inversion Q; subst.
  rewrite with_config_other, with_secrets_other by discriminate.
  now apply with_dir_dir.
Qed.

Lemma setup_returns_secrets fs fs' :
  setup_dlt_environment fs = (fs', None) ->
  match dict_get secrets_file fs with
  | Some n => dict_get secrets_file fs' = Some n
  | None =>
      exists content,
        dict_get secrets_template fs = Some (File content) /\
        dict_get secrets_file fs' = Some (File content)
  end.
Proof.
  destruct (setup_dlt_environment_ends fs)
    as [[c [_ E]]|[N [[_ [_ E]]|[[_ [_ E]]|[P E]]]]];
    rewrite E; intro Q; inversion Q; subst.
  rewrite with_config_other by discriminate.
  destruct (dict_get secrets_file fs) as [n|] eqn:S.
  - apply with_secrets_keeps, with_dir_keeps, S.
  - destruct P as [P|[content T]]; [congruence|].
    exists content. split; [exact T|].
    apply with_secrets_copied; rewrite with_dir_other by discriminate; auto.
Qed.

Lemma setup_returns_config fs fs' :
  setup_dlt_environment fs = (fs', None) ->
  dict_get config_file fs' =
  match dict_get config_file fs with
  | Some n => Some n
  | None => Some (File config_content)
  end.
Proof.
  destruct (setup_dlt_environment_ends fs)
    as [[c [_ E]]|[N [[_ [_ E]]|[[_ [_ E]]|[_ E]]]]];
    rewrite E; intro Q; inversion Q; subst.
  rewrite with_config_written, with_secrets_other, with_dir_other
    by discriminate.
  reflexivity.
Qed.

(** ** Substrings *)




(** ** The steps *)

Lemma check_dependencies_true (importable : string -> bool) :
  snd (check_dependencies importable) = true <->
  forall package, In package required_packages -> importable package = true.
Proof.
  unfold check_dependencies.
  destruct (filter _ required_packages) as [|p missing] eqn:F; cbn [snd].
  - split; [|reflexivity]. intros _ package I.
    destruct (importable package) eqn:E; [reflexivity|].
    assert (X : In package
                  (filter (fun package => negb (importable package))
                     required_packages))
      by (apply filter_In; now rewrite E).
    rewrite F in X. destruct X.
  - split; [discriminate|]. intro A.
    assert (X : In p (filter (fun package => negb (importable package))
                        required_packages))
      by (rewrite F; now left).
    apply filter_In in X. destruct X as [I X]. rewrite (A p I) in X.
    discriminate.
Qed.

(** X18.  [setup_dlt_environment] only adds.  Whether it returns or raises,
    every path that existed holds what it held, so that secrets and a
    configuration already there are never overwritten; and the only paths it
    can create are [.dlt], [.dlt/secrets.toml] and [.dlt/config.toml]. *)
Theorem setup_only_adds fs fs' failure :
  setup_dlt_environment fs = (fs', failure) ->
  (forall path n, dict_get path fs = Some n -> dict_get path fs' = Some n) /\
  (forall path,
      dict_get path fs = None ->
      path <> dlt_dir -> path <> secrets_file -> path <> config_file ->
      dict_get path fs' = None).
Proof.
  destruct (setup_dlt_environment_ends fs)
    as [[c [_ E]]|[N [[_ [_ E]]|[[_ [_ E]]|[_ E]]]]];
    rewrite E; intro Q; inversion Q; subst; split; auto.
  - intros. now apply with_dir_keeps.
  - intros. now rewrite with_dir_other.
  - intros. now apply with_dir_keeps.
  - intros. now rewrite with_dir_other.
  - intros. now apply with_config_keeps, with_secrets_keeps, with_dir_keeps.
  - intros. now rewrite with_config_other, with_secrets_other, with_dir_other.
Qed.

(** X19.  When [setup_dlt_environment] returns, [.dlt] is a directory,
    [.dlt/secrets.toml] is what it was, or a copy of the template if it did
    not exist, and [.dlt/config.toml] is what it was, or the default
    configuration if it did not exist. *)
Theorem setup_returns fs fs' :
  setup_dlt_environment fs = (fs', None) ->
  dict_get dlt_dir fs' = Some Dir /\
  match dict_get secrets_file fs with
  | Some n => dict_get secrets_file fs' = Some n
  | None =>
      exists content,
        dict_get secrets_template fs = Some (File content) /\
        dict_get secrets_file fs' = Some (File content)
  end /\
  dict_get config_file fs' =
  match dict_get config_file fs with
  | Some n => Some n
  | None => Some (File config_content)
  end.
Proof.
  intro E. split; [|split].
  - now apply setup_returns_dir with fs.
  - now apply setup_returns_secrets.
  - now apply setup_returns_config.
Qed.

(** X20.  [setup_dlt_environment] returns exactly when [.dlt] is not a
    regular file and either [.dlt/secrets.toml] exists or the template is a
    regular file. *)
Theorem setup_returns_iff fs :
  (exists fs', setup_dlt_environment fs = (fs', None)) <->
  (forall c, dict_get dlt_dir fs <> Some (File c)) /\
  (dict_get secrets_file fs <> None \/
   exists content, dict_get secrets_template fs = Some (File content)).
Proof.
  destruct (setup_dlt_environment_ends fs)
    as [[c [D E]]|[N [[S [T E]]|[[S [T E]]|[P E]]]]]; rewrite E; split.
  - intros [fs' Q]. discriminate.
  - intros [N _]. now destruct (N c).
  - intros [fs' Q]. discriminate.
  - intros [_ [P|[content P]]]; congruence.
  - intros [fs' Q]. discriminate.
  - intros [_ [P|[content P]]]; congruence.
  - auto.
  - eauto.
Qed.

(** X21.  When [setup_dlt_environment] raises, it has written neither the
    secrets nor the configuration.  [FileExistsError] means that [.dlt] is a
    regular file, and nothing was changed; [FileNotFoundError] and
    [IsADirectoryError] mean that there were no secrets and that the
    template is missing or is a directory, and [.dlt] is a directory by
    then. *)
Theorem setup_raises fs fs' e :
  setup_dlt_environment fs = (fs', Some e) ->
  dict_get secrets_file fs' = dict_get secrets_file fs /\
  dict_get config_file fs' = dict_get config_file fs /\
  match e with
  | FileExistsError =>
      fs' = fs /\ exists c, dict_get dlt_dir fs = Some (File c)
  | FileNotFoundError =>
      dict_get dlt_dir fs' = Some Dir /\
      dict_get secrets_file fs = None /\
      dict_get secrets_template fs = None
  | IsADirectoryError =>
      dict_get dlt_dir fs' = Some Dir /\
      dict_get secrets_file fs = None /\
      dict_get secrets_template fs = Some Dir
  end.
Proof.
  destruct (setup_dlt_environment_ends fs)
    as [[c [D E]]|[N [[S [T E]]|[[S [T E]]|[P E]]]]];
    rewrite E; intro Q; inversion Q; subst.
  - eauto.
  - rewrite !with_dir_other by discriminate.
    repeat split; auto. now apply with_dir_dir.
  - rewrite !with_dir_other by discriminate.
    repeat split; auto. now apply with_dir_dir.
Qed.

(** X22.  Running [setup_dlt_environment] again changes nothing and ends the
    same way, whether the first run returned or raised. *)
Theorem setup_twice fs fs' failure :
  setup_dlt_environment fs = (fs', failure) ->
  setup_dlt_environment fs' = (fs', failure).
Proof.
  destruct (setup_dlt_environment_ends fs)
    as [[c [D E]]|[N [[S [T E]]|[[S [T E]]|[P E]]]]];
    rewrite E; intro Q; inversion Q; subst.
  - exact E.
  - rewrite setup_dlt_environment_cases.
    rewrite (with_dir_fixed (with_dir fs) Dir) by now apply with_dir_dir.
    rewrite with_dir_dir by auto.
    rewrite !with_dir_other by discriminate. now rewrite S, T.
  - rewrite setup_dlt_environment_cases.
    rewrite (with_dir_fixed (with_dir fs) Dir) by now apply with_dir_dir.
    rewrite with_dir_dir by auto.
    rewrite !with_dir_other by discriminate. now rewrite S, T.
  - pose proof (setup_returns_dir _ _ E) as D.
    pose proof (setup_returns_secrets _ _ E) as S.
    pose proof (setup_returns_config _ _ E) as C.
    set (fs' := with_config (with_secrets (with_dir fs))) in *.
    assert (S' : exists n, dict_get secrets_file fs' = Some n).
    { destruct (dict_get secrets_file fs); [eauto|].
      destruct S as [content [_ S]]. eauto. }
    assert (C' : exists n, dict_get config_file fs' = Some n).
    { rewrite C. destruct (dict_get config_file fs); eauto. }
    destruct S' as [s S'], C' as [c C'].
    rewrite setup_dlt_environment_cases.
    rewrite (with_dir_fixed fs' Dir), D, S' by auto.
    now rewrite (with_secrets_fixed fs' s), (with_config_fixed fs' c).
Qed.



(** X25.  When a required package does not import, [main] exits with status
    one at the first step: the directory is as it was, and neither the
    connection test nor the test pipeline has any say. *)
Theorem main_missing_dependency importable decodes test_facebook_connection
  run_test_pipeline fs package :
  In package required_packages ->
  importable package = false ->
  main importable decodes test_facebook_connection run_test_pipeline fs
  = (fs, Exit1 "📦 Dependencies").
Proof.
  intros I M. unfold main, steps. cbn [run_steps]. unfold caught at 1.
  destruct (snd (check_dependencies importable)) eqn:C; [|reflexivity].
  rewrite (proj1 (check_dependencies_true importable) C package I) in M.
  discriminate.
Qed.

(** X26.  [main] returns exactly when every required package imports,
    [setup_dlt_environment] returns, the secrets it leaves pass
    [validate_facebook_config], and the connection test and the test
    pipeline both return [True], each on the directory the step before it
    left; it has then counted five steps. *)
Theorem main_completed importable decodes test_facebook_connection
  run_test_pipeline fs fs' success_count :
  main importable decodes test_facebook_connection run_test_pipeline fs
  = (fs', Completed success_count) <->
  success_count = 5 /\
  (forall package, In package required_packages ->
                   importable package = true) /\
  exists fs1 fs2,
    setup_dlt_environment fs = (fs1, None) /\
    validate_facebook_config decodes fs1 = true /\
    test_facebook_connection fs1 = (fs2, true) /\
    run_test_pipeline fs2 = (fs', true).
Proof.
  rewrite <- check_dependencies_true.
  unfold main, steps. cbn [run_steps]. unfold caught, setup_step.
  destruct (snd (check_dependencies importable));
    [|split; [discriminate|intros [_ [Q _]]; discriminate]].
  destruct (setup_dlt_environment fs) as [fs1 [e|]];
    [split; [discriminate|intros [_ [_ [a [b [Q _]]]]]; discriminate]|].
  destruct (validate_facebook_config decodes fs1) eqn:V.
  - destruct (test_facebook_connection fs1) as [fs2 [|]] eqn:T.
    + destruct (run_test_pipeline fs2) as [fs3 [|]] eqn:R.
      * split.
        -- intro Q. inversion Q. subst. split; [reflexivity|].
           split; [reflexivity|]. exists fs1, fs2. now rewrite T, R.
        -- intros [-> [_ [a [b [Q [_ [T' R']]]]]]]. inversion Q. subst a.
           rewrite T in T'. inversion T'. subst b. rewrite R in R'.
           now inversion R'.
      * split; [discriminate|].
        intros [_ [_ [a [b [Q [_ [T' R']]]]]]]. inversion Q. subst a.
        rewrite T in T'. inversion T'. subst b. rewrite R in R'.
        discriminate.
    + split; [discriminate|].
      intros [_ [_ [a [b [Q [_ [T' _]]]]]]]. inversion Q. subst a.
      rewrite T in T'. discriminate.
  - split; [discriminate|].
    intros [_ [_ [a [b [Q [V' _]]]]]]. inversion Q. subst a. congruence.
Qed.


End SetupFacts.

(** * The further properties on the samples *)

Lemma add_page_fields_item_spec_witness :
  exists o',
    add_page_fields_item frozen_clock (JObj Sample.post_a) 0
    = Ok (JObj o', 1) /\
    dict_get "page_id" o' = Some (JStr "123456_789") /\
    dict_get "created_time" o' = Some (JStr "2024-01-15T10:00:00+00:00").
Proof.
  destruct (add_page_fields_item_spec frozen_clock Sample.post_a 0)
    as (o' & R & _ & I & _ & K).
  exists o'. split; [exact R|]. split.
  - apply I. reflexivity.
  - rewrite K by discriminate. reflexivity.
Defined.

Lemma enrichment_yields_in_order_witness :
  forallb is_object [JObj Sample.post_a; JObj Sample.post_b] = true /\
  forallb post_item_shape [JObj Sample.post_a; JObj Sample.post_b] = true /\
  (exists out,
      add_page_fields ticking_clock [JObj Sample.post_a; JObj Sample.post_b] 0
      = (out, None) /\ List.length out = 2) /\
  (exists out,
      add_post_fields ticking_clock [JObj Sample.post_a; JObj Sample.post_b] 0
      = (out, None) /\ List.length out = 2).
Proof.
  destruct (enrichment_yields_in_order ticking_clock
              [JObj Sample.post_a; JObj Sample.post_b] 0) as [Hpage Hpost].
  split; [reflexivity|]. split; [reflexivity|]. split.
  - destruct (Hpage eq_refl) as (out & R & L & _). exists out.
    split; [exact R|exact L].
  - destruct (Hpost eq_refl) as (out & R & L & _). exists out.
    split; [exact R|exact L].
Defined.

Lemma add_post_fields_aborts_on_scalar_id_witness :
  forallb post_item_shape [JObj Sample.post_a] = true /\
  dict_get "id" [("id", JInt 7)] = Some (JInt 7) /\
  exists out,
    add_post_fields frozen_clock [JObj Sample.post_a] 0 = (out, None) /\
    add_post_fields frozen_clock
      ([JObj Sample.post_a] ++ JObj [("id", JInt 7)] :: [JObj Sample.post_b]) 0
    = (out, Some TypeError).
Proof.
  split; [reflexivity|]. split; [reflexivity|].
  destruct (add_post_fields_aborts_on_scalar_id frozen_clock
              [JObj Sample.post_a] [("id", JInt 7)] [JObj Sample.post_b]
              (JInt 7) 0 eq_refl eq_refl) as (out & R & _ & A).
  - right. right. exists 7%Z. reflexivity.
  - exists out. split; assumption.
Defined.

Lemma flatten_one_record_per_date_witness :
  exists out,
    flatten_daily_metrics_inner IsoBasic.fromisoformat_date ticking_clock
      "P1" Sample.items 0 = Ok out /\
    List.length out = 2.
Proof.
  eexists. split; [reflexivity|].
  destruct (flatten_one_record_per_date IsoBasic.fromisoformat_date
              ticking_clock "P1" Sample.items 0 _ eq_refl)
    as (groups & t' & _ & _ & _ & _ & L & _).
  exact L.
Defined.

Lemma add_missing_metrics_columns_witness :
  nth_error
    (dict_keys
       (add_missing_metrics
          [ (KStr "date", JStr "2024-01-15");
            (KStr "page_negative_feedback", JInt 2) ])) 2
  = Some (KStr "page_impressions_organic") /\
  forall v,
    dict_get (KStr "page_negative_feedback")
      (add_missing_metrics
         [ (KStr "date", JStr "2024-01-15");
           (KStr "page_negative_feedback", JInt 2) ]) = Some v ->
    v = JInt 2.
Proof.
  destruct (add_missing_metrics_columns
              [ (KStr "date", JStr "2024-01-15");
                (KStr "page_negative_feedback", JInt 2) ]) as (K & V & _).
  split; [rewrite K; reflexivity|].
  intros v G. destruct (V _ _ G) as [Q|[Q _]]; [|discriminate Q].
  assert (E : Some (JInt 2) = Some v) by exact Q.
  now injection E as <-.
Defined.

Lemma flatten_identity_columns_witness :
  exists out metrics,
    flatten_daily_metrics_inner IsoBasic.fromisoformat_date ticking_clock
      "P1" Sample.items 0 = Ok out /\
    nth_error out 1 = Some metrics /\
    dict_get (KStr "page_id") metrics = Some (JStr "P1") /\
    dict_get (KStr "date") metrics = Some (JStr "2024-01-16") /\
    dict_get (KStr "_extracted_at") metrics
    = Some (JStr (isoformat (ticking_clock 1))).
Proof.
  eexists. eexists. split; [reflexivity|]. split; [reflexivity|].
  destruct (flatten_identity_columns IsoBasic.fromisoformat_date
              ticking_clock "P1" Sample.items 0 _ 1 _ eq_refl eq_refl)
    as (d & Hd & _ & Hp & Hdate & Hx).
  assert (E : Some "2024-01-16" = Some d) by exact Hd.
  injection E as <-.
  split; [apply Hp; reflexivity|].
  split; [apply Hdate; reflexivity|apply Hx; reflexivity].
Defined.

Lemma flatten_all_or_nothing_witness :
  forallb metric_shape [JObj Sample.page_fans] = true /\
  flatten_daily_metrics_inner IsoBasic.fromisoformat_date frozen_clock "P1"
    ([JObj Sample.page_fans] ++ JStr "page_fans" :: []) 0
  = Raise AttributeError /\
  flatten_daily_metrics_inner IsoBasic.fromisoformat_date frozen_clock "P1"
    ([JObj Sample.page_fans]
     ++ JObj [ ("name", JArr []);
               ("values",
                 JArr ([JObj Sample.malformed]
                       ++ JObj (Sample.value_point
                                  "2024-01-15T08:00:00+00:00" 1) :: [])) ]
     :: []) 0
  = Raise TypeError /\
  flatten_daily_metrics_inner IsoBasic.fromisoformat_date frozen_clock "P1"
    ([JObj Sample.page_fans]
     ++ JObj [ ("name", JArr []);
               ("values",
                 JArr ([JObj Sample.malformed]
                       ++ JInt 5
                       :: [JObj (Sample.value_point
                                   "2024-01-15T08:00:00+00:00" 1)])) ]
     :: []) 0
  = Raise AttributeError.
Proof.
  split; [reflexivity|]. split; [|split].
  - destruct (flatten_all_or_nothing IsoBasic.fromisoformat_date frozen_clock
                "P1" [JObj Sample.page_fans] (JStr "page_fans") [] 0 eq_refl)
      as [Hobj _].
    apply Hobj. reflexivity.
  - destruct (flatten_all_or_nothing IsoBasic.fromisoformat_date frozen_clock
                "P1" [JObj Sample.page_fans]
                (JObj [ ("name", JArr []);
                        ("values",
                          JArr ([JObj Sample.malformed]
                                ++ JObj (Sample.value_point
                                           "2024-01-15T08:00:00+00:00" 1)
                                :: [])) ])
                [] 0 eq_refl)
      as (_ & Hname & _).
    apply (Hname [ ("name", JArr []);
                   ("values",
                     JArr ([JObj Sample.malformed]
                           ++ JObj (Sample.value_point
                                      "2024-01-15T08:00:00+00:00" 1)
                           :: [])) ]
             [JObj Sample.malformed]
             (Sample.value_point "2024-01-15T08:00:00+00:00" 1) []
             "2024-01-15"); reflexivity.
  - destruct (flatten_all_or_nothing IsoBasic.fromisoformat_date frozen_clock
                "P1" [JObj Sample.page_fans]
                (JObj [ ("name", JArr []);
                        ("values",
                          JArr ([JObj Sample.malformed]
                                ++ JInt 5
                                :: [JObj (Sample.value_point
                                            "2024-01-15T08:00:00+00:00" 1)])) ])
                [] 0 eq_refl)
      as (_ & _ & Hpoint).
    apply (Hpoint [ ("name", JArr []);
                    ("values",
                      JArr ([JObj Sample.malformed]
                            ++ JInt 5
                            :: [JObj (Sample.value_point
                                        "2024-01-15T08:00:00+00:00" 1)])) ]
             [JObj Sample.malformed] (JInt 5)
             [JObj (Sample.value_point "2024-01-15T08:00:00+00:00" 1)]);
      try reflexivity.
    right. intros v [Q|[]]. right. now inversion Q.
Defined.

Lemma flatten_missing_keys_witness :
  dict_get "values" [("name", JStr "page_fans")] = None /\
  flatten_daily_metrics_inner IsoBasic.fromisoformat_date frozen_clock "P1"
    ([JObj Sample.page_fans] ++ JObj [("name", JStr "page_fans")]
       :: [JObj Sample.no_period]) 0
  = flatten_daily_metrics_inner IsoBasic.fromisoformat_date frozen_clock "P1"
      ([JObj Sample.page_fans] ++ [JObj Sample.no_period]) 0 /\
  flatten_value_entry IsoBasic.fromisoformat_date frozen_clock "P1"
    (JStr "page_fans") (JObj [("value", JInt 3)]) ([], 0) = Ok ([], 0) /\
  (exists st',
      flatten_value_entry IsoBasic.fromisoformat_date frozen_clock "P1"
        (py_get [("period", JStr "day")] "name")
        (JObj [("end_time", JStr "2024-01-15T08:00:00Z")]) ([], 0) = Ok st' /\
      lookup2 "2024-01-15" KNone (fst st') = Some JNull) /\
  exists out grouped,
    flatten_daily_metrics_inner IsoBasic.fromisoformat_date frozen_clock "P1"
      ([JObj Sample.page_fans]
       ++ JObj [ ("name", JStr "page_fan_adds");
                 ("values",
                   JArr ([JObj [("value", JInt 3)]]
                         ++ JObj [("end_time", JStr "2024-01-16T08:00:00Z")]
                         :: [])) ]
       :: [JObj Sample.weekly]) 0 = Ok out /\
    In (add_missing_metrics grouped) out /\
    dict_get (KStr "page_fan_adds") (add_missing_metrics grouped)
    = Some JNull.
Proof.
  destruct (flatten_missing_keys IsoBasic.fromisoformat_date frozen_clock "P1")
    as (Hvalues & Hend & Hname & _ & _ & Hrun & _).
  split; [reflexivity|]. split; [apply Hvalues; reflexivity|].
  split; [apply Hend; reflexivity|]. split.
  - destruct (Hname [("period", JStr "day")]
                [("end_time", JStr "2024-01-15T08:00:00Z")] ([], 0)
                "2024-01-15" eq_refl eq_refl eq_refl) as (st' & R & _ & V).
    exists st'. split; [exact R|]. apply V. reflexivity.
  - destruct (Hrun [JObj Sample.page_fans]
                [ ("name", JStr "page_fan_adds");
                  ("values",
                    JArr ([JObj [("value", JInt 3)]]
                          ++ JObj [("end_time", JStr "2024-01-16T08:00:00Z")]
                          :: [])) ]
                [JObj Sample.weekly] [JObj [("value", JInt 3)]]
                [("end_time", JStr "2024-01-16T08:00:00Z")] [] 0 _
                "2024-01-16" (KStr "page_fan_adds")
                eq_refl eq_refl eq_refl eq_refl eq_refl eq_refl eq_refl
                eq_refl)
      as (groups & t' & grouped & G & D & I & C).
    eexists. exists grouped. split; [reflexivity|]. split; [exact I|exact C].
Defined.

Lemma post_metrics_resource_count_witness :
  exists out,
    post_metrics_resource IsoBasic.fromisoformat_date ticking_clock
      Sample.first_fails Sample.listing 0 = (out, None) /\
    List.length out = 2.
Proof.
  eexists. split; [reflexivity|].
  destruct (post_metrics_resource_count IsoBasic.fromisoformat_date
              ticking_clock Sample.first_fails Sample.listing 0 _ _ eq_refl)
    as (_ & L & _).
  apply L. reflexivity.
Defined.

Lemma post_metrics_resource_aborts_at_post_witness :
  py_subscript (JObj [("created_time", JStr "yesterday")]) "id"
  = Raise KeyError /\
  exists out,
    post_metrics_resource IsoBasic.fromisoformat_date ticking_clock
      Sample.reachable
      (HttpJson (JObj [ ("data",
         JArr ([JObj Sample.post_a]
               ++ JObj [("created_time", JStr "yesterday")]
               :: [JObj Sample.post_b])) ])) 0
    = (out, Some KeyError) /\
    List.length out = 1.
Proof.
  split; [reflexivity|].
  destruct (post_metrics_resource_aborts_at_post IsoBasic.fromisoformat_date
              ticking_clock Sample.reachable
              [ ("data",
                  JArr ([JObj Sample.post_a]
                        ++ JObj [("created_time", JStr "yesterday")]
                        :: [JObj Sample.post_b])) ]
              [JObj Sample.post_a] (JObj [("created_time", JStr "yesterday")])
              [JObj Sample.post_b] 0 KeyError eq_refl eq_refl eq_refl)
    as (out & R & L & _).
  - intros; reflexivity.
  - exists out. split; [exact R|exact L].
Defined.

Lemma post_impressions_unique_never_stored_witness :
  exists r,
    nth_error
      (fst (post_metrics_resource IsoBasic.fromisoformat_date ticking_clock
              Sample.reachable Sample.listing 0)) 0 = Some r /\
    dict_get (KStr "post_impressions_unique") r = None /\
    dict_get (KStr "post_clicks") r = Some (JInt 5).
Proof.
  eexists. split; [reflexivity|].
  destruct (post_impressions_unique_never_stored IsoBasic.fromisoformat_date
              ticking_clock Sample.reachable Sample.listing 0 _ _ 0 _
              eq_refl eq_refl) as (N & _).
  split; [exact N|reflexivity].
Defined.

Lemma post_record_identity_witness :
  exists r,
    nth_error
      (fst (post_metrics_resource IsoBasic.fromisoformat_date ticking_clock
              Sample.first_fails Sample.listing 0)) 0 = Some r /\
    dict_get (KStr "post_id") r = Some (JStr "123456_789").
Proof.
  eexists. split; [reflexivity|].
  destruct (post_record_identity IsoBasic.fromisoformat_date ticking_clock
              Sample.first_fails Sample.listing 0 _ _ 0 _ eq_refl eq_refl)
    as (o & post_id & n & P & I & _ & Hid & _).
  assert (E : Some (JObj Sample.post_a) = Some (JObj o)) by exact P.
  injection E as <-.
  assert (E : Some (JStr "123456_789") = Some post_id) by exact I.
  injection E as <-.
  apply Hid. reflexivity.
Defined.

Lemma replace_Z_spec_witness :
  contains_char "Z" "2024-01-16T08:00:00" = false /\
  parse_date IsoBasic.fromisoformat_date (JStr ("2024-01-16T08:00:00" ++ "Z"))
  = IsoBasic.fromisoformat_date ("2024-01-16T08:00:00" ++ "+00:00") /\
  contains_char "Z" (replace_char "Z" "+00:00" "2024-01-16T08:00:00Z") = false.
Proof.
  destruct (replace_Z_spec IsoBasic.fromisoformat_date) as (_ & _ & H & N).
  split; [reflexivity|]. split; [apply H; reflexivity|apply N].
Defined.

Lemma validate_pipeline_output_sound_witness :
  Validate.validate_pipeline_output ValidateSample.complete = true /\
  exists actual_columns,
    Validate.describe ValidateSample.complete "post_history"
    = Some actual_columns /\
    In "message" actual_columns.
Proof.
  split; [reflexivity|].
  destruct (validate_pipeline_output_sound ValidateSample.complete eq_refl)
    as (_ & actual_tables & _ & A).
  destruct (A "post_history"
              ["id"; "message"; "created_time"; "page_id"; "_extracted_at"])
    as (_ & actual_columns & D & C).
  - right. left. reflexivity.
  - exists actual_columns. split; [exact D|]. apply C. right. left. reflexivity.
Defined.

Lemma validation_report_characterised_witness :
  Validate.connect ValidateSample.no_message = true /\
  Validate.show_tables ValidateSample.no_message = Some ValidateSample.tables /\
  forallb (ValidateSpec.table_answers ValidateSample.no_message
             ValidateSample.tables) Validate.expected_tables = true /\
  ValidateSpec.lost_points ValidateSample.no_message ValidateSample.tables
    Validate.expected_tables = 1 /\
  Validate.validation_report ValidateSample.no_message
  = Validate.MostlyCompatible.
Proof.
  split; [reflexivity|]. split; [reflexivity|]. split; [reflexivity|].
  split; [reflexivity|].
  destruct (validation_report_characterised ValidateSample.no_message
              ValidateSample.tables eq_refl eq_refl) as (_ & H & _).
  exact (H eq_refl).
Defined.

Lemma validation_script_exit_status_witness :
  Validate.exit_status ValidateSample.complete ValidateSample.everywhere = 0 /\
  Validate.exit_status ValidateSample.complete ValidateSample.nowhere = 1.
Proof.
  split.
  - destruct (validation_script_exit_status ValidateSample.complete
                ValidateSample.everywhere) as [[_ H] _].
    apply H. split; [reflexivity|]. split; [reflexivity|].
    intros; reflexivity.
  - destruct (validation_script_exit_status ValidateSample.complete
                ValidateSample.nowhere) as [_ H].
    apply H. reflexivity.
Defined.

Lemma setup_only_adds_witness :
  exists fs',
    Setup.setup_dlt_environment SetupSample.fresh = (fs', None) /\
    dict_get "facebook_pages_pipeline.py" fs' = Some (Setup.File "import dlt") /\
    dict_get "README.md" fs' = None.
Proof.
  eexists. split; [reflexivity|].
  destruct (setup_only_adds SetupSample.fresh _ _ eq_refl) as [K N].
  split; [apply K; reflexivity|].
  apply N; [reflexivity|discriminate ..].
Defined.

Lemma setup_returns_witness :
  exists fs',
    Setup.setup_dlt_environment SetupSample.fresh = (fs', None) /\
    dict_get Setup.dlt_dir fs' = Some Setup.Dir /\
    dict_get Setup.secrets_file fs' = Some (Setup.File SetupSample.template) /\
    dict_get Setup.config_file fs' = Some (Setup.File Setup.config_content).
Proof.
  eexists. split; [reflexivity|].
  destruct (setup_returns SetupSample.fresh _ eq_refl) as (D & S & C).
  split; [exact D|]. split; [|exact C].
  destruct S as (content & T & S).
  assert (E : Some (Setup.File SetupSample.template)
              = Some (Setup.File content)) by exact T.
  injection E as <-. exact S.
Defined.

Lemma setup_returns_iff_witness :
  (exists fs', Setup.setup_dlt_environment SetupSample.fresh = (fs', None)) /\
  ~ (exists fs',
        Setup.setup_dlt_environment SetupSample.no_template = (fs', None)).
Proof.
  split.
  - apply (proj2 (setup_returns_iff SetupSample.fresh)). split.
    + intros c Q. discriminate Q.
    + right. exists SetupSample.template. reflexivity.
  - intro R. apply (proj1 (setup_returns_iff SetupSample.no_template)) in R.
    destruct R as [_ [S|[content T]]]; [apply S; reflexivity|discriminate T].
Defined.

Lemma setup_raises_witness :
  exists fs',
    Setup.setup_dlt_environment SetupSample.no_template
    = (fs', Some Setup.FileNotFoundError) /\
    dict_get Setup.dlt_dir fs' = Some Setup.Dir /\
    dict_get Setup.config_file fs' = None.
Proof.
  eexists. split; [reflexivity|].
  destruct (setup_raises SetupSample.no_template _ _ eq_refl) as (_ & C & D & _).
  split; [exact D|]. rewrite C. reflexivity.
Defined.

Lemma setup_twice_witness :
  exists fs',
    Setup.setup_dlt_environment SetupSample.fresh = (fs', None) /\
    Setup.setup_dlt_environment fs' = (fs', None).
Proof.
  eexists. split; [reflexivity|].
  apply (setup_twice SetupSample.fresh). reflexivity.
Defined.



Lemma main_missing_dependency_witness :
  In "requests" Setup.required_packages /\
  SetupSample.only_dlt "requests" = false /\
  Setup.main SetupSample.only_dlt Utf8.decodes SetupSample.passes
    SetupSample.passes SetupSample.fresh
  = (SetupSample.fresh, Setup.Exit1 "📦 Dependencies").
Proof.
  split; [right; left; reflexivity|]. split; [reflexivity|].
  apply (main_missing_dependency SetupSample.only_dlt Utf8.decodes
           SetupSample.passes SetupSample.passes SetupSample.fresh "requests");
    [right; left; reflexivity|reflexivity].
Defined.

Lemma main_completed_witness :
  Setup.main SetupSample.all_installed Utf8.decodes SetupSample.passes
    SetupSample.passes SetupSample.edited
  = (SetupSample.edited, Setup.Completed 5).
Proof.
  apply (proj2 (main_completed SetupSample.all_installed Utf8.decodes
                  SetupSample.passes SetupSample.passes SetupSample.edited
                  SetupSample.edited 5)).
  split; [reflexivity|]. split; [intros; reflexivity|].
  exists SetupSample.edited, SetupSample.edited. repeat split; reflexivity.
Defined.

